(** * startup-express: request validation, error classification, response shaping

    A shallow embedding of
      - [src/validators/index.ts]  ([validate], [validateAll]),
      - [src/errorHandler.ts]      ([notFoundHandler], [errorHandler]),
      - the response helpers       ([createPaginationMeta]),
      - [src/types.ts]             ([ErrorCode], [AppError] and its factories),
      - [src/config.ts]            ([config]),
    together with the properties the specification states about them.

    Express middleware is modelled by explicit state passing: a middleware
    takes the request and returns the (possibly mutated) request together
    with the ordered list of observable effects it performed (a log entry,
    a response, a call of [next]).  A request records whether its [query]
    can be assigned (Express 4) or has only a getter (Express 5).  The
    pagination helpers compute on JavaScript numbers, IEEE 754 doubles. *)

From Stdlib Require Import List String Ascii ZArith Bool Lia.
From Stdlib Require Import SpecFloat.
From Stdlib Require Import DecimalString.
Import ListNotations.

Local Open Scope string_scope.
Local Open Scope Z_scope.

(* ===================================================================== *)
(** ** JavaScript values *)
(* ===================================================================== *)

(** The values that travel through request sections, error details and
    response bodies.  The numbers that occur in them are integral (status
    codes, the duplicate-key code 11000). *)
#[warnings="-register-all"]
Inductive JValue : Type :=
| JUndefined
| JNull
| JBool (b : bool)
| JNum (n : Z)
| JStr (s : string)
| JArr (items : list JValue)
| JObj (fields : list (string * JValue)).

(** [if (v)], [v && ...], [v || ...]: JavaScript truthiness. *)
Definition truthy (v : JValue) : bool :=
  match v with
  | JUndefined | JNull => false
  | JBool b => b
  | JNum n => negb (n =? 0)
  | JStr s => negb (s =? "")%string
  | JArr _ | JObj _ => true
  end.

(** [v === n] for a number literal and [v === s] for a string literal. *)
Definition strict_eq_number (v : JValue) (n : Z) : bool :=
  match v with
  | JNum m => m =? n
  | _ => false
  end.

Definition strict_eq_string (v : JValue) (s : string) : bool :=
  match v with
  | JStr t => (t =? s)%string
  | _ => false
  end.

(** [a || b] on strings: the left operand unless it is the empty string. *)
Definition str_or (a b : string) : string :=
  if (a =? "")%string then b else a.

(** Property lookup on an object literal: the value of the last write to
    key [k]; object literals in the modelled code never repeat a key, so
    the first match is the only one. *)
Fixpoint lookup (k : string) (fs : list (string * JValue)) : option JValue :=
  match fs with
  | [] => None
  | (k', v) :: rest => if (k =? k')%string then Some v else lookup k rest
  end.

Definition field (k : string) (v : JValue) : option JValue :=
  match v with
  | JObj fs => lookup k fs
  | _ => None
  end.

Definition keys (v : JValue) : list string :=
  match v with
  | JObj fs => map fst fs
  | _ => []
  end.

Definition is_undefined (v : JValue) : bool :=
  match v with
  | JUndefined => true
  | _ => false
  end.

Definition null_if_undefined (v : JValue) : JValue :=
  if is_undefined v then JNull else v.

Definition defined_property (kv : string * JValue) : bool :=
  negb (is_undefined (snd kv)).

(** What [res.json(v)] puts on the wire ([JSON.stringify]): a property
    whose value is [undefined] is left out of its object, an [undefined]
    array element is written as [null]. *)
Fixpoint jsonify (v : JValue) : JValue :=
  match v with
  | JArr items => JArr (map (fun x => null_if_undefined (jsonify x)) items)
  | JObj fs =>
      JObj (filter defined_property
              (map (fun kv : string * JValue =>
                      let (k, x) := kv in (k, jsonify x)) fs))
  | _ => v
  end.

(** [String(n)] for an integral number. *)
Definition string_of_Z (n : Z) : string :=
  NilEmpty.string_of_int (Z.to_int n).

(** [Array.prototype.join]. *)
Definition join (sep : string) (l : list string) : string :=
  String.concat sep l.

(* ===================================================================== *)
(** ** JavaScript numbers *)
(* ===================================================================== *)

(** The arithmetic of the pagination helpers is done on JavaScript numbers:
    IEEE 754 binary64, with 53 bits of mantissa and infinities at exponent
    1024.  [/] rounds to nearest, ties to even. *)
Definition number : Type := spec_float.

(** An integer literal or integer argument, as the double nearest to it. *)
Definition number_of_Z (n : Z) : number := binary_normalize 53 1024 n 0 false.

(** [x / y]. *)
Definition Number_div (x y : number) : number := SFdiv 53 1024 x y.

(** [x < y]; false when either side is [NaN]. *)
Definition Number_lt (x y : number) : bool := SFltb x y.

(** [Math.ceil]: the least integer not below [x].  Zeros, infinities and
    [NaN] are returned as they are, and so is a finite number without
    fraction bits; a result of zero keeps the sign of [x]. *)
Definition Math_ceil (x : number) : number :=
  match x with
  | S754_finite s m e =>
      if 0 <=? e then x
      else
        let n := - ((- cond_Zopp s (Zpos m)) / 2 ^ (- e)) in
        if n =? 0 then S754_zero s else binary_normalize 53 1024 n 0 false
  | _ => x
  end.

(** [Number.MAX_SAFE_INTEGER]. *)
Definition MAX_SAFE_INTEGER : Z := 2 ^ 53 - 1.

(** [Number.isSafeInteger], for an integer. *)
Definition safe_integer (n : Z) : Prop := Z.abs n <= MAX_SAFE_INTEGER.

(** The integer ceiling of [t / l]. *)
Definition ceiling (t l : Z) : Z := - ((- t) / l).

(** A mantissa of 53 bits after rounding: either it still has 53 bits, or it
    is [2^53] and is renormalised to [2^52] with the exponent one up. *)
Definition renormalised (s : bool) (m_r e : Z) : number :=
  if m_r <? 2 ^ 53 then S754_finite s (Z.to_pos m_r) e
  else S754_finite s (Z.to_pos (2 ^ 52)) (e + 1).

(** [m_r] is one of the two multiples of the unit around [T / D], and the
    nearer one (either of them on a tie). *)
Definition rounds_to (T D m_t m_r : Z) : Prop :=
  m_t * D <= T < (m_t + 1) * D /\
  ((m_r = m_t /\ 2 * (T - m_t * D) <= D) \/
   (m_r = m_t + 1 /\ D <= 2 * (T - m_t * D))).

(** A finite double with a full mantissa that holds the non-zero integer
    [n]: its mantissa is [|n|] shifted left by [- e] places. *)
Definition normal_of (n : Z) (x : number) : Prop :=
  exists m e,
    x = S754_finite (n <? 0) m e /\
    Zpos (digits2_pos m) = 53 /\ -52 <= e <= 0 /\
    Zpos m = Z.abs n * 2 ^ (- e).

(** [x] is a double that holds the integer [n]; a zero of either sign
    holds [0]. *)
Definition holds (n : Z) (x : number) : Prop :=
  (n = 0 /\ exists s, x = S754_zero s) \/ (n <> 0 /\ normal_of n x).

(* ===================================================================== *)
(** ** Response helpers: pagination *)
(* ===================================================================== *)

Record PaginationMeta : Type := mkPaginationMeta {
  page : number;
  limit : number;
  total : number;
  totalPages : number;
  hasNext : bool;
  hasPrev : bool
}.

(** [createPaginationMeta(page, limit, total)]: the quotient is formed
    first, in doubles, then rounded up; [page > 1] is [1 < page]. *)
Definition createPaginationMeta (page limit total : number) : PaginationMeta :=
  let totalPages := Math_ceil (Number_div total limit) in
  {| page := page;
     limit := limit;
     total := total;
     totalPages := totalPages;
     hasNext := Number_lt page totalPages;
     hasPrev := Number_lt (number_of_Z 1) page |}.

(* ===================================================================== *)
(** ** src/types.ts: error codes and error objects *)
(* ===================================================================== *)

(** The constants of the [http-status-codes] package used by the code. *)
Module StatusCodes.
Definition OK : Z := 200.
Definition BAD_REQUEST : Z := 400.
Definition UNAUTHORIZED : Z := 401.
Definition CONFLICT : Z := 409.
Definition INTERNAL_SERVER_ERROR : Z := 500.
Definition SERVICE_UNAVAILABLE : Z := 503.
End StatusCodes.

Module ErrorCode.
Inductive t : Type :=
| BAD_REQUEST
| UNAUTHORIZED
| FORBIDDEN
| NOT_FOUND
| CONFLICT
| VALIDATION_ERROR
| RATE_LIMIT_EXCEEDED
| INTERNAL_SERVER_ERROR
| SERVICE_UNAVAILABLE
| DATABASE_ERROR.

(** The string value of each enum member. *)
Definition value (c : t) : string :=
  match c with
  | BAD_REQUEST => "BAD_REQUEST"
  | UNAUTHORIZED => "UNAUTHORIZED"
  | FORBIDDEN => "FORBIDDEN"
  | NOT_FOUND => "NOT_FOUND"
  | CONFLICT => "CONFLICT"
  | VALIDATION_ERROR => "VALIDATION_ERROR"
  | RATE_LIMIT_EXCEEDED => "RATE_LIMIT_EXCEEDED"
  | INTERNAL_SERVER_ERROR => "INTERNAL_SERVER_ERROR"
  | SERVICE_UNAVAILABLE => "SERVICE_UNAVAILABLE"
  | DATABASE_ERROR => "DATABASE_ERROR"
  end.
End ErrorCode.

(** One entry of [ZodError.errors]: the path into the parsed value (object
    keys and array indices), the message and the issue code. *)
Inductive PathSegment : Type :=
| Key (k : string)
| Index (i : N).

Definition segment_string (p : PathSegment) : string :=
  match p with
  | Key k => k
  | Index i => string_of_Z (Z.of_N i)
  end.

Module ZodIssue.
Record t : Type := mk {
  path : list PathSegment;
  message : string;
  code : string
}.
End ZodIssue.

(** [e.path.join('.')] *)
Definition dotted (p : list PathSegment) : string :=
  join "." (map segment_string p).

(** What [instanceof] can tell about a thrown object, with the fields the
    class adds to [Error]. *)
Inductive ErrorClass : Type :=
| ZodErrorInstance (errors : list ZodIssue.t)
| AppErrorInstance (statusCode : Z) (errorCode : ErrorCode.t) (details : JValue)
| OtherError.

(** A thrown object: its class, the standard [name], [message] and [stack]
    of an [Error], and the ad-hoc [code] property drivers attach. *)
Module Err.
Record t : Type := mk {
  class : ErrorClass;
  name : string;
  message : string;
  stack : option string;
  code : JValue
}.
End Err.

(** The ambient runtime a handler reads: [process.env], the result of
    [new Date().toISOString()] at the time of the call, and the stack trace
    [Error.captureStackTrace] records when an error is constructed. *)
Record Runtime : Type := mkRuntime {
  NODE_ENV : option string;
  PORT : option string;
  now : string;
  trace : string
}.

Module AppError.
(** [new AppError(message, statusCode = 500,
                  errorCode = ErrorCode.INTERNAL_SERVER_ERROR, details?)];
    [isOperational] is the constant [true] and is not read by the
    handlers.  The class does not set [name], which stays "Error". *)
Definition new (rt : Runtime) (message : string) (statusCode : option Z)
    (errorCode : option ErrorCode.t) (details : JValue) : Err.t :=
  {| Err.class :=
       AppErrorInstance
         (match statusCode with Some c => c | None => 500 end)
         (match errorCode with
          | Some c => c
          | None => ErrorCode.INTERNAL_SERVER_ERROR
          end)
         details;
     Err.name := "Error";
     Err.message := message;
     Err.stack := Some (trace rt);
     Err.code := JUndefined |}.

Definition default (d : string) (message : option string) : string :=
  match message with Some m => m | None => d end.

Definition badRequest rt (message : string) (details : JValue) :=
  new rt message (Some 400) (Some ErrorCode.BAD_REQUEST) details.

Definition unauthorized rt (message : option string) (details : JValue) :=
  new rt (default "Unauthorized" message) (Some 401)
      (Some ErrorCode.UNAUTHORIZED) details.

Definition forbidden rt (message : option string) (details : JValue) :=
  new rt (default "Forbidden" message) (Some 403)
      (Some ErrorCode.FORBIDDEN) details.

Definition notFound rt (message : option string) (details : JValue) :=
  new rt (default "Resource not found" message) (Some 404)
      (Some ErrorCode.NOT_FOUND) details.

Definition conflict rt (message : string) (details : JValue) :=
  new rt message (Some 409) (Some ErrorCode.CONFLICT) details.

Definition validation rt (message : string) (details : JValue) :=
  new rt message (Some 422) (Some ErrorCode.VALIDATION_ERROR) details.

Definition internal rt (message : option string) (details : JValue) :=
  new rt (default "Internal server error" message) (Some 500)
      (Some ErrorCode.INTERNAL_SERVER_ERROR) details.
End AppError.

(** A [ZodError] carrying [issues], as [schema.parse] throws it. *)
Definition ZodError_new (rt : Runtime) (issues : list ZodIssue.t)
    (message : string) : Err.t :=
  {| Err.class := ZodErrorInstance issues;
     Err.name := "ZodError";
     Err.message := message;
     Err.stack := Some (trace rt);
     Err.code := JUndefined |}.

(** [new Error(message)] *)
Definition Error_new (rt : Runtime) (message : string) : Err.t :=
  {| Err.class := OtherError;
     Err.name := "Error";
     Err.message := message;
     Err.stack := Some (trace rt);
     Err.code := JUndefined |}.

(* ===================================================================== *)
(** ** src/config.ts *)
(* ===================================================================== *)

Record Config : Type := mkConfig {
  env : string;
  port : JValue;
  isProduction : bool;
  isDevelopment : bool;
  isTest : bool
}.

(** [process.env.X === 'lit'] *)
Definition env_is (v : option string) (lit : string) : bool :=
  match v with
  | Some s => (s =? lit)%string
  | None => false
  end.

Definition config (rt : Runtime) : Config :=
  {| env := match NODE_ENV rt with
            | Some s => str_or s "development"
            | None => "development"
            end;
     port := match PORT rt with
             | Some s => if (s =? "")%string then JNum 3000 else JStr s
             | None => JNum 3000
             end;
     isProduction := env_is (NODE_ENV rt) "production";
     isDevelopment := env_is (NODE_ENV rt) "development";
     isTest := env_is (NODE_ENV rt) "test" |}.

(* ===================================================================== *)
(** ** Requests and observable effects *)
(* ===================================================================== *)

(** [type ValidationSource = 'body' | 'query' | 'params' | 'headers'] *)
Module Source.
Inductive t : Type := body | query | params | headers.

Definition name (s : t) : string :=
  match s with
  | body => "body"
  | query => "query"
  | params => "params"
  | headers => "headers"
  end.
End Source.

Definition ValidationSource : Type := Source.t.

Module Req.
Record t : Type := mk {
  body : JValue;
  query : JValue;
  params : JValue;
  headers : JValue;
  requestId : option string;
  originalUrl : string;
  path : string;
  method : string;
  ip : JValue;
  query_getter_only : option string
    (* How [req.query = v] ends.  On Express 4 [query] is an ordinary
       property and the assignment succeeds: [None].  On Express 5, which
       the package also declares as a peer, [query] has a getter and no
       setter, and the assignment throws a TypeError: [Some trace], with
       the stack trace of that error. *)
}.

(** [req[source]] *)
Definition get (req : t) (source : ValidationSource) : JValue :=
  match source with
  | Source.body => body req
  | Source.query => query req
  | Source.params => params req
  | Source.headers => headers req
  end.
End Req.

(** The request with the section named [source] replaced by [value]:
    what an assignment [req[source] = value] does when it succeeds. *)
Definition set_section (req : Req.t) (source : ValidationSource)
    (value : JValue) : Req.t :=
  match source with
  | Source.body =>
      Req.mk value (Req.query req) (Req.params req) (Req.headers req)
        (Req.requestId req) (Req.originalUrl req) (Req.path req)
        (Req.method req) (Req.ip req) (Req.query_getter_only req)
  | Source.query =>
      Req.mk (Req.body req) value (Req.params req) (Req.headers req)
        (Req.requestId req) (Req.originalUrl req) (Req.path req)
        (Req.method req) (Req.ip req) (Req.query_getter_only req)
  | Source.params =>
      Req.mk (Req.body req) (Req.query req) value (Req.headers req)
        (Req.requestId req) (Req.originalUrl req) (Req.path req)
        (Req.method req) (Req.ip req) (Req.query_getter_only req)
  | Source.headers =>
      Req.mk (Req.body req) (Req.query req) (Req.params req) value
        (Req.requestId req) (Req.originalUrl req) (Req.path req)
        (Req.method req) (Req.ip req) (Req.query_getter_only req)
  end.

(** How a call ends: it returns a value or throws. *)
Inductive Completion (A : Type) : Type :=
| Return (value : A)
| Throw (error : Err.t).
Arguments Return {A} value.
Arguments Throw {A} error.

(** The [TypeError] of an assignment to a property that has only a
    getter. *)
Definition TypeError_getter_only (trace : string) : Err.t :=
  {| Err.class := OtherError;
     Err.name := "TypeError";
     Err.message :=
       "Cannot set property query of #<IncomingMessage> which has only a getter";
     Err.stack := Some trace;
     Err.code := JUndefined |}.

(** Whether [req[source] = value] succeeds on this request. *)
Definition assignable (req : Req.t) (source : ValidationSource) : bool :=
  match source, Req.query_getter_only req with
  | Source.query, Some _ => false
  | _, _ => true
  end.

(** [req[source] = value]: the section is replaced, or, for a getter-only
    [query], the assignment throws and the request is as before. *)
Definition assign_section (req : Req.t) (source : ValidationSource)
    (value : JValue) : Completion Req.t :=
  match source, Req.query_getter_only req with
  | Source.query, Some trace => Throw (TypeError_getter_only trace)
  | _, _ => Return (set_section req source value)
  end.

(** [req.get(h)]: the header of that name, [undefined] when absent. *)
Definition req_get (req : Req.t) (h : string) : JValue :=
  match field h (Req.headers req) with
  | Some v => v
  | None => JUndefined
  end.

(** What a middleware does that the outside can observe, in order. *)
Inductive Effect : Type :=
| LogError (message : string) (meta : JValue)
    (* logger.error(message, meta) *)
| Respond (status : Z) (payload : JValue)
    (* res.status(status).json(obj), payload = the serialised obj *)
| Next (error : option Err.t).
    (* next() and next(error) *)

Definition optional_string (s : option string) : JValue :=
  match s with
  | Some x => JStr x
  | None => JUndefined
  end.

(* ===================================================================== *)
(** ** src/validators/index.ts *)
(* ===================================================================== *)

(** A [ZodSchema] is used through [schema.parse(data)] only. *)
Definition ZodSchema : Type := JValue -> Completion JValue.

(** The entry [validate] builds from one issue. *)
Definition formattedError (err : ZodIssue.t) : JValue :=
  JObj [("field", JStr (dotted (ZodIssue.path err)));
        ("message", JStr (ZodIssue.message err));
        ("code", JStr (ZodIssue.code err))].

(** The default of [validate]'s [source] parameter. *)
Definition source_or_default (source : option ValidationSource) : ValidationSource :=
  match source with
  | Some s => s
  | None => Source.body
  end.

(** The [catch] block of [validate]: a [ZodError] is answered on the spot,
    anything else goes to [next]. *)
Definition validate_catch (req : Req.t) (error : Err.t)
    : Req.t * list Effect :=
  match Err.class error with
  | ZodErrorInstance errors =>
      let formattedErrors := map formattedError errors in
      (req,
       [Respond StatusCodes.BAD_REQUEST
          (jsonify (JObj [("success", JBool false);
                          ("message", JStr "Validation failed");
                          ("errors", JArr formattedErrors)]))])
  | _ => (req, [Next (Some error)])
  end.

(** [validate(schema, source = 'body', _options = {})]; the options are
    not read.  Returns the request after the call and the effects.  The
    parse, the assignment and [next()] are inside the [try]. *)
Definition validate (schema : ZodSchema) (source : option ValidationSource)
    (req : Req.t) : Req.t * list Effect :=
  let source := source_or_default source in
  let data := Req.get req source in
  match schema data with
  | Return validated =>
      match assign_section req source validated with
      | Return req' => (req', [Next None])
      | Throw error => validate_catch req error
      end
  | Throw error => validate_catch req error
  end.

(** The entry [validateAll] pushes for one issue of [source]. *)
Definition sourceError (source : ValidationSource) (err : ZodIssue.t) : JValue :=
  JObj [("source", JStr (Source.name source));
        ("field", JStr (dotted (ZodIssue.path err)));
        ("message", JStr (ZodIssue.message err))].

(** The inner [catch] block of [validateAll]: the issues of a [ZodError]
    are pushed, anything else is dropped. *)
Definition validateAll_catch (req : Req.t) (errors : list JValue)
    (source : ValidationSource) (error : Err.t) : Req.t * list JValue :=
  match Err.class error with
  | ZodErrorInstance issues =>
      (req, (errors ++ map (sourceError source) issues)%list)
  | _ => (req, errors)
  end.

(** One iteration of the [for ... of Object.entries(schemas)] loop, on the
    loop state: the request and the [errors] array.  The parse and the
    assignment are inside the inner [try]. *)
Definition validateAll_step (st : Req.t * list JValue)
    (entry : ValidationSource * ZodSchema) : Req.t * list JValue :=
  let '(req, errors) := st in
  let '(source, schema) := entry in
  let data := Req.get req source in
  match schema data with
  | Return validated =>
      match assign_section req source validated with
      | Return req' => (req', errors)
      | Throw error => validateAll_catch req errors source error
      end
  | Throw error => validateAll_catch req errors source error
  end.

Definition validateAll_loop (schemas : list (ValidationSource * ZodSchema))
    (st : Req.t * list JValue) : Req.t * list JValue :=
  fold_left validateAll_step schemas st.

(** [validateAll(schemas)]; [schemas] is given as [Object.entries] lists
    it, in insertion order. *)
Definition validateAll (schemas : list (ValidationSource * ZodSchema))
    (req : Req.t) : Req.t * list Effect :=
  let '(req', errors) := validateAll_loop schemas (req, []) in
  if (0 <? Z.of_nat (List.length errors)) then
    (req',
     [Respond StatusCodes.BAD_REQUEST
        (jsonify (JObj [("success", JBool false);
                        ("message", JStr "Validation failed");
                        ("errors", JArr errors)]))])
  else (req', [Next None]).

(* ===================================================================== *)
(** ** src/errorHandler.ts *)
(* ===================================================================== *)

(** [notFoundHandler]: builds the 404 error and hands it to [next]. *)
Definition notFoundHandler (rt : Runtime) (req : Req.t) : list Effect :=
  let error :=
    AppError.notFound rt (Some ("Route not found: " ++ Req.originalUrl req))
      JUndefined in
  [Next (Some error)].

(** The four variables [errorHandler] assigns in its [if]/[else if] chain. *)
Record Classification : Type := mkClassification {
  statusCode : Z;
  message : string;
  errorCode : ErrorCode.t;
  details : JValue
}.

(** The classification chain of [errorHandler] (lines 22-68): the defaults,
    then the first branch whose test holds. *)
Definition classify (err : Err.t) : Classification :=
  let statusCode := StatusCodes.INTERNAL_SERVER_ERROR in
  let message := "Something went wrong" in
  let errorCode := ErrorCode.INTERNAL_SERVER_ERROR in
  let details := JUndefined in
  match Err.class err with
  | ZodErrorInstance errors =>
      mkClassification StatusCodes.BAD_REQUEST "Validation failed"
        ErrorCode.VALIDATION_ERROR (JArr (map formattedError errors))
  | AppErrorInstance sc ec d =>
      mkClassification sc (Err.message err) ec d
  | OtherError =>
      if (Err.name err =? "ValidationError")%string then
        mkClassification StatusCodes.BAD_REQUEST "Validation Error"
          ErrorCode.VALIDATION_ERROR details
      else if ((Err.name err =? "UnauthorizedError")%string
               || (Err.name err =? "JsonWebTokenError")%string)%bool then
        mkClassification StatusCodes.UNAUTHORIZED "Unauthorized"
          ErrorCode.UNAUTHORIZED details
      else if (Err.name err =? "CastError")%string then
        mkClassification StatusCodes.BAD_REQUEST "Invalid ID format"
          ErrorCode.BAD_REQUEST details
      else if strict_eq_number (Err.code err) 11000 then
        mkClassification StatusCodes.CONFLICT "Duplicate field value"
          ErrorCode.CONFLICT details
      else if strict_eq_string (Err.code err) "ECONNREFUSED" then
        mkClassification StatusCodes.SERVICE_UNAVAILABLE
          "Service unavailable" ErrorCode.SERVICE_UNAVAILABLE details
      else
        mkClassification statusCode (str_or (Err.message err) message)
          errorCode details
  end.

(** [config.isDevelopment && err.stack] as a condition. *)
Definition stack_shown (rt : Runtime) (err : Err.t) : bool :=
  (isDevelopment (config rt)
   && match Err.stack err with
      | Some s => negb (s =? "")%string
      | None => false
      end)%bool.

(** The object [errorHandler] passes to [res.json] (lines 84-100). *)
Definition errorResponse (rt : Runtime) (err : Err.t) (req : Req.t) : JValue :=
  let c := classify err in
  JObj ([("success", JBool false);
         ("message", JStr (message c));
         ("errorCode", JStr (ErrorCode.value (errorCode c)));
         ("requestId", optional_string (Req.requestId req));
         ("timestamp", JStr (now rt))]
        ++ (if truthy (details c) then [("errors", details c)] else [])
        ++ (if stack_shown rt err
            then [("stack", optional_string (Err.stack err))]
            else []))%list.

(** [errorHandler(err, req, res, _next)]: classify, log, respond. *)
Definition errorHandler (rt : Runtime) (err : Err.t) (req : Req.t) : list Effect :=
  let c := classify err in
  [LogError
     ("[" ++ string_of_Z (statusCode c) ++ "] " ++ message c)
     (JObj ([("errorCode", JStr (ErrorCode.value (errorCode c)));
             ("error", JStr (Err.message err));
             ("stack", optional_string (Err.stack err));
             ("path", JStr (Req.path req));
             ("method", JStr (Req.method req));
             ("requestId", optional_string (Req.requestId req));
             ("ip", Req.ip req);
             ("userAgent", req_get req "user-agent")]
            ++ (if truthy (details c) then [("details", details c)] else []))%list);
   Respond (statusCode c) (jsonify (errorResponse rt err req))].

(** [addErrorHandlers] registers [notFoundHandler] and then [errorHandler].
    For a request no route matched, Express runs [notFoundHandler]; an
    error given to [next] is delivered to the error-handling middleware
    registered after it. *)
Definition unmatched_request (rt : Runtime) (req : Req.t) : list Effect :=
  flat_map (fun ev => match ev with
                      | Next (Some error) => errorHandler rt error req
                      | other => [other]
                      end)
           (notFoundHandler rt req).

(* ===================================================================== *)
(** ** Reference description of the aggregate *)
(* ===================================================================== *)

(** What the specification says one (source, schema) pair contributes to
    the aggregate violation list: the violations of that source's section
    of the incoming request, each tagged with the source; nothing when the
    section parses or the parse fails for another reason. *)
Definition violations (req : Req.t) (entry : ValidationSource * ZodSchema)
    : list JValue :=
  match snd entry (Req.get req (fst entry)) with
  | Return _ => []
  | Throw error =>
      match Err.class error with
      | ZodErrorInstance issues =>
          map (fun i =>
                 JObj [("source", JStr (Source.name (fst entry)));
                       ("field", JStr (join "." (map segment_string
                                                   (ZodIssue.path i))));
                       ("message", JStr (ZodIssue.message i))])
              issues
      | _ => []
      end
  end.

(** A source fails its schema: the parse of its section throws a
    [ZodError], which carries at least one issue. *)
Definition fails_schema (req : Req.t) (source : ValidationSource)
    (schema : ZodSchema) : Prop :=
  exists error issues,
    schema (Req.get req source) = Throw error
    /\ Err.class error = ZodErrorInstance issues
    /\ issues <> [].

(** An error object that matches none of the classifier's recognised
    shapes: neither a [ZodError] nor an [AppError], its [name] none of the
    four recognised names, its [code] neither [11000] nor "ECONNREFUSED". *)
Definition unrecognized (err : Err.t) : Prop :=
  Err.class err = OtherError
  /\ Err.name err <> "ValidationError"
  /\ Err.name err <> "UnauthorizedError"
  /\ Err.name err <> "JsonWebTokenError"
  /\ Err.name err <> "CastError"
  /\ Err.code err <> JNum 11000
  /\ Err.code err <> JStr "ECONNREFUSED".

(** The rule "the [errors] field is present if and only if the
    classification produced details", read on the responses of
    [errorHandler]. *)
Definition errors_iff_details_produced : Prop :=
  forall rt err req status payload,
    In (Respond status payload) (errorHandler rt err req) ->
    (field "errors" payload <> None <-> details (classify err) <> JUndefined).

(** The rule "an unrecognised error, classified in production mode, is
    answered with the message "Something went wrong"". *)
Definition production_suppresses_message : Prop :=
  forall rt err req status payload,
    unrecognized err ->
    isProduction (config rt) = true ->
    In (Respond status payload) (errorHandler rt err req) ->
    field "message" payload = Some (JStr "Something went wrong").

(** The rule "outside production mode the stack of an unrecognised error
    is included in the response". *)
Definition non_production_includes_stack : Prop :=
  forall rt err req status payload stack,
    unrecognized err ->
    isProduction (config rt) = false ->
    Err.stack err = Some stack ->
    In (Respond status payload) (errorHandler rt err req) ->
    field "stack" payload = Some (JStr stack).

(** Two requests agree on the sections named in [sources]. *)
Definition agree_on (sources : list ValidationSource) (r1 r2 : Req.t) : Prop :=
  forall s, In s sources -> Req.get r1 s = Req.get r2 s.

(* ===================================================================== *)
(** ** Sample inputs *)
(* ===================================================================== *)

Module Sample.
Definition production : Runtime :=
  mkRuntime (Some "production") None "2024-05-01T12:00:00.000Z"
    "Error: boom at handler (app.js:10:9)".

Definition development : Runtime :=
  mkRuntime (Some "development") None "2024-05-01T12:00:00.000Z"
    "Error: boom at handler (app.js:10:9)".

Definition test : Runtime :=
  mkRuntime (Some "test") None "2024-05-01T12:00:00.000Z"
    "Error: boom at handler (app.js:10:9)".

(** [z.object({ <key>: z.string() })], reduced to the required-string
    check on [key]. *)
Definition requiredString (key : string) : ZodSchema :=
  fun data =>
    match field key data with
    | Some (JStr _) => Return data
    | Some _ =>
        Throw (ZodError_new production
                 [ZodIssue.mk [Key key] "Expected string" "invalid_type"]
                 "Expected string")
    | None =>
        Throw (ZodError_new production
                 [ZodIssue.mk [Key key] "Required" "invalid_type"]
                 "Required")
    end.

(** [z.object({ notify: z.boolean().default(false) })] on an object
    without other keys: the default is filled in. *)
Definition notifyDefault : ZodSchema :=
  fun data =>
    match field "notify" data with
    | Some (JBool b) => Return (JObj [("notify", JBool b)])
    | Some _ =>
        Throw (ZodError_new production
                 [ZodIssue.mk [Key "notify"] "Expected boolean" "invalid_type"]
                 "Expected boolean")
    | None => Return (JObj [("notify", JBool false)])
    end.

(** The issues of [z.array(z.object({ id: z.string() }))] on [items],
    counted from index [i]: one per element whose [id] is not a string. *)
Fixpoint itemIssues (i : N) (items : list JValue) : list ZodIssue.t :=
  match items with
  | [] => []
  | item :: rest =>
      (match field "id" item with
       | Some (JStr _) => []
       | Some _ =>
           [ZodIssue.mk [Key "items"; Index i; Key "id"] "Expected string"
              "invalid_type"]
       | None =>
           [ZodIssue.mk [Key "items"; Index i; Key "id"] "Required"
              "invalid_type"]
       end ++ itemIssues (N.succ i) rest)%list
  end.

(** [z.object({ items: z.array(z.object({ id: z.string() })) })] *)
Definition itemIds : ZodSchema :=
  fun data =>
    match field "items" data with
    | Some (JArr items) =>
        match itemIssues 0 items with
        | [] => Return data
        | issues => Throw (ZodError_new production issues "Invalid items")
        end
    | _ =>
        Throw (ZodError_new production
                 [ZodIssue.mk [Key "items"] "Required" "invalid_type"]
                 "Required")
    end.

(** A request with [body = { items: [{ id: "a" }, { id: 5 }] }]. *)
Definition order : Req.t :=
  Req.mk (JObj [("items", JArr [JObj [("id", JStr "a")];
                                JObj [("id", JNum 5)]])])
    (JObj []) (JObj []) (JObj [])
    None "/orders" "/orders" "POST" (JStr "127.0.0.1") None.

(** A schema whose transform throws a plain [Error]. *)
Definition throwing : ZodSchema :=
  fun _ => Throw (Error_new production "boom").

(** A request with [params = { id: 7 }], [body = {}], [query = {}]. *)
Definition request : Req.t :=
  Req.mk (JObj []) (JObj []) (JObj [("id", JNum 7)]) (JObj [])
    (Some "req-1") "/users/7?x=1" "/users/7" "POST" (JStr "127.0.0.1")
    None.

(** The same request on Express 5, where [query] has only a getter. *)
Definition request5 : Req.t :=
  Req.mk (JObj []) (JObj []) (JObj [("id", JNum 7)]) (JObj [])
    (Some "req-1") "/users/7?x=1" "/users/7" "POST" (JStr "127.0.0.1")
    (Some "TypeError: Cannot set property query of #<IncomingMessage>").

(** [new Error("boom")] *)
Definition boom : Err.t := Error_new production "boom".

(** [AppError.badRequest("Invalid quantity", 0)] *)
Definition invalidQuantity : Err.t :=
  AppError.badRequest production "Invalid quantity" (JNum 0).

(** [{ params: z.object({ id: z.string() }),
       body: z.object({ email: z.string() }) }] *)
Definition paramsAndBody : list (ValidationSource * ZodSchema) :=
  [(Source.params, requiredString "id");
   (Source.body, requiredString "email")].

(** [{ query: z.object({ notify: z.boolean().default(false) }),
       body: z.object({ name: z.string() }) }] *)
Definition queryAndBody : list (ValidationSource * ZodSchema) :=
  [(Source.query, notifyDefault);
   (Source.body, requiredString "name")].
End Sample.

(* ===================================================================== *)
(** ** Response helpers: success envelopes *)
(* ===================================================================== *)

(** Further constants of [http-status-codes]. *)
Definition StatusCodes_CREATED : Z := 201.
Definition StatusCodes_ACCEPTED : Z := 202.

(** [req?.requestId] *)
Definition optional_requestId (req : option Req.t) : JValue :=
  match req with
  | Some r => optional_string (Req.requestId r)
  | None => JUndefined
  end.

(** [if (message)] on an optional string argument. *)
Definition message_given (message : option string) : list (string * JValue) :=
  match message with
  | Some m => if (m =? "")%string then [] else [("message", JStr m)]
  | None => []
  end.

(** The object [sendSuccess] passes to [res.json]: [message] is assigned
    after the literal is built, so it comes last. *)
Definition successResponse (rt : Runtime) (data : JValue)
    (message : option string) (req : option Req.t) : JValue :=
  JObj ([("success", JBool true);
         ("data", data);
         ("meta", JObj [("timestamp", JStr (now rt));
                        ("requestId", optional_requestId req)])]
        ++ message_given message)%list.

(** [sendSuccess(res, data, message?, statusCode = StatusCodes.OK, req?)] *)
Definition sendSuccess (rt : Runtime) (data : JValue) (message : option string)
    (statusCode : option Z) (req : option Req.t) : Effect :=
  Respond (match statusCode with Some c => c | None => StatusCodes.OK end)
          (jsonify (successResponse rt data message req)).

(** [sendCreated(res, data, message = 'Resource created successfully', req?)] *)
Definition sendCreated (rt : Runtime) (data : JValue) (message : option string)
    (req : option Req.t) : Effect :=
  sendSuccess rt data
    (Some (match message with
           | Some m => m
           | None => "Resource created successfully"
           end))
    (Some StatusCodes_CREATED) req.

(** [sendAccepted(res, data, message = 'Request accepted for processing', req?)] *)
Definition sendAccepted (rt : Runtime) (data : JValue) (message : option string)
    (req : option Req.t) : Effect :=
  sendSuccess rt data
    (Some (match message with
           | Some m => m
           | None => "Request accepted for processing"
           end))
    (Some StatusCodes_ACCEPTED) req.

(* ===================================================================== *)
(** ** src/config.ts: environment helpers *)
(* ===================================================================== *)

(** [process.env] as a lookup from variable names to their values. *)
Definition ProcessEnv : Type := string -> option string.

(** [getEnv(key, defaultValue?)]: throws when the variable is unset and no
    default is given; otherwise [value || defaultValue], which is
    [undefined] when the variable is empty and there is no default. *)
Definition getEnv (rt : Runtime) (penv : ProcessEnv) (key : string)
    (defaultValue : option string) : Completion JValue :=
  let value := penv key in
  match value, defaultValue with
  | None, None =>
      Throw (Error_new rt ("Environment variable " ++ key ++ " is not defined"))
  | _, _ =>
      Return (match value with
              | Some v =>
                  if (v =? "")%string then optional_string defaultValue
                  else JStr v
              | None => optional_string defaultValue
              end)
  end.

(** [String.prototype.toLowerCase] on the letters A-Z; no other character
    lower-cases to a letter of the literal it is compared with. *)
Definition lower_ascii (c : ascii) : ascii :=
  let n := nat_of_ascii c in
  if ((65 <=? n)%nat && (n <=? 90)%nat)%bool then ascii_of_nat (n + 32) else c.

Fixpoint toLowerCase (s : string) : string :=
  match s with
  | EmptyString => EmptyString
  | String c rest => String (lower_ascii c) (toLowerCase rest)
  end.

(** [getEnvBoolean(key, defaultValue = false)] *)
Definition getEnvBoolean (penv : ProcessEnv) (key : string)
    (defaultValue : option bool) : bool :=
  match penv key with
  | None => match defaultValue with Some d => d | None => false end
  | Some value => (toLowerCase value =? "true")%string
  end.

(* ===================================================================== *)
(** ** src/errorHandler.ts: process-wide handlers *)
(* ===================================================================== *)

(** What a process-level handler does: a log entry, or [process.exit]. *)
Inductive ProcessEffect : Type :=
| ProcessLog (message : string) (meta : JValue)
| Exit (code : Z).

(** [v?.k]: the property of an object, [undefined] for everything else
    that can be a rejection reason here. *)
Definition optional_member (v : JValue) (k : string) : JValue :=
  match field k v with
  | Some x => x
  | None => JUndefined
  end.

(** [a || b] *)
Definition js_or (a b : JValue) : JValue := if truthy a then a else b.

(** The listener [setupGlobalErrorHandlers] registers for
    ['unhandledRejection']. *)
Definition onUnhandledRejection (rt : Runtime) (reason : JValue)
    : list ProcessEffect :=
  (ProcessLog "Unhandled Rejection:"
     (JObj [("reason", js_or (optional_member reason "message") reason);
            ("stack", optional_member reason "stack")])
   :: (if isDevelopment (config rt) then [Exit 1] else []))%list.

(** The listener [setupGlobalErrorHandlers] registers for
    ['uncaughtException']. *)
Definition onUncaughtException (error : Err.t) : list ProcessEffect :=
  [ProcessLog "Uncaught Exception:"
     (JObj [("error", JStr (Err.message error));
            ("stack", optional_string (Err.stack error))]);
   Exit 1].

(* ===================================================================== *)
(** ** src/validators/index.ts: validated handlers *)
(* ===================================================================== *)

Definition Middleware : Type := Req.t -> Req.t * list Effect.

(** A route handler, as the wrapper of [createValidatedHandler] sees it:
    the effects it performs on the request it is given and, when it throws
    or its promise rejects, the error. *)
Definition RouteHandler : Type := Req.t -> list Effect * option Err.t.

(** The second element of the array: [try { await handler(...) }
    catch (error) { next(error) }]. *)
Definition guarded (handler : RouteHandler) : Middleware :=
  fun req =>
    let '(effects, thrown) := handler req in
    (req,
     (effects ++ match thrown with
                 | Some error => [Next (Some error)]
                 | None => []
                 end)%list).

(** [createValidatedHandler(schemas, handler)] *)
Definition createValidatedHandler
    (schemas : list (ValidationSource * ZodSchema)) (handler : RouteHandler)
    : list Middleware :=
  [validateAll schemas; guarded handler].

(** How Express runs an array of middleware on a request: each element
    runs on the request as the previous ones left it, and the rest of the
    array runs at the point where an element calls [next()]; [next()]
    of the last element leaves the array. *)
Fixpoint run_stack (stack : list Middleware) (req : Req.t)
    : Req.t * list Effect :=
  match stack with
  | [] => (req, [Next None])
  | m :: rest =>
      let '(req1, effects) := m req in
      (if existsb (fun ev => match ev with Next None => true | _ => false end)
                  effects
       then fst (run_stack rest req1)
       else req1,
       flat_map (fun ev => match ev with
                           | Next None => snd (run_stack rest req1)
                           | other => [other]
                           end)
                effects)
  end.

(* ===================================================================== *)
(** ** src/middleware/requestId.ts *)
(* ===================================================================== *)

(** [req.requestId = id] *)
Definition set_requestId (req : Req.t) (id : string) : Req.t :=
  Req.mk (Req.body req) (Req.query req) (Req.params req) (Req.headers req)
    (Some id) (Req.originalUrl req) (Req.path req) (Req.method req)
    (Req.ip req) (Req.query_getter_only req).

(** [(req.headers[name] as string) || generated]: Node delivers a header
    value as a string. *)
Definition header_or (req : Req.t) (name : string) (generated : string)
    : string :=
  match field name (Req.headers req) with
  | Some (JStr s) => if (s =? "")%string then generated else s
  | _ => generated
  end.

(** [requestIdMiddleware({ header = 'X-Request-Id', generator })];
    [generated] is what [generator()] returns when it is called.  The
    result is the request, the response headers set, and the effects. *)
Definition requestIdMiddleware (header : option string) (generated : string)
    (req : Req.t) : Req.t * list (string * string) * list Effect :=
  let header := match header with Some h => h | None => "X-Request-Id" end in
  let requestId := header_or req (toLowerCase header) generated in
  (set_requestId req requestId, [(header, requestId)], [Next None]).

(* ===================================================================== *)
(** ** src/middleware/sanitize.ts *)
(* ===================================================================== *)

(** [p] is a prefix of [s], letters compared without regard to case (the
    pattern letters are lower-case). *)
Fixpoint matches_ci (p s : string) : bool :=
  match p, s with
  | EmptyString, _ => true
  | String a p', String b s' =>
      (Ascii.eqb a (lower_ascii b) && matches_ci p' s')%bool
  | String _ _, EmptyString => false
  end.

(** [s.replace(/p/gi, '')] for a literal pattern [p]: matches are found
    from left to right and do not overlap; [skip] counts the characters of
    the current match still to drop. *)
Fixpoint remove_ci (p : string) (skip : nat) (s : string) : string :=
  match s with
  | EmptyString => EmptyString
  | String c rest =>
      match skip with
      | S k => remove_ci p k rest
      | O =>
          if matches_ci p s
          then remove_ci p (String.length p - 1) rest
          else String c (remove_ci p O rest)
      end
  end.

(** [sanitizeValue]: strings lose the four patterns, one after the other;
    everything else is returned as it is. *)
Definition sanitizeValue (value : JValue) : JValue :=
  match value with
  | JStr s =>
      let s := remove_ci "$where" 0 s in
      let s := remove_ci "$ne" 0 s in
      let s := remove_ci "$gt" 0 s in
      let s := remove_ci "$lt" 0 s in
      JStr s
  | _ => value
  end.

(** [key.startsWith('$')] *)
Definition startsWith_dollar (key : string) : bool :=
  match key with
  | String c _ => Ascii.eqb c "$"%char
  | EmptyString => false
  end.

(** The keys [sanitizeObject] copies: a key starting with [$] is skipped,
    and the assignment [sanitized['__proto__'] = ...] creates no property
    on the fresh object. *)
Definition kept_key (key : string) : bool :=
  (negb (startsWith_dollar key) && negb (key =? "__proto__")%string)%bool.

(** [sanitizeObject]: the loop over [Object.entries(obj)] is the inner
    function. *)
Fixpoint sanitizeObject (obj : JValue) : JValue :=
  match obj with
  | JArr items => JArr (map sanitizeObject items)
  | JObj fs =>
      JObj ((fix entries (l : list (string * JValue))
               : list (string * JValue) :=
               match l with
               | [] => []
               | (key, value) :: rest =>
                   if kept_key key
                   then (key, sanitizeObject value) :: entries rest
                   else entries rest
               end) fs)
  | _ => sanitizeValue obj
  end.

(** [if (req[source]) { req[source] = sanitizeObject(req[source]) }] *)
Definition sanitize_section (req : Req.t) (source : ValidationSource)
    : Completion Req.t :=
  if truthy (Req.get req source)
  then assign_section req source (sanitizeObject (Req.get req source))
  else Return req.

(** [sanitizeMiddleware()]: the three sections in turn, then [next()].
    Nothing is caught: when an assignment throws, the middleware ends
    there, with the sections sanitized so far.  The result is the request
    left behind, the effects, and the error thrown, if any. *)
Definition sanitizeMiddleware (req : Req.t)
    : Req.t * list Effect * option Err.t :=
  match sanitize_section req Source.body with
  | Throw error => (req, [], Some error)
  | Return req1 =>
      match sanitize_section req1 Source.query with
      | Throw error => (req1, [], Some error)
      | Return req2 =>
          match sanitize_section req2 Source.params with
          | Throw error => (req2, [], Some error)
          | Return req3 => (req3, [Next None], None)
          end
      end
  end.

(* ===================================================================== *)
(** ** Reference notions for the further properties *)
(* ===================================================================== *)

(** An entry of [errors] tagged with [source]. *)
Definition tagged (source : ValidationSource) (v : JValue) : bool :=
  match field "source" v with
  | Some (JStr n) => (n =? Source.name source)%string
  | _ => false
  end.

(** Two requests differ at most in their four sections. *)
Definition same_context (r1 r2 : Req.t) : Prop :=
  Req.requestId r1 = Req.requestId r2
  /\ Req.originalUrl r1 = Req.originalUrl r2
  /\ Req.path r1 = Req.path r2
  /\ Req.method r1 = Req.method r2
  /\ Req.ip r1 = Req.ip r2.

(** An error the classifier recognises by its [name] or its [code]. *)
Definition recognized (err : Err.t) : Prop :=
  Err.class err = OtherError
  /\ (In (Err.name err)
        ["ValidationError"; "UnauthorizedError"; "JsonWebTokenError";
         "CastError"]
      \/ Err.code err = JNum 11000
      \/ Err.code err = JStr "ECONNREFUSED").

(** No object inside [v], at any depth, has a key that starts with [$]. *)
Fixpoint no_dollar_keys (v : JValue) : bool :=
  match v with
  | JArr items => forallb no_dollar_keys items
  | JObj fs =>
      forallb (fun kv : string * JValue =>
                 let (k, x) := kv in
                 (negb (startsWith_dollar k) && no_dollar_keys x)%bool)
              fs
  | _ => true
  end.

(** The string has no [$] character. *)
Fixpoint no_dollar (s : string) : bool :=
  match s with
  | EmptyString => true
  | String c rest => (negb (Ascii.eqb c "$"%char) && no_dollar rest)%bool
  end.

(** Data the sanitizer has nothing to object to: no [$] in any string or
    key, at any depth, and no key [__proto__]. *)
Fixpoint plain (v : JValue) : bool :=
  match v with
  | JStr s => no_dollar s
  | JArr items => forallb plain items
  | JObj fs =>
      forallb (fun kv : string * JValue =>
                 let (k, x) := kv in
                 (no_dollar k && negb (k =? "__proto__")%string
                  && plain x)%bool)
              fs
  | _ => true
  end.

(* ===================================================================== *)
(** * Properties *)
(* ===================================================================== *)

(** ** Pagination *)

(** Doubles: digits, rounding, division, integers, comparison. *)

Section Digits.

Lemma digits2_size (m : positive) : digits2_pos m = Pos.size m.
Proof. induction m; cbn; congruence. Qed.

Lemma digits2_bounds (m : positive) :
  2 ^ (Zpos (digits2_pos m) - 1) <= Zpos m < 2 ^ Zpos (digits2_pos m).
Proof.
  induction m as [m IH | m IH |].
  - cbn [digits2_pos]. rewrite Pos2Z.inj_succ.
    replace (Z.succ (Zpos (digits2_pos m)) - 1) with (Zpos (digits2_pos m)) by lia.
    rewrite Z.pow_succ_r by lia.
    assert (H : 2 ^ Zpos (digits2_pos m) = 2 * 2 ^ (Zpos (digits2_pos m) - 1)).
    { rewrite <- Z.pow_succ_r by lia. f_equal. lia. }
    lia.
  - cbn [digits2_pos]. rewrite Pos2Z.inj_succ.
    replace (Z.succ (Zpos (digits2_pos m)) - 1) with (Zpos (digits2_pos m)) by lia.
    rewrite Z.pow_succ_r by lia.
    assert (H : 2 ^ Zpos (digits2_pos m) = 2 * 2 ^ (Zpos (digits2_pos m) - 1)).
    { rewrite <- Z.pow_succ_r by lia. f_equal. lia. }
    lia.
  - cbn. lia.
Qed.

(** The number of digits is determined by the bounds. *)
Lemma digits2_unique (m : positive) (d : Z) :
  2 ^ (d - 1) <= Zpos m < 2 ^ d -> Zpos (digits2_pos m) = d.
Proof.
  intros [Hlo Hhi]. pose proof (digits2_bounds m) as [Hlo' Hhi'].
  assert (Hd : 0 < d).
  { destruct (Z_lt_le_dec 0 d) as [|Hle]; [assumption |].
    exfalso. assert (2 ^ d <= 1).
    { destruct (Z.eq_dec d 0) as [->|]; [cbn; lia |].
      rewrite Z.pow_neg_r by lia. lia. }
    lia. }
  destruct (Z.lt_trichotomy (Zpos (digits2_pos m)) d) as [Hlt | [Heq | Hgt]];
    [| assumption |].
  - exfalso. assert (2 ^ Zpos (digits2_pos m) <= 2 ^ (d - 1))
      by (apply Z.pow_le_mono_r; lia). lia.
  - exfalso. assert (2 ^ d <= 2 ^ (Zpos (digits2_pos m) - 1))
      by (apply Z.pow_le_mono_r; lia). lia.
Qed.

End Digits.

Section Rounding.

Lemma shr_fexp_53 (q e : Z) (loc : location) :
  Zdigits2 q = 53 -> -1074 <= e ->
  shr_fexp 53 1024 q e loc = (shr_record_of_loc q loc, e).
Proof.
  intros Hd He. unfold shr_fexp. rewrite Hd.
  unfold fexp, emin. rewrite Z.max_l by lia.
  replace (53 + e - 53 - e) with 0 by lia.
  reflexivity.
Qed.

Lemma shr_fexp_54 (q e : Z) (loc : location) :
  Zdigits2 q = 54 -> -1075 <= e ->
  shr_fexp 53 1024 q e loc = (shr_1 (shr_record_of_loc q loc), e + 1).
Proof.
  intros Hd He. unfold shr_fexp. rewrite Hd.
  unfold fexp, emin. rewrite Z.max_l by lia.
  replace (54 + e - 53 - e) with 1 by lia.
  reflexivity.
Qed.

Lemma Zdigits2_unique (q d : Z) :
  0 < q -> 2 ^ (d - 1) <= q < 2 ^ d -> Zdigits2 q = d.
Proof.
  intros Hq Hb. destruct q as [| p | p]; try lia.
  cbn [Zdigits2]. now apply digits2_unique.
Qed.

Lemma shr_m_of_loc (q : Z) (loc : location) :
  shr_m (shr_record_of_loc q loc) = q.
Proof. destruct loc as [| []]; reflexivity. Qed.

Lemma loc_of_record_of_loc (q : Z) (loc : location) :
  loc_of_shr_record (shr_record_of_loc q loc) = loc.
Proof. destruct loc as [| []]; reflexivity. Qed.

Lemma second_rounding (s : bool) (m_r e : Z) :
  2 ^ 52 <= m_r <= 2 ^ 53 -> -1074 <= e <= 970 ->
  (let '(mrs, e'') := shr_fexp 53 1024 m_r e loc_Exact in
   match shr_m mrs with
   | Z0 => S754_zero s
   | Zpos m => if e'' <=? 1024 - 53 then S754_finite s m e'' else S754_infinity s
   | Zneg _ => S754_nan
   end) = renormalised s m_r e.
Proof.
  intros Hm He. unfold renormalised.
  destruct (Z.ltb_spec m_r (2 ^ 53)) as [Hlt | Hge].
  - rewrite shr_fexp_53; [| apply Zdigits2_unique; lia | lia].
    cbn [shr_record_of_loc shr_m].
    destruct m_r as [| p | p]; try lia.
    rewrite (proj2 (Z.leb_le e (1024 - 53))) by lia. reflexivity.
  - assert (m_r = 2 ^ 53) as -> by lia.
    rewrite shr_fexp_54; [| reflexivity | lia].
    cbn [shr_record_of_loc shr_m]. 
    change (shr_m (shr_1 {| shr_m := 2 ^ 53; shr_r := false; shr_s := false |}))
      with (2 ^ 52).
    change (2 ^ 52) with (Zpos (Z.to_pos (2 ^ 52))) at 1.
    cbv iota beta.
    rewrite (proj2 (Z.leb_le (e + 1) (1024 - 53))) by lia. reflexivity.
Qed.

Lemma binary_round_aux_53 (s : bool) (q e : Z) (loc : location) :
  2 ^ 52 <= q < 2 ^ 53 -> -1074 <= e <= 970 ->
  binary_round_aux 53 1024 s q e loc
  = renormalised s (round_nearest_even q loc) e.
Proof.
  intros Hq He. unfold binary_round_aux.
  rewrite shr_fexp_53; [| apply Zdigits2_unique; lia | lia].
  rewrite shr_m_of_loc, loc_of_record_of_loc.
  apply second_rounding; [| assumption].
  destruct loc as [| []]; cbn [round_nearest_even]; try lia.
  destruct (Z.even q); lia.
Qed.

Lemma shr_1_m (m : Z) (r s : bool) :
  0 <= m -> shr_m (shr_1 {| shr_m := m; shr_r := r; shr_s := s |}) = m / 2.
Proof.
  intros Hm. rewrite <- Z.div2_div.
  destruct m as [| [p | p |] | p]; try reflexivity. lia.
Qed.

Lemma binary_round_aux_54 (s : bool) (q e : Z) (loc : location) :
  2 ^ 53 <= q < 2 ^ 54 -> -1074 <= e <= 969 ->
  binary_round_aux 53 1024 s q e loc
  = renormalised s
      (round_nearest_even (q / 2)
         (loc_of_shr_record (shr_1 (shr_record_of_loc q loc))))
      (e + 1).
Proof.
  intros Hq He. unfold binary_round_aux.
  rewrite shr_fexp_54; [| apply Zdigits2_unique; lia | lia].
  assert (Hm : shr_m (shr_1 (shr_record_of_loc q loc)) = q / 2).
  { destruct loc as [| []]; cbn [shr_record_of_loc]; apply shr_1_m; lia. }
  rewrite Hm.
  assert (Hq2 : 2 ^ 52 <= q / 2 < 2 ^ 53).
  { split.
    - apply Z.div_le_lower_bound; lia.
    - apply Z.div_lt_upper_bound; lia. }
  apply second_rounding; [| lia].
  destruct (loc_of_shr_record _) as [| []]; cbn [round_nearest_even]; try lia.
  destruct (Z.even (q / 2)); lia.
Qed.

End Rounding.

Section Division.

Lemma new_location_spec (d r : Z) :
  0 < d ->
  new_location d r
  = if r =? 0 then loc_Exact else loc_Inexact (2 * r ?= d).
Proof.
  intros Hd. unfold new_location, new_location_even, new_location_odd.
  destruct (Z.even d) eqn:Hev; [reflexivity |].
  destruct (r =? 0); [reflexivity |]. f_equal.
  assert (Hodd : Z.odd d = true) by (rewrite <- Z.negb_even, Hev; reflexivity).
  apply Z.odd_spec in Hodd. destruct Hodd as [k Hk].
  destruct (Z.compare_spec (2 * r + 1) d), (Z.compare_spec (2 * r) d);
    try reflexivity; lia.
Qed.

Lemma rounds_to_53 (T d : Z) :
  0 < d -> 0 <= T ->
  rounds_to T d (T / d)
    (round_nearest_even (T / d) (new_location d (T mod d))).
Proof.
  intros Hd HT. pose proof (Z.div_mod T d ltac:(lia)) as Hdm.
  pose proof (Z.mod_pos_bound T d Hd) as Hr.
  rewrite new_location_spec by assumption.
  unfold rounds_to. split; [nia |].
  replace (T - T / d * d) with (T mod d) by lia.
  destruct (Z.eqb_spec (T mod d) 0) as [Hz | Hnz]; cbn [round_nearest_even].
  - left. split; [reflexivity | lia].
  - destruct (Z.compare_spec (2 * (T mod d)) d).
    + destruct (Z.even (T / d)); [left | right]; split; lia.
    + left. split; lia.
    + right. split; lia.
Qed.

Lemma rounds_to_54 (T d : Z) :
  0 < d -> 0 < T / d ->
  rounds_to T (2 * d) (T / d / 2)
    (round_nearest_even (T / d / 2)
       (loc_of_shr_record
          (shr_1 (shr_record_of_loc (T / d) (new_location d (T mod d)))))).
Proof.
  intros Hd Hq. pose proof (Z.div_mod T d ltac:(lia)) as Hdm.
  pose proof (Z.mod_pos_bound T d Hd) as Hr.
  rewrite new_location_spec by assumption.
  set (q := T / d) in *. set (r := T mod d) in *.
  pose proof (Z.div_mod q 2 ltac:(lia)) as Hq2.
  pose proof (Z.mod_pos_bound q 2 ltac:(lia)) as Hb.
  rewrite <- Z.div2_div in *.
  unfold rounds_to. split; [nia |].
  assert (Hrem : T - Z.div2 q * (2 * d) = r + (q mod 2) * d) by nia.
  rewrite Hrem.
  destruct q as [| [p | p |] | p]; try lia.
  - (* odd quotient *)
    change (Z.div2 (Zpos p~1)) with (Zpos p) in *.
    assert (Hbit : Zpos p~1 mod 2 = 1) by lia. rewrite Hbit.
    destruct (Z.eqb_spec r 0) as [Hz | Hnz].
    + cbn [shr_record_of_loc shr_1 loc_of_shr_record round_nearest_even orb Z.even]. destruct p; cbn [Z.even]; [right | left | right]; split; lia.
    + destruct (2 * r ?= d); cbn [shr_record_of_loc shr_1 loc_of_shr_record round_nearest_even orb Z.even]; right; split; lia.
  - (* even quotient *)
    change (Z.div2 (Zpos p~0)) with (Zpos p) in *.
    assert (Hbit : Zpos p~0 mod 2 = 0) by lia. rewrite Hbit.
    destruct (Z.eqb_spec r 0) as [Hz | Hnz].
    + cbn [shr_record_of_loc shr_1 loc_of_shr_record round_nearest_even orb Z.even]. left; split; lia.
    + destruct (2 * r ?= d); cbn [shr_record_of_loc shr_1 loc_of_shr_record round_nearest_even orb Z.even]; left; split; lia.
  - change (Z.div2 1) with 0 in *. change (1 mod 2) with 1.
    destruct (Z.eqb_spec r 0) as [Hz | Hnz].
    + cbn [shr_record_of_loc shr_1 loc_of_shr_record round_nearest_even orb Z.even]. left; split; lia.
    + destruct (2 * r ?= d); cbn [shr_record_of_loc shr_1 loc_of_shr_record round_nearest_even orb Z.even]; right; split; lia.
Qed.

End Division.

Section NormalDivision.

Variables (s1 s2 : bool) (m1 m2 : positive) (e1 e2 : Z).
Hypothesis Hd1 : Zpos (digits2_pos m1) = 53.
Hypothesis Hd2 : Zpos (digits2_pos m2) = 53.
Hypothesis He1 : -52 <= e1 <= 0.
Hypothesis He2 : -52 <= e2 <= 0.

Lemma SFdiv_core_normal :
  SFdiv_core_binary 53 1024 (Zpos m1) e1 (Zpos m2) e2
  = (Zpos m1 * 2 ^ 53 / Zpos m2, e1 - e2 - 53,
     new_location (Zpos m2) ((Zpos m1 * 2 ^ 53) mod Zpos m2)).
Proof.
  unfold SFdiv_core_binary. cbn [Zdigits2]. rewrite Hd1, Hd2.
  unfold fexp, emin.
  replace (53 + e1 - (53 + e2)) with (e1 - e2) by lia.
  rewrite Z.max_l by lia. rewrite Z.min_l by lia.
  replace (e1 - e2 - (e1 - e2 - 53)) with 53 by lia.
  cbv iota beta. rewrite Z.shiftl_mul_pow2 by lia.
  unfold Z.div, Z.modulo.
  destruct (Z.div_eucl (Zpos m1 * 2 ^ 53) (Zpos m2)) as [q r]. reflexivity.
Qed.

Lemma SFdiv_normal :
  exists g m_t m_r,
    (g = 0 \/ g = 1) /\
    2 ^ 52 <= m_t < 2 ^ 53 /\
    rounds_to (Zpos m1 * 2 ^ 53) (2 ^ g * Zpos m2) m_t m_r /\
    SFdiv 53 1024 (S754_finite s1 m1 e1) (S754_finite s2 m2 e2)
    = renormalised (xorb s1 s2) m_r (e1 - e2 - 53 + g).
Proof.
  pose proof (digits2_bounds m1) as Hb1. rewrite Hd1 in Hb1.
  pose proof (digits2_bounds m2) as Hb2. rewrite Hd2 in Hb2.
  change (53 - 1) with 52 in *.
  cbn [SFdiv]. rewrite SFdiv_core_normal.
  set (T := Zpos m1 * 2 ^ 53). set (d := Zpos m2).
  assert (Hd : 0 < d) by (unfold d; lia).
  assert (HT : 2 ^ 105 <= T < 2 ^ 106) by (unfold T; lia).
  pose proof (Z.div_mod T d ltac:(lia)) as Hdm.
  pose proof (Z.mod_pos_bound T d Hd) as Hr.
  assert (Hq : 2 ^ 52 <= T / d < 2 ^ 54).
  { unfold d in *. split.
    - destruct (Z_lt_le_dec (T / Zpos m2) (2 ^ 52)) as [Hlt | Hge]; [| lia].
      exfalso. assert ((T / Zpos m2 + 1) * Zpos m2 <= 2 ^ 52 * Zpos m2)
        by (apply Z.mul_le_mono_nonneg_r; lia). lia.
    - destruct (Z_lt_le_dec (T / Zpos m2) (2 ^ 54)) as [Hlt | Hge]; [lia |].
      exfalso. assert (2 ^ 54 * Zpos m2 <= T / Zpos m2 * Zpos m2)
        by (apply Z.mul_le_mono_nonneg_r; lia). lia. }
  destruct (Z_lt_le_dec (T / d) (2 ^ 53)) as [Hlt | Hge].
  - exists 0, (T / d), (round_nearest_even (T / d) (new_location d (T mod d))).
    split; [now left |]. split; [lia |]. split.
    + change (2 ^ 0) with 1. rewrite Z.mul_1_l. apply rounds_to_53; lia.
    + rewrite binary_round_aux_53 by lia. f_equal. lia.
  - exists 1, (T / d / 2),
      (round_nearest_even (T / d / 2)
         (loc_of_shr_record
            (shr_1 (shr_record_of_loc (T / d) (new_location d (T mod d)))))).
    split; [now right |]. split.
    { split; [apply Z.div_le_lower_bound | apply Z.div_lt_upper_bound]; lia. }
    split.
    + change (2 ^ 1) with 2. apply rounds_to_54; lia.
    + rewrite binary_round_aux_54 by lia. reflexivity.
Qed.

End NormalDivision.

Section Integers.

Lemma iter_xO (k p : positive) : Zpos (Pos.iter xO p k) = Zpos p * 2 ^ Zpos k.
Proof.
  induction k as [| k IH] using Pos.peano_ind.
  - cbn [Pos.iter]. change (2 ^ 1) with 2. lia.
  - rewrite Pos.iter_succ, Pos2Z.inj_succ, Z.pow_succ_r by lia.
    rewrite Pos2Z.inj_xO, IH. lia.
Qed.

Lemma binary_round_integer (s : bool) (p : positive) :
  Zpos p < 2 ^ 53 ->
  exists m e,
    binary_round 53 1024 s p 0 = S754_finite s m e /\
    Zpos (digits2_pos m) = 53 /\ -52 <= e <= 0 /\
    Zpos m = Zpos p * 2 ^ (- e).
Proof.
  intros Hp. pose proof (digits2_bounds p) as Hb.
  set (d := Zpos (digits2_pos p)) in *.
  assert (Hd : 1 <= d <= 53).
  { split; [unfold d; lia |].
    destruct (Z_lt_le_dec 53 d) as [Hgt | Hle]; [| assumption].
    exfalso. assert (2 ^ 53 <= 2 ^ (d - 1)) by (apply Z.pow_le_mono_r; lia).
    lia. }
  unfold binary_round. fold d. unfold fexp, emin.
  rewrite Z.max_l by lia. unfold shl_align.
  destruct (Z.eq_dec d 53) as [Heq | Hne].
  - rewrite Heq. cbv iota beta. change (53 + 0 - 53 - 0) with 0. cbv iota beta.
    exists p, 0. rewrite binary_round_aux_53 by (rewrite Heq in Hb; cbn in Hb |- *; lia).
    cbn [round_nearest_even]. unfold renormalised.
    rewrite (proj2 (Z.ltb_lt _ _) Hp).
    repeat split; try lia. 
  - assert (Hk : d + 0 - 53 - 0 = Zneg (Z.to_pos (53 - d))).
    { rewrite <- Pos2Z.opp_pos, Z2Pos.id by lia. lia. }
    rewrite Hk.
    assert (Hm : Zpos (Pos.iter xO p (Z.to_pos (53 - d))) = Zpos p * 2 ^ (53 - d)).
    { rewrite iter_xO, Z2Pos.id by lia. reflexivity. }
    assert (Hpow : 2 ^ (d - 1) * 2 ^ (53 - d) = 2 ^ 52).
    { rewrite <- Z.pow_add_r by lia. f_equal. lia. }
    assert (Hpow' : 2 ^ d * 2 ^ (53 - d) = 2 ^ 53).
    { rewrite <- Z.pow_add_r by lia. f_equal. lia. }
    assert (Hpos : 0 < 2 ^ (53 - d)) by (apply Z.pow_pos_nonneg; lia).
    assert (Hrange : 2 ^ 52 <= Zpos (Pos.iter xO p (Z.to_pos (53 - d))) < 2 ^ 53).
    { rewrite Hm. split.
      - rewrite <- Hpow. apply Z.mul_le_mono_nonneg_r; lia.
      - rewrite <- Hpow'. apply Z.mul_lt_mono_pos_r; lia. }
    exists (Pos.iter xO p (Z.to_pos (53 - d))), (d + 0 - 53).
    rewrite binary_round_aux_53 by lia.
    cbn [round_nearest_even]. unfold renormalised.
    rewrite (proj2 (Z.ltb_lt _ _) (proj2 Hrange)).
    repeat split; try lia.
    + apply digits2_unique. change (53 - 1) with 52. exact Hrange.
    + rewrite Hm. do 2 f_equal. lia.
Qed.

Lemma number_of_Z_normal (n : Z) :
  n <> 0 -> Z.abs n < 2 ^ 53 -> normal_of n (number_of_Z n).
Proof.
  intros Hn Hb. unfold normal_of, number_of_Z.
  destruct n as [| p | p]; [congruence | |]; cbn [binary_normalize Z.ltb Z.compare].
  - destruct (binary_round_integer false p Hb) as (m & e & -> & ? & ? & ?).
    exists m, e. auto.
  - destruct (binary_round_integer true p Hb) as (m & e & -> & ? & ? & ?).
    exists m, e. auto.
Qed.

End Integers.

Section Comparison.

Lemma number_of_Z_holds (n : Z) : Z.abs n < 2 ^ 53 -> holds n (number_of_Z n).
Proof.
  intros Hb. destruct (Z.eq_dec n 0) as [-> | Hn].
  - left. split; [reflexivity |]. now exists false.
  - right. split; [assumption |]. now apply number_of_Z_normal.
Qed.

Lemma magnitude_lt (A B m1 m2 e1 e2 : Z) :
  2 ^ 52 <= m1 < 2 ^ 53 -> 2 ^ 52 <= m2 < 2 ^ 53 ->
  e1 <= 0 -> e2 <= 0 ->
  m1 = A * 2 ^ (- e1) -> m2 = B * 2 ^ (- e2) ->
  e1 < e2 -> A < B.
Proof.
  intros Hm1 Hm2 He1 He2 HA HB Hlt.
  assert (Hsplit : 2 ^ (- e1) = 2 ^ (- e2) * 2 ^ (e2 - e1)).
  { rewrite <- Z.pow_add_r by lia. f_equal. lia. }
  assert (Hp1 : 0 < 2 ^ (- e1)) by (apply Z.pow_pos_nonneg; lia).
  assert (Hp2 : 0 < 2 ^ (- e2)) by (apply Z.pow_pos_nonneg; lia).
  assert (Hp3 : 2 ^ 1 <= 2 ^ (e2 - e1)) by (apply Z.pow_le_mono_r; lia).
  change (2 ^ 1) with 2 in Hp3.
  assert (HB' : B * 2 ^ (- e1) = m2 * 2 ^ (e2 - e1)).
  { rewrite Hsplit, HB. ring. }
  assert (Hbig : m2 * 2 <= m2 * 2 ^ (e2 - e1))
    by (apply Z.mul_le_mono_nonneg_l; lia).
  apply (Z.mul_lt_mono_pos_r (2 ^ (- e1))); [assumption |]. lia.
Qed.

Lemma magnitude_compare (A B m1 m2 e : Z) :
  e <= 0 -> m1 = A * 2 ^ (- e) -> m2 = B * 2 ^ (- e) ->
  (m1 ?= m2) = (A ?= B).
Proof.
  intros He -> ->.
  assert (Hp : 0 < 2 ^ (- e)) by (apply Z.pow_pos_nonneg; lia).
  destruct (Z.compare_spec A B) as [-> | Hlt | Hgt].
  - apply Z.compare_refl.
  - apply Z.compare_lt_iff. now apply Z.mul_lt_mono_pos_r.
  - apply Z.compare_gt_iff. now apply Z.mul_lt_mono_pos_r.
Qed.

Lemma Number_lt_holds (a b : Z) (x y : number) :
  holds a x -> holds b y -> Number_lt x y = (a <? b).
Proof.
  unfold Number_lt, SFltb.
  intros [[-> [sx ->]] | [Ha (m1 & e1 & -> & Hd1 & He1 & Hm1)]]
         [[-> [sy ->]] | [Hb (m2 & e2 & -> & Hd2 & He2 & Hm2)]].
  - reflexivity.
  - cbn [SFcompare]. destruct (Z.ltb_spec b 0), (Z.ltb_spec 0 b); try reflexivity; lia.
  - cbn [SFcompare]. destruct (Z.ltb_spec a 0); lia.
  - pose proof (digits2_bounds m1) as Hb1. rewrite Hd1 in Hb1.
    pose proof (digits2_bounds m2) as Hb2. rewrite Hd2 in Hb2.
    change (53 - 1) with 52 in *.
    cbn [SFcompare].
    destruct (Z.ltb_spec a 0) as [Han | Hap], (Z.ltb_spec b 0) as [Hbn | Hbp].
    + (* both negative *)
      destruct (Z.compare_spec e1 e2) as [Heq | Hlt | Hgt].
      * subst e2. change (Pos.compare_cont Eq m1 m2) with (Zpos m1 ?= Zpos m2).
        rewrite (magnitude_compare (Z.abs a) (Z.abs b) _ _ e1) by (lia || assumption).
        destruct (Z.compare_spec (Z.abs a) (Z.abs b)), (Z.ltb_spec a b);
          try reflexivity; lia.
      * pose proof (magnitude_lt (Z.abs a) (Z.abs b) _ _ e1 e2
                      Hb1 Hb2 ltac:(lia) ltac:(lia) Hm1 Hm2 Hlt).
        destruct (Z.ltb_spec a b); [lia | reflexivity].
      * pose proof (magnitude_lt (Z.abs b) (Z.abs a) _ _ e2 e1
                      Hb2 Hb1 ltac:(lia) ltac:(lia) Hm2 Hm1 Hgt).
        destruct (Z.ltb_spec a b); [reflexivity | lia].
    + destruct (Z.ltb_spec a b); [reflexivity | lia].
    + destruct (Z.ltb_spec a b); [lia | reflexivity].
    + (* both positive *)
      destruct (Z.compare_spec e1 e2) as [Heq | Hlt | Hgt].
      * subst e2. change (Pos.compare_cont Eq m1 m2) with (Zpos m1 ?= Zpos m2).
        rewrite (magnitude_compare (Z.abs a) (Z.abs b) _ _ e1) by (lia || assumption).
        destruct (Z.compare_spec (Z.abs a) (Z.abs b)), (Z.ltb_spec a b);
          try reflexivity; lia.
      * pose proof (magnitude_lt (Z.abs a) (Z.abs b) _ _ e1 e2
                      Hb1 Hb2 ltac:(lia) ltac:(lia) Hm1 Hm2 Hlt).
        destruct (Z.ltb_spec a b); [reflexivity | lia].
      * pose proof (magnitude_lt (Z.abs b) (Z.abs a) _ _ e2 e1
                      Hb2 Hb1 ltac:(lia) ltac:(lia) Hm2 Hm1 Hgt).
        destruct (Z.ltb_spec a b); [lia | reflexivity].
Qed.

End Comparison.

Section Nearest.

Variables (A B G m_t m_r : Z).
Hypothesis HB : 0 < B.
Hypothesis HG : 0 < G.
Hypothesis Hm : 2 ^ 52 <= m_t.
Hypothesis HA : A < 2 ^ 53.
Hypothesis Hround : rounds_to (A * G) B m_t m_r.

(** A unit of at most half of [1 / B] is impossible for a full mantissa. *)
Lemma coarse_unit : 2 * G <= B -> False.
Proof.
  intros Hc. destruct Hround as [[Hlo _] _].
  assert (H1 : 2 ^ 52 * (2 * G) <= m_t * (2 * G))
    by (apply Z.mul_le_mono_nonneg_r; lia).
  assert (H2 : m_t * (2 * G) <= m_t * B)
    by (apply Z.mul_le_mono_nonneg_l; lia).
  assert (H3 : A * G < 2 ^ 53 * G) by (apply Z.mul_lt_mono_pos_r; lia).
  lia.
Qed.

Lemma nearest_above (c : Z) :
  (c - 1) * B < A <= c * B -> (c - 1) * G < m_r <= c * G.
Proof.
  intros [Hc1 Hc2]. pose proof coarse_unit as Hcoarse.
  destruct Hround as [[Hlo Hhi] Hcase].
  assert (H1 : (c - 1) * B * G < A * G) by (apply Z.mul_lt_mono_pos_r; lia).
  assert (H2 : A * G <= c * B * G) by (apply Z.mul_le_mono_nonneg_r; lia).
  assert (Hlow : (c - 1) * G <= m_t).
  { destruct (Z_le_gt_dec ((c - 1) * G) m_t) as [|Hgt]; [assumption |].
    exfalso. assert ((m_t + 1) * B <= (c - 1) * G * B)
      by (apply Z.mul_le_mono_nonneg_r; lia). lia. }
  assert (Hupp : m_t <= c * G).
  { destruct (Z_le_gt_dec m_t (c * G)) as [|Hgt]; [assumption |].
    exfalso. assert ((c * G + 1) * B <= m_t * B)
      by (apply Z.mul_le_mono_nonneg_r; lia). lia. }
  destruct Hcase as [[-> Hdown] | [-> Hup]].
  - split; [| assumption].
    destruct (Z.eq_dec ((c - 1) * G) m_t) as [Heq | Hne]; [| lia].
    exfalso. apply Hcoarse.
    assert (H3 : A * G - m_t * B = (A - (c - 1) * B) * G) by (rewrite <- Heq; ring).
    assert (H4 : 1 * G <= (A - (c - 1) * B) * G)
      by (apply Z.mul_le_mono_nonneg_r; lia).
    lia.
  - split; [lia |].
    destruct (Z.eq_dec m_t (c * G)) as [Heq | Hne]; [| lia].
    exfalso. rewrite Heq in Hup.
    replace (c * G * B) with (c * B * G) in Hup by ring. lia.
Qed.

Lemma nearest_below (f : Z) :
  f * B <= A < (f + 1) * B -> f * G <= m_r < (f + 1) * G.
Proof.
  intros [Hf1 Hf2]. pose proof coarse_unit as Hcoarse.
  destruct Hround as [[Hlo Hhi] Hcase].
  assert (H1 : f * B * G <= A * G) by (apply Z.mul_le_mono_nonneg_r; lia).
  assert (H2 : A * G < (f + 1) * B * G) by (apply Z.mul_lt_mono_pos_r; lia).
  assert (Hlow : f * G <= m_t).
  { destruct (Z_le_gt_dec (f * G) m_t) as [|Hgt]; [assumption |].
    exfalso. assert ((m_t + 1) * B <= f * G * B)
      by (apply Z.mul_le_mono_nonneg_r; lia). lia. }
  assert (Hupp : m_t + 1 <= (f + 1) * G).
  { destruct (Z_le_gt_dec (m_t + 1) ((f + 1) * G)) as [|Hgt]; [assumption |].
    exfalso. assert ((f + 1) * G * B <= m_t * B)
      by (apply Z.mul_le_mono_nonneg_r; lia). lia. }
  destruct Hcase as [[-> Hdown] | [-> Hup]].
  - lia.
  - split; [lia |].
    destruct (Z.eq_dec (m_t + 1) ((f + 1) * G)) as [Heq | Hne]; [| lia].
    exfalso. apply Hcoarse.
    assert (H3 : A * G - m_t * B = B - ((f + 1) * B - A) * G).
    { replace m_t with ((f + 1) * G - 1) by lia. ring. }
    assert (H4 : 1 * G <= ((f + 1) * B - A) * G)
      by (apply Z.mul_le_mono_nonneg_r; lia).
    lia.
Qed.

End Nearest.

Section Ceiling.

Lemma number_of_Z_full (s : bool) (m : Z) :
  2 ^ 52 <= m < 2 ^ 53 ->
  number_of_Z (cond_Zopp s m) = S754_finite s (Z.to_pos m) 0.
Proof.
  intros Hm. destruct m as [| p | p]; try lia.
  assert (Hround : binary_round 53 1024 s p 0 = S754_finite s p 0).
  { destruct (binary_round_integer s p (proj2 Hm)) as (m & e & -> & Hd & He & Hv).
    pose proof (digits2_bounds m) as Hb. rewrite Hd in Hb.
    change (53 - 1) with 52 in Hb.
    destruct (Z.eq_dec e 0) as [-> | Hne].
    - change (2 ^ (- 0)) with 1 in Hv. f_equal. lia.
    - exfalso. assert (2 ^ 1 <= 2 ^ (- e)) by (apply Z.pow_le_mono_r; lia).
      change (2 ^ 1) with 2 in *.
      assert (Zpos p * 2 <= Zpos p * 2 ^ (- e))
        by (apply Z.mul_le_mono_nonneg_l; lia).
      lia. }
  destruct s; exact Hround.
Qed.

Lemma ceiling_unique (G v n : Z) :
  0 < G -> (n - 1) * G < v <= n * G -> - ((- v) / G) = n.
Proof.
  intros HG Hv.
  assert (H : (- v) / G = - n).
  { symmetry. apply (Z.div_unique_pos _ _ _ (n * G - v)); lia. }
  lia.
Qed.

Lemma Math_ceil_renormalised (s : bool) (m_r K n : Z) :
  2 ^ 52 <= m_r <= 2 ^ 53 -> 0 <= K ->
  (n - 1) * 2 ^ K < cond_Zopp s m_r <= n * 2 ^ K ->
  Z.abs n < 2 ^ 53 ->
  Math_ceil (renormalised s m_r (- K))
  = if n =? 0 then S754_zero s else number_of_Z n.
Proof.
  intros Hm HK Hn Habs. unfold renormalised.
  assert (HG : 0 < 2 ^ K) by (apply Z.pow_pos_nonneg; lia).
  destruct (Z.ltb_spec m_r (2 ^ 53)) as [Hlt | Hge].
  - destruct (Z.eq_dec K 0) as [-> | HK0].
    + change (2 ^ 0) with 1 in Hn. cbn [Math_ceil Z.opp Z.leb Z.compare].
      assert (n = cond_Zopp s m_r) as -> by lia.
      destruct (Z.eqb_spec (cond_Zopp s m_r) 0) as [Hz | Hnz].
      * destruct s; cbn [cond_Zopp] in Hz; lia.
      * symmetry. apply number_of_Z_full. lia.
    + cbn [Math_ceil]. destruct (Z.leb_spec 0 (- K)) as [| _]; [lia |].
      rewrite Z.opp_involutive, Z2Pos.id by lia.
      rewrite (ceiling_unique _ _ n HG Hn). reflexivity.
  - assert (m_r = 2 ^ 53) as -> by lia.
    destruct (Z.eq_dec K 0) as [-> | HK0].
    { exfalso. change (2 ^ 0) with 1 in Hn.
      destruct s; cbn [cond_Zopp] in Hn; lia. }
    assert (Hsplit : 2 ^ K = 2 * 2 ^ (K - 1)).
    { rewrite <- Z.pow_succ_r by lia. f_equal. lia. }
    assert (HG' : 0 < 2 ^ (K - 1)) by (apply Z.pow_pos_nonneg; lia).
    assert (Hn' : (n - 1) * 2 ^ (K - 1) < cond_Zopp s (2 ^ 52) <= n * 2 ^ (K - 1)).
    { rewrite Hsplit in Hn. destruct s; cbn [cond_Zopp] in Hn |- *; lia. }
    destruct (Z.eq_dec K 1) as [-> | HK1].
    + change (2 ^ (1 - 1)) with 1 in Hn'. cbn [Math_ceil Z.opp Z.add Z.pos_sub Z.leb Z.compare].
      assert (n = cond_Zopp s (2 ^ 52)) as -> by lia.
      destruct (Z.eqb_spec (cond_Zopp s (2 ^ 52)) 0) as [Hz | Hnz].
      * destruct s; cbn in Hz; lia.
      * symmetry. apply number_of_Z_full. lia.
    + cbn [Math_ceil]. destruct (Z.leb_spec 0 (- K + 1)) as [| _]; [lia |].
      replace (- (- K + 1)) with (K - 1) by lia.
      rewrite Z2Pos.id by lia.
      rewrite (ceiling_unique _ _ n HG' Hn'). reflexivity.
Qed.

Lemma rounds_to_scale (X B P m_t m_r : Z) :
  0 < P -> rounds_to (X * P) (B * P) m_t m_r -> rounds_to X B m_t m_r.
Proof.
  intros HP [[Hlo Hhi] Hcase]. unfold rounds_to.
  replace (m_t * (B * P)) with (m_t * B * P) in * by ring.
  replace ((m_t + 1) * (B * P)) with ((m_t + 1) * B * P) in * by ring.
  apply Z.mul_le_mono_pos_r in Hlo; [| assumption].
  apply Z.mul_lt_mono_pos_r in Hhi; [| assumption].
  split; [split; assumption |].
  destruct Hcase as [[-> H] | [-> H]]; [left | right]; split; try reflexivity.
  - replace (2 * (X * P - m_t * B * P)) with (2 * (X - m_t * B) * P) in H by ring.
    apply Z.mul_le_mono_pos_r in H; assumption.
  - replace (2 * (X * P - m_t * B * P)) with (2 * (X - m_t * B) * P) in H by ring.
    apply Z.mul_le_mono_pos_r in H; assumption.
Qed.

(** The page count the code computes: [Math.ceil(total / limit)] on doubles
    is the integer ceiling of the quotient; the zero above a negative
    quotient is the negative zero. *)
Lemma Math_ceil_div (t l n : Z) :
  Z.abs t < 2 ^ 53 -> 0 < l < 2 ^ 53 ->
  (n - 1) * l < t <= n * l ->
  Math_ceil (Number_div (number_of_Z t) (number_of_Z l))
  = if (t <? 0) && (n =? 0) then S754_zero true else number_of_Z n.
Proof.
  intros Ht Hl Hn.
  destruct (number_of_Z_normal l ltac:(lia) ltac:(lia))
    as (m2 & e2 & E2 & Hd2 & He2 & Hm2).
  assert (Hneg : (l <? 0) = false) by (apply Z.ltb_ge; lia).
  rewrite Hneg in E2. rewrite E2. rewrite Z.abs_eq in Hm2 by lia.
  destruct (Z.eq_dec t 0) as [-> | Ht0].
  - assert (n = 0) as -> by nia. reflexivity.
  - destruct (number_of_Z_normal t Ht0 Ht) as (m1 & e1 & E1 & Hd1 & He1 & Hm1).
    rewrite E1. unfold Number_div.
    destruct (SFdiv_normal (t <? 0) false m1 m2 e1 e2 Hd1 Hd2 He1 He2)
      as (g & m_t & m_r & Hg & Hmt & Hr & ->).
    rewrite xorb_false_r.
    set (K := - (e1 - e2 - 53 + g)).
    replace (e1 - e2 - 53 + g) with (- K) by (unfold K; lia).
    assert (HK : 0 <= K) by (unfold K; lia).
    assert (HG : 0 < 2 ^ K) by (apply Z.pow_pos_nonneg; lia).
    assert (HP : 0 < 2 ^ (g - e2)) by (apply Z.pow_pos_nonneg; lia).
    assert (Hr' : rounds_to (Z.abs t * 2 ^ K) l m_t m_r).
    { apply (rounds_to_scale _ _ (2 ^ (g - e2))); [assumption |].
      replace (Z.abs t * 2 ^ K * 2 ^ (g - e2)) with (Zpos m1 * 2 ^ 53).
      2:{ rewrite Hm1, <- !Z.mul_assoc, <- !Z.pow_add_r by lia.
          do 2 f_equal. unfold K. lia. }
      replace (l * 2 ^ (g - e2)) with (2 ^ g * Zpos m2).
      2:{ rewrite Hm2. replace (g - e2) with (g + - e2) by lia.
          rewrite Z.pow_add_r by lia. ring. }
      exact Hr. }
    assert (Hmr : 2 ^ 52 <= m_r <= 2 ^ 53).
    { destruct Hr' as [_ [[-> _] | [-> _]]]; lia. }
    destruct (Z.ltb_spec t 0) as [Htn | Htp]; cbn [andb].
    + rewrite Z.abs_neq in Hr' by lia.
      pose proof (nearest_below (- t) l (2 ^ K) m_t m_r ltac:(lia) HG (proj1 Hmt) ltac:(lia) Hr' (- n)
                    ltac:(lia)) as Hb.
      apply Math_ceil_renormalised; try assumption.
      * cbn [cond_Zopp]. lia.
      * assert (n <= 0) by nia. assert (t <= n * 1) by nia. lia.
    + rewrite Z.abs_eq in Hr' by lia.
      pose proof (nearest_above t l (2 ^ K) m_t m_r ltac:(lia) HG (proj1 Hmt) ltac:(lia) Hr' n
                    ltac:(lia)) as Hb.
      assert (Hn1 : 1 <= n) by nia.
      assert (Hnt : n <= t) by nia.
      rewrite (Math_ceil_renormalised false m_r K n); try assumption.
      * destruct (Z.eqb_spec n 0); [lia | reflexivity].
      * lia.
Qed.

End Ceiling.

Section PageCount.

Variables (l t : Z).
Hypothesis Hl : safe_integer l.
Hypothesis Ht : safe_integer t.
Hypothesis Hpos : 0 < l.

Lemma ceiling_bounds : (ceiling t l - 1) * l < t <= ceiling t l * l.
Proof.
  unfold ceiling.
  pose proof (Z.div_mod (- t) l ltac:(lia)) as Hdm.
  pose proof (Z.mod_pos_bound (- t) l Hpos) as Hr.
  nia.
Qed.

Lemma ceiling_safe : safe_integer (ceiling t l).
Proof.
  pose proof ceiling_bounds as Hb.
  unfold safe_integer, MAX_SAFE_INTEGER in *.
  set (n := ceiling t l) in *.
  assert (Z.abs n <= Z.abs t); [| lia].
  destruct (Z_lt_le_dec t 0).
  - assert (n <= 0) by nia. assert (t <= n * 1) by nia. lia.
  - assert (0 <= n) by nia. assert ((n - 1) * 1 < t \/ n = 0) by nia. lia.
Qed.

(** The number [createPaginationMeta] stores as [totalPages]. *)
Lemma totalPages_value :
  Math_ceil (Number_div (number_of_Z t) (number_of_Z l))
  = if (t <? 0) && (ceiling t l =? 0) then S754_zero true
    else number_of_Z (ceiling t l).
Proof.
  unfold safe_integer, MAX_SAFE_INTEGER in *.
  apply Math_ceil_div; [lia | lia | apply ceiling_bounds].
Qed.

Lemma totalPages_holds :
  holds (ceiling t l)
    (Math_ceil (Number_div (number_of_Z t) (number_of_Z l))).
Proof.
  rewrite totalPages_value.
  destruct ((t <? 0) && (ceiling t l =? 0)) eqn:Hz.
  - left. apply andb_prop in Hz. destruct Hz as [_ Hz].
    apply Z.eqb_eq in Hz. split; [assumption |]. now exists true.
  - apply number_of_Z_holds. pose proof ceiling_safe as Hs.
    unfold safe_integer, MAX_SAFE_INTEGER in Hs. lia.
Qed.

End PageCount.

Lemma safe_integer_holds (n : Z) : safe_integer n -> holds n (number_of_Z n).
Proof.
  unfold safe_integer, MAX_SAFE_INTEGER. intros H.
  apply number_of_Z_holds. lia.
Qed.

(** C8 (amended). For all integers [page], [limit], [total] in the
    safe-integer range with [limit > 0], [createPaginationMeta] returns the
    three inputs unchanged, [totalPages] is the ceiling [n] of
    [total / limit] (the integer with [(n - 1) * limit < total <= n * limit];
    the number -0 when that is 0 and [total] is negative), [hasNext] is
    [page < n] and [hasPrev] is [page > 1]; [createPaginationMeta(2, 10, 25)]
    has 3 pages with both flags set and [createPaginationMeta(1, 10, 5)] has
    1 page with both flags cleared. *)
Theorem createPaginationMeta_safe_integers (p l t : Z) :
  safe_integer p -> safe_integer l -> safe_integer t -> 0 < l ->
  (ceiling t l - 1) * l < t <= ceiling t l * l
  /\ createPaginationMeta (number_of_Z p) (number_of_Z l) (number_of_Z t)
     = {| page := number_of_Z p;
          limit := number_of_Z l;
          total := number_of_Z t;
          totalPages :=
            if (t <? 0) && (ceiling t l =? 0) then S754_zero true
            else number_of_Z (ceiling t l);
          hasNext := p <? ceiling t l;
          hasPrev := 1 <? p |}
  /\ createPaginationMeta (number_of_Z 2) (number_of_Z 10) (number_of_Z 25)
     = mkPaginationMeta (number_of_Z 2) (number_of_Z 10) (number_of_Z 25)
         (number_of_Z 3) true true
  /\ createPaginationMeta (number_of_Z 1) (number_of_Z 10) (number_of_Z 5)
     = mkPaginationMeta (number_of_Z 1) (number_of_Z 10) (number_of_Z 5)
         (number_of_Z 1) false false.
Proof.
  intros Hp Hl Ht Hpos.
  split; [now apply ceiling_bounds |].
  split; [| split; vm_compute; reflexivity].
  unfold createPaginationMeta. f_equal.
  - now apply totalPages_value.
  - apply Number_lt_holds.
    + now apply safe_integer_holds.
    + now apply totalPages_holds.
  - apply Number_lt_holds; apply safe_integer_holds; [| assumption].
    unfold safe_integer, MAX_SAFE_INTEGER in *. lia.
Qed.

Lemma createPaginationMeta_safe_integers_witness :
  (ceiling 25 10 - 1) * 10 < 25 <= ceiling 25 10 * 10
  /\ totalPages
       (createPaginationMeta (number_of_Z 2) (number_of_Z 10) (number_of_Z 25))
     = number_of_Z 3
  /\ ceiling (-5) 10 = 0
  /\ totalPages
       (createPaginationMeta (number_of_Z 2) (number_of_Z 10) (number_of_Z (-5)))
     = S754_zero true.
Proof.
  assert (H2 : safe_integer 2) by (unfold safe_integer, MAX_SAFE_INTEGER; lia).
  assert (H10 : safe_integer 10) by (unfold safe_integer, MAX_SAFE_INTEGER; lia).
  assert (H25 : safe_integer 25) by (unfold safe_integer, MAX_SAFE_INTEGER; lia).
  assert (H5 : safe_integer (-5)) by (unfold safe_integer, MAX_SAFE_INTEGER; lia).
  destruct (createPaginationMeta_safe_integers 2 10 25 H2 H10 H25 ltac:(lia))
    as (Hb & Hm & _).
  destruct (createPaginationMeta_safe_integers 2 10 (-5) H2 H10 H5 ltac:(lia))
    as (_ & Hm' & _).
  split; [exact Hb |].
  split; [rewrite Hm; reflexivity |].
  split; [reflexivity |].
  rewrite Hm'. reflexivity.
Defined.

(** C8 (as stated, refuted). At [(1, 3, 2^54)] every argument is a double,
    the quotient [2^54 / 3] is rounded down to the double 6004799503160661
    before [Math.ceil] sees it, and that is what [totalPages] holds: one
    below the ceiling 6004799503160662. *)
Lemma createPaginationMeta_beyond_safe_integers :
  0 < 3
  /\ number_of_Z (2 ^ 54) = S754_finite false (Z.to_pos (2 ^ 52)) 2
  /\ (ceiling (2 ^ 54) 3 - 1) * 3 < 2 ^ 54 <= ceiling (2 ^ 54) 3 * 3
  /\ ceiling (2 ^ 54) 3 = 6004799503160662
  /\ totalPages
       (createPaginationMeta (number_of_Z 1) (number_of_Z 3) (number_of_Z (2 ^ 54)))
     = number_of_Z 6004799503160661
  /\ totalPages
       (createPaginationMeta (number_of_Z 1) (number_of_Z 3) (number_of_Z (2 ^ 54)))
     <> number_of_Z (ceiling (2 ^ 54) 3)
  /\ ~ (forall p l t : Z,
          0 < l ->
          totalPages
            (createPaginationMeta (number_of_Z p) (number_of_Z l) (number_of_Z t))
          = number_of_Z (ceiling t l)).
Proof.
  assert (Hne : totalPages
       (createPaginationMeta (number_of_Z 1) (number_of_Z 3) (number_of_Z (2 ^ 54)))
     <> number_of_Z (ceiling (2 ^ 54) 3)).
  { vm_compute. discriminate. }
  split; [lia |].
  split; [vm_compute; reflexivity |].
  split; [vm_compute; split; [reflexivity | discriminate] |].
  split; [vm_compute; reflexivity |].
  split; [vm_compute; reflexivity |].
  split; [exact Hne |].
  intros H. apply Hne. apply H. lia.
Qed.

(** ** Serialisation helpers *)

Section Serialisation.

Lemma jsonify_defined (v : JValue) :
  is_undefined (jsonify v) = is_undefined v.
Proof. destruct v; reflexivity. Qed.

Lemma truthy_defined (v : JValue) :
  truthy v = true -> is_undefined v = false.
Proof. destruct v; simpl; congruence. Qed.

(** An array whose elements are already in wire form is sent as it is. *)
Lemma jsonify_array_fixed (l : list JValue) :
  Forall (fun x => jsonify x = x /\ is_undefined x = false) l ->
  jsonify (JArr l) = JArr l.
Proof.
  intros H. cbn [jsonify]. f_equal.
  induction H as [|x l [Hx Hd] _ IH]; [reflexivity |].
  cbn [map]. rewrite Hx, IH. unfold null_if_undefined. now rewrite Hd.
Qed.

Lemma formattedError_wire (i : ZodIssue.t) :
  jsonify (formattedError i) = formattedError i
  /\ is_undefined (formattedError i) = false.
Proof. split; reflexivity. Qed.

Lemma sourceError_wire (s : ValidationSource) (i : ZodIssue.t) :
  jsonify (sourceError s i) = sourceError s i
  /\ is_undefined (sourceError s i) = false.
Proof. split; reflexivity. Qed.

(** The validators' failure body, whose [errors] are in wire form, is
    sent as it is. *)
Lemma jsonify_failure_body (errors : list JValue) :
  Forall (fun x => jsonify x = x /\ is_undefined x = false) errors ->
  jsonify (JObj [("success", JBool false);
                 ("message", JStr "Validation failed");
                 ("errors", JArr errors)])
  = JObj [("success", JBool false);
          ("message", JStr "Validation failed");
          ("errors", JArr errors)].
Proof.
  intros H. pose proof (jsonify_array_fixed errors H) as Harr.
  cbn [jsonify] in Harr. injection Harr as Harr.
  cbn [jsonify map]. rewrite Harr. reflexivity.
Qed.

End Serialisation.

(** ** Error classification *)

(** C3. An [AppError] instance is classified with exactly its own
    [statusCode], [message], [errorCode] and [details], whatever its [name]
    and [code] are (the rule is tested before every name and code rule);
    the error [AppError.notFound("User not found", {userId: "123"})]
    classifies to 404, [NOT_FOUND], "User not found", [{userId: "123"}]. *)
Theorem classify_AppError_passthrough :
  (forall sc ec d name msg stack code,
      classify (Err.mk (AppErrorInstance sc ec d) name msg stack code)
      = mkClassification sc msg ec d)
  /\ (forall rt,
         classify (AppError.notFound rt (Some "User not found")
                     (JObj [("userId", JStr "123")]))
         = mkClassification 404 "User not found" ErrorCode.NOT_FOUND
             (JObj [("userId", JStr "123")])).
Proof. split; intros; reflexivity. Qed.

(** ** Single-source validation *)

(** C5. When the section [source] of the request fails [schema] (the
    parse throws a [ZodError]), [validate] leaves the request as it is,
    does not call [next], and sends one response: status 400 with the body
    [{success: false, message: "Validation failed", errors}], where
    [errors] has one entry per issue, in order, made of [field] (the path
    joined with "."), [message] and [code]; the body has no [errorCode]
    field.  The joined path is the empty string for an empty path, the
    segment itself for a single segment, and otherwise the first segment,
    a dot and the joined rest; a key is its own segment and an index is
    written in decimal, so that the path [items, 1, id] gives
    "items.1.id". *)
Theorem validate_failure_responds_400 (schema : ZodSchema)
    (source : option ValidationSource) (req : Req.t) (error : Err.t)
    (issues : list ZodIssue.t) :
  schema (Req.get req (source_or_default source)) = Throw error ->
  Err.class error = ZodErrorInstance issues ->
  exists payload,
    validate schema source req = (req, [Respond 400 payload])
    /\ payload
       = JObj [("success", JBool false);
               ("message", JStr "Validation failed");
               ("errors",
                JArr (map (fun i =>
                             JObj [("field",
                                    JStr (join "." (map segment_string
                                                      (ZodIssue.path i))));
                                   ("message", JStr (ZodIssue.message i));
                                   ("code", JStr (ZodIssue.code i))])
                          issues))]
    /\ field "errorCode" payload = None
    /\ (forall e, ~ In (Next e) (snd (validate schema source req)))
    /\ join "." [] = ""
    /\ (forall x, join "." [x] = x)
    /\ (forall x y rest,
           join "." (x :: y :: rest) = x ++ "." ++ join "." (y :: rest))
    /\ (forall k, segment_string (Key k) = k)
    /\ map (fun i => segment_string (Index i)) [0; 1; 9; 10; 12; 105]%N
       = ["0"; "1"; "9"; "10"; "12"; "105"]
    /\ join "." (map segment_string [Key "items"; Index 1; Key "id"])
       = "items.1.id".
Proof.
  intros Hparse Hclass. eexists.
  split; [| split; [reflexivity | split; [reflexivity | split]]].
  - unfold validate, validate_catch. rewrite Hparse, Hclass.
    rewrite jsonify_failure_body; [reflexivity |].
    apply Forall_forall. intros x Hx. apply in_map_iff in Hx.
    destruct Hx as (i & <- & _). apply formattedError_wire.
  - intros e. unfold validate, validate_catch. rewrite Hparse, Hclass.
    cbn [snd]. intros [H | []]. discriminate H.
  - repeat split; reflexivity.
Qed.

Lemma validate_failure_responds_400_witness :
  validate Sample.itemIds (Some Source.body) Sample.order
  = (Sample.order,
     [Respond 400
        (JObj [("success", JBool false);
               ("message", JStr "Validation failed");
               ("errors",
                JArr [JObj [("field", JStr "items.1.id");
                            ("message", JStr "Expected string");
                            ("code", JStr "invalid_type")]])])]).
Proof.
  destruct (validate_failure_responds_400 Sample.itemIds
              (Some Source.body) Sample.order
              (ZodError_new Sample.production
                 [ZodIssue.mk [Key "items"; Index 1; Key "id"]
                    "Expected string" "invalid_type"]
                 "Invalid items")
              [ZodIssue.mk [Key "items"; Index 1; Key "id"]
                 "Expected string" "invalid_type"]
              eq_refl eq_refl)
    as (payload & Hrun & Hpayload & _).
  rewrite Hrun, Hpayload. reflexivity.
Defined.

(** ** Multi-source validation: the loop *)

Section ValidateAllLoop.

Lemma get_set_same (req : Req.t) (s : ValidationSource) (v : JValue) :
  Req.get (set_section req s v) s = v.
Proof. destruct s; reflexivity. Qed.

Lemma get_set_other (req : Req.t) (s s' : ValidationSource) (v : JValue) :
  s <> s' -> Req.get (set_section req s v) s' = Req.get req s'.
Proof. destruct s, s'; intros H; try reflexivity; congruence. Qed.

(** The assignment either replaces the section or, on a request whose
    [query] has only a getter, throws the TypeError. *)
Lemma assign_section_unfold (req : Req.t) (s : ValidationSource) (v : JValue) :
  (assignable req s = true
   /\ assign_section req s v = Return (set_section req s v))
  \/ (assignable req s = false
      /\ s = Source.query
      /\ exists trace,
          Req.query_getter_only req = Some trace
          /\ assign_section req s v = Throw (TypeError_getter_only trace)).
Proof.
  unfold assignable, assign_section.
  destruct s, (Req.query_getter_only req) as [trace|]; auto.
  right. repeat split. now exists trace.
Qed.

Lemma set_section_getter_only (req : Req.t) (s : ValidationSource) (v : JValue) :
  Req.query_getter_only (set_section req s v) = Req.query_getter_only req.
Proof. destruct s; reflexivity. Qed.

(** An iteration of the loop, by the outcome of the parse and of the
    assignment. *)
Lemma step_unfold req errors s schema :
  validateAll_step (req, errors) (s, schema)
  = match schema (Req.get req s) with
    | Return v =>
        (if assignable req s then set_section req s v else req, errors)
    | Throw e => validateAll_catch req errors s e
    end.
Proof.
  unfold validateAll_step.
  destruct (schema (Req.get req s)) as [v | e]; [| reflexivity].
  destruct (assign_section_unfold req s v)
    as [[-> ->] | (-> & _ & trace & _ & ->)]; reflexivity.
Qed.

(** [validate], by the outcome of the parse and of the assignment. *)
Lemma validate_unfold schema source req :
  validate schema source req
  = match schema (Req.get req (source_or_default source)) with
    | Return v =>
        match Req.query_getter_only req with
        | Some trace =>
            if assignable req (source_or_default source)
            then (set_section req (source_or_default source) v, [Next None])
            else (req, [Next (Some (TypeError_getter_only trace))])
        | None =>
            (set_section req (source_or_default source) v, [Next None])
        end
    | Throw e => validate_catch req e
    end.
Proof.
  unfold validate, assign_section, assignable.
  destruct (schema (Req.get req (source_or_default source))) as [v | e];
    [| reflexivity].
  destruct (source_or_default source),
    (Req.query_getter_only req) as [trace|]; reflexivity.
Qed.

(** An iteration touches the section of its own source only. *)
Lemma step_other_section st entry s' :
  fst entry <> s' ->
  Req.get (fst (validateAll_step st entry)) s' = Req.get (fst st) s'.
Proof.
  destruct st as [req errors], entry as [s schema]. cbn [fst].
  intros Hne. rewrite step_unfold.
  destruct (schema (Req.get req s)) as [v | e].
  - cbn [fst]. destruct (assignable req s); [| reflexivity].
    now apply get_set_other.
  - unfold validateAll_catch. destruct (Err.class e); reflexivity.
Qed.

(** An iteration does not change how an assignment to [query] ends. *)
Lemma step_getter_only st entry :
  Req.query_getter_only (fst (validateAll_step st entry))
  = Req.query_getter_only (fst st).
Proof.
  destruct st as [req errors], entry as [s schema]. rewrite step_unfold.
  cbn [fst]. destruct (schema (Req.get req s)) as [v | e].
  - cbn [fst]. destruct (assignable req s); [| reflexivity].
    apply set_section_getter_only.
  - unfold validateAll_catch. destruct (Err.class e); reflexivity.
Qed.

(** An iteration appends the violations of its source to [errors]. *)
Lemma step_errors req errors entry :
  snd (validateAll_step (req, errors) entry)
  = (errors ++ violations req entry)%list.
Proof.
  destruct entry as [s schema]. rewrite step_unfold. unfold violations.
  cbn [fst snd].
  destruct (schema (Req.get req s)) as [v | e]; cbn [snd].
  - now rewrite app_nil_r.
  - unfold validateAll_catch.
    destruct (Err.class e); cbn [snd]; try now rewrite app_nil_r.
    reflexivity.
Qed.

Lemma violations_agree r1 r2 entry :
  Req.get r1 (fst entry) = Req.get r2 (fst entry) ->
  violations r1 entry = violations r2 entry.
Proof. unfold violations. now intros ->. Qed.

Lemma agree_on_step schemas entry req errors r0 :
  NoDup (map fst (entry :: schemas)) ->
  agree_on (map fst (entry :: schemas)) req r0 ->
  agree_on (map fst schemas) (fst (validateAll_step (req, errors) entry)) r0.
Proof.
  intros Hnd Hag s Hs. cbn [map] in Hnd, Hag.
  inversion Hnd as [|? ? Hnotin _]; subst.
  rewrite step_other_section.
  - apply Hag. now right.
  - intros Heq. apply Hnotin. now rewrite Heq.
Qed.

(** With pairwise distinct sources, the loop extends [errors] by the
    violations of every pair, in the order of the mapping, each computed
    on the section as it was when the loop started. *)
Lemma loop_errors schemas : forall req errors r0,
  NoDup (map fst schemas) ->
  agree_on (map fst schemas) req r0 ->
  snd (validateAll_loop schemas (req, errors))
  = (errors ++ flat_map (violations r0) schemas)%list.
Proof.
  induction schemas as [|entry rest IH]; intros req errors r0 Hnd Hag.
  - cbn. now rewrite app_nil_r.
  - unfold validateAll_loop in *. cbn [fold_left flat_map].
    pose proof (agree_on_step rest entry req errors r0 Hnd Hag) as Hag'.
    pose proof (step_errors req errors entry) as Herr.
    destruct (validateAll_step (req, errors) entry) as [req1 errors1].
    cbn [fst snd] in *.
    rewrite (IH req1 errors1 r0); [| now inversion Hnd | assumption].
    rewrite Herr, <- app_assoc. do 2 f_equal.
    apply violations_agree, Hag. now left.
Qed.

(** The loop leaves a section no pair names as it was. *)
Lemma loop_other_section schemas : forall st s,
  ~ In s (map fst schemas) ->
  Req.get (fst (validateAll_loop schemas st)) s = Req.get (fst st) s.
Proof.
  induction schemas as [|entry rest IH]; intros st s Hnotin; [reflexivity |].
  unfold validateAll_loop in *. cbn [fold_left].
  rewrite IH.
  - apply step_other_section. intros Heq. apply Hnotin. now left.
  - intros Hin. apply Hnotin. now right.
Qed.

(** With pairwise distinct sources, a section whose parse returns holds
    the returned value when the loop ends if the section can be assigned,
    and its old value if it cannot. *)
Lemma loop_replaces_section schemas : forall req errors r0 s schema v,
  NoDup (map fst schemas) ->
  agree_on (map fst schemas) req r0 ->
  In (s, schema) schemas ->
  schema (Req.get r0 s) = Return v ->
  Req.get (fst (validateAll_loop schemas (req, errors))) s
  = if assignable req s then v else Req.get req s.
Proof.
  induction schemas as [|entry rest IH];
    intros req errors r0 s schema v Hnd Hag Hin Hparse; [contradiction |].
  unfold validateAll_loop in *. cbn [fold_left].
  pose proof (agree_on_step rest entry req errors r0 Hnd Hag) as Hag'.
  inversion Hnd as [|? ? Hnotin Hnd']; subst.
  destruct Hin as [-> | Hin].
  - fold (validateAll_loop rest (validateAll_step (req, errors) (s, schema))).
    rewrite loop_other_section by exact Hnotin.
    rewrite step_unfold. rewrite (Hag s) by now left.
    rewrite Hparse. cbn [fst].
    destruct (assignable req s); [apply get_set_same |].
    apply Hag. now left.
  - pose proof (step_getter_only (req, errors) entry) as Hgo.
    assert (Hs : Req.get (fst (validateAll_step (req, errors) entry)) s
                 = Req.get req s).
    { apply (step_other_section (req, errors) entry s).
      intros Heq. apply Hnotin. apply in_map_iff. exists (s, schema).
      split; [symmetry; exact Heq | exact Hin]. }
    destruct (validateAll_step (req, errors) entry) as [req1 errors1] eqn:E.
    cbn [fst] in Hag', Hgo, Hs.
    rewrite (IH req1 errors1 r0 s schema v Hnd' Hag' Hin Hparse).
    unfold assignable. now rewrite Hgo, Hs.
Qed.

(** Every element of [errors] was built by [sourceError]. *)
Lemma loop_errors_shape schemas : forall st,
  Forall (fun x => exists s i, x = sourceError s i) (snd st) ->
  Forall (fun x => exists s i, x = sourceError s i)
         (snd (validateAll_loop schemas st)).
Proof.
  induction schemas as [|[s schema] rest IH]; intros [req errors] H;
    [exact H |].
  unfold validateAll_loop in *. cbn [fold_left]. apply IH.
  rewrite step_unfold. cbn [snd] in H.
  destruct (schema (Req.get req s)) as [v | e]; [exact H |].
  unfold validateAll_catch.
  destruct (Err.class e) as [issues | |]; try exact H.
  cbn [snd]. apply Forall_app. split; [exact H |].
  apply Forall_forall. intros x Hx. apply in_map_iff in Hx.
  destruct Hx as (i & <- & _). now exists s, i.
Qed.

Lemma sourceError_shape_wire (errors : list JValue) :
  Forall (fun x => exists s i, x = sourceError s i) errors ->
  Forall (fun x => jsonify x = x /\ is_undefined x = false) errors.
Proof.
  intros H. eapply Forall_impl; [| exact H].
  intros x (s & i & ->). apply sourceError_wire.
Qed.

(** What [validateAll] does, in terms of its loop. *)
Lemma validateAll_unfold schemas req :
  validateAll schemas req
  = (fst (validateAll_loop schemas (req, [])),
     match snd (validateAll_loop schemas (req, [])) with
     | [] => [Next None]
     | errors =>
         [Respond 400
            (JObj [("success", JBool false);
                   ("message", JStr "Validation failed");
                   ("errors", JArr errors)])]
     end).
Proof.
  unfold validateAll.
  pose proof (loop_errors_shape schemas (req, []) (Forall_nil _)) as Hshape.
  destruct (validateAll_loop schemas (req, [])) as [req' errors].
  cbn [fst snd] in *. destruct errors as [|x errors]; [reflexivity |].
  replace (0 <? Z.of_nat (List.length (x :: errors))) with true
    by (symmetry; apply Z.ltb_lt; cbn [List.length]; lia).
  rewrite jsonify_failure_body by now apply sourceError_shape_wire.
  reflexivity.
Qed.

End ValidateAllLoop.

(** ** Multi-source validation: the middleware *)

Section ValidateAll.

Lemma agree_on_refl sources req : agree_on sources req req.
Proof. now intros s _. Qed.

Lemma failing_source_reported schemas req s schema :
  In (s, schema) schemas ->
  fails_schema req s schema ->
  Exists (fun v => field "source" v = Some (JStr (Source.name s)))
         (flat_map (violations req) schemas).
Proof.
  intros Hin (error & issues & Hparse & Hclass & Hne).
  destruct issues as [|i issues]; [congruence |].
  apply Exists_exists. eexists. split.
  - apply in_flat_map. exists (s, schema). split; [exact Hin |].
    unfold violations. cbn [fst snd]. rewrite Hparse, Hclass. now left.
  - reflexivity.
Qed.

Lemma failing_source_responds schemas req s schema :
  NoDup (map fst schemas) ->
  In (s, schema) schemas ->
  fails_schema req s schema ->
  snd (validateAll schemas req)
  = [Respond 400
       (JObj [("success", JBool false);
              ("message", JStr "Validation failed");
              ("errors", JArr (flat_map (violations req) schemas))])].
Proof.
  intros Hnd Hin Hfail. rewrite validateAll_unfold. cbn [snd].
  rewrite (loop_errors schemas req [] req Hnd (agree_on_refl _ _)).
  cbn [app].
  pose proof (failing_source_reported schemas req s schema Hin Hfail) as Hex.
  destruct (flat_map (violations req) schemas); [inversion Hex | reflexivity].
Qed.

End ValidateAll.

(** C2. When two sources of the mapping given to [validateAll] both fail
    their schemas on the same request, the middleware's only effect is one
    response with status 400 and body
    [{success: false, message: "Validation failed", errors}]; [errors] is
    the concatenation, in the order of the mapping, of the tagged
    violations of each source, and it holds an entry tagged with each of
    the two failing sources. *)
Theorem validateAll_reports_every_failing_source
    (schemas : list (ValidationSource * ZodSchema)) (req : Req.t)
    (s1 s2 : ValidationSource) (schema1 schema2 : ZodSchema) :
  NoDup (map fst schemas) ->
  In (s1, schema1) schemas -> fails_schema req s1 schema1 ->
  In (s2, schema2) schemas -> fails_schema req s2 schema2 ->
  exists errors,
    snd (validateAll schemas req)
    = [Respond 400
         (JObj [("success", JBool false);
                ("message", JStr "Validation failed");
                ("errors", JArr errors)])]
    /\ errors = flat_map (violations req) schemas
    /\ Exists (fun v => field "source" v = Some (JStr (Source.name s1))) errors
    /\ Exists (fun v => field "source" v = Some (JStr (Source.name s2))) errors.
Proof.
  intros Hnd Hin1 Hfail1 Hin2 Hfail2.
  exists (flat_map (violations req) schemas). repeat split.
  - now apply (failing_source_responds schemas req s1 schema1).
  - now apply (failing_source_reported schemas req s1 schema1).
  - now apply (failing_source_reported schemas req s2 schema2).
Qed.

Lemma validateAll_reports_every_failing_source_witness :
  exists errors,
    snd (validateAll Sample.paramsAndBody Sample.request)
    = [Respond 400
         (JObj [("success", JBool false);
                ("message", JStr "Validation failed");
                ("errors", JArr errors)])]
    /\ Exists (fun v => field "source" v = Some (JStr "params")) errors
    /\ Exists (fun v => field "source" v = Some (JStr "body")) errors.
Proof.
  destruct (validateAll_reports_every_failing_source
              Sample.paramsAndBody Sample.request
              Source.params Source.body
              (Sample.requiredString "id") (Sample.requiredString "email"))
    as (errors & Hrun & _ & Hp & Hb).
  - repeat constructor; simpl; intuition discriminate.
  - simpl; auto.
  - do 2 eexists. split; [reflexivity | split; [reflexivity | discriminate]].
  - simpl; auto.
  - do 2 eexists. split; [reflexivity | split; [reflexivity | discriminate]].
  - exists errors. repeat split; assumption.
Defined.

(** C4. When the parse of a source of the mapping throws something that
    is not a [ZodError], that iteration of [validateAll] changes neither
    the request nor the violation list, the remaining sources are
    processed as if the pair were not in the mapping, and no error is
    handed to [next]. *)
Theorem validateAll_absorbs_other_exceptions
    (before after : list (ValidationSource * ZodSchema))
    (source : ValidationSource) (schema : ZodSchema) (req : Req.t)
    (error : Err.t) :
  schema (Req.get (fst (validateAll_loop before (req, []))) source)
  = Throw error ->
  (forall issues, Err.class error <> ZodErrorInstance issues) ->
  validateAll_step (validateAll_loop before (req, [])) (source, schema)
  = validateAll_loop before (req, [])
  /\ validateAll (before ++ (source, schema) :: after) req
     = validateAll (before ++ after) req
  /\ (forall e,
         ~ In (Next (Some e))
              (snd (validateAll (before ++ (source, schema) :: after) req))).
Proof.
  intros Hparse Hclass.
  assert (Hstep : validateAll_step (validateAll_loop before (req, []))
                    (source, schema)
                  = validateAll_loop before (req, [])).
  { destruct (validateAll_loop before (req, [])) as [req1 errors1].
    cbn [fst] in Hparse. rewrite step_unfold, Hparse.
    unfold validateAll_catch.
    destruct (Err.class error) as [issues | |] eqn:E; try reflexivity.
    now destruct (Hclass issues). }
  assert (Hloop : validateAll_loop (before ++ (source, schema) :: after) (req, [])
                  = validateAll_loop (before ++ after) (req, [])).
  { unfold validateAll_loop in *. rewrite !fold_left_app. cbn [fold_left].
    now rewrite Hstep. }
  repeat split.
  - exact Hstep.
  - unfold validateAll. now rewrite Hloop.
  - intros e. rewrite validateAll_unfold. cbn [snd].
    destruct (snd (validateAll_loop _ _)); intros [H | []]; discriminate H.
Qed.

Lemma validateAll_absorbs_other_exceptions_witness :
  validateAll ([(Source.params, Sample.requiredString "id")]
               ++ (Source.query, Sample.throwing)
               :: [(Source.body, Sample.requiredString "email")])
              Sample.request
  = validateAll Sample.paramsAndBody Sample.request.
Proof.
  apply (validateAll_absorbs_other_exceptions
           [(Source.params, Sample.requiredString "id")]
           [(Source.body, Sample.requiredString "email")]
           Source.query Sample.throwing Sample.request
           (Error_new Sample.production "boom")).
  - reflexivity.
  - intros issues; discriminate.
Defined.

(** C9. In the 400 response of [validateAll] every element of [errors]
    has exactly the fields [source], [field] and [message], and no [code];
    the entries single-source [validate] builds have [field], [message]
    and [code]. *)
Theorem validateAll_violations_carry_no_code
    (schemas : list (ValidationSource * ZodSchema)) (req : Req.t)
    (status : Z) (payload : JValue) :
  snd (validateAll schemas req) = [Respond status payload] ->
  (exists errors,
      field "errors" payload = Some (JArr errors)
      /\ Forall (fun v => keys v = ["source"; "field"; "message"]
                          /\ field "code" v = None) errors)
  /\ (forall issue,
         keys (formattedError issue) = ["field"; "message"; "code"]
         /\ field "code" (formattedError issue)
            = Some (JStr (ZodIssue.code issue))).
Proof.
  intros Hrun. split; [| intros issue; split; reflexivity].
  rewrite validateAll_unfold in Hrun. cbn [snd] in Hrun.
  pose proof (loop_errors_shape schemas (req, []) (Forall_nil _)) as Hshape.
  destruct (snd (validateAll_loop schemas (req, []))) as [|x errors];
    [discriminate Hrun |].
  injection Hrun as _ <-. exists (x :: errors). split; [reflexivity |].
  eapply Forall_impl; [| exact Hshape].
  intros v (s & i & ->). split; reflexivity.
Qed.

Lemma validateAll_violations_carry_no_code_witness :
  exists errors,
    errors <> []
    /\ Forall (fun v => keys v = ["source"; "field"; "message"]
                        /\ field "code" v = None) errors.
Proof.
  destruct (validateAll_violations_carry_no_code
              Sample.paramsAndBody Sample.request 400
              (JObj [("success", JBool false);
                     ("message", JStr "Validation failed");
                     ("errors",
                      JArr [sourceError Source.params
                              (ZodIssue.mk [Key "id"] "Expected string"
                                 "invalid_type");
                            sourceError Source.body
                              (ZodIssue.mk [Key "email"] "Required"
                                 "invalid_type")])])
              eq_refl)
    as [(errors & Hfield & Hall) _].
  exists errors. split; [| exact Hall].
  cbn in Hfield. injection Hfield as <-. discriminate.
Defined.

(** C10 (defect on Express 5). When [validateAll] fails overall (some
    source of the mapping fails its schema), it answers 400.  A source of
    the mapping whose section parsed holds the parsed value in the request
    the middleware leaves behind whenever the section can be assigned:
    the replacement is not undone.  On a request whose [query] has only a
    getter, the assignment to [req.query] throws inside the inner [try],
    the TypeError is dropped by the inner [catch], and [query] is left as
    it was, not parsed. *)
Theorem validateAll_replacements_on_failure
    (schemas : list (ValidationSource * ZodSchema)) (req : Req.t)
    (failing : ValidationSource) (failingSchema : ZodSchema)
    (source : ValidationSource) (schema : ZodSchema) (validated : JValue) :
  NoDup (map fst schemas) ->
  In (failing, failingSchema) schemas ->
  fails_schema req failing failingSchema ->
  In (source, schema) schemas ->
  schema (Req.get req source) = Return validated ->
  (exists payload, snd (validateAll schemas req) = [Respond 400 payload])
  /\ (assignable req source = true ->
      Req.get (fst (validateAll schemas req)) source = validated)
  /\ (assignable req source = false ->
      source = Source.query
      /\ Req.get (fst (validateAll schemas req)) source = Req.get req source).
Proof.
  intros Hnd Hinf Hfail Hin Hparse. split.
  - eexists.
    now apply (failing_source_responds schemas req failing failingSchema).
  - rewrite validateAll_unfold. cbn [fst].
    rewrite (loop_replaces_section schemas req [] req source schema validated
               Hnd (agree_on_refl _ _) Hin Hparse).
    split; intros Ha; rewrite Ha; [reflexivity |].
    split; [| reflexivity].
    unfold assignable in Ha.
    destruct source, (Req.query_getter_only req); try discriminate Ha.
    reflexivity.
Qed.

Lemma validateAll_replacements_on_failure_witness :
  Sample.notifyDefault (Req.get Sample.request5 Source.query)
  = Return (JObj [("notify", JBool false)])
  /\ (exists payload,
         snd (validateAll Sample.queryAndBody Sample.request5)
         = [Respond 400 payload])
  /\ Req.get (fst (validateAll Sample.queryAndBody Sample.request5))
       Source.query
     = JObj []
  /\ Req.get (fst (validateAll Sample.queryAndBody Sample.request))
       Source.query
     = JObj [("notify", JBool false)].
Proof.
  split; [reflexivity |].
  destruct (validateAll_replacements_on_failure
              Sample.queryAndBody Sample.request5
              Source.body (Sample.requiredString "name")
              Source.query Sample.notifyDefault
              (JObj [("notify", JBool false)]))
    as (Hresp & _ & Hkept).
  - repeat constructor; simpl; intuition discriminate.
  - simpl; auto.
  - do 2 eexists. split; [reflexivity | split; [reflexivity | discriminate]].
  - simpl; auto.
  - reflexivity.
  - split; [exact Hresp |]. split.
    + destruct (Hkept eq_refl) as [_ Hq]. rewrite Hq. reflexivity.
    + destruct (validateAll_replacements_on_failure
                  Sample.queryAndBody Sample.request
                  Source.body (Sample.requiredString "name")
                  Source.query Sample.notifyDefault
                  (JObj [("notify", JBool false)]))
        as (_ & Hrepl & _).
      * repeat constructor; simpl; intuition discriminate.
      * simpl; auto.
      * do 2 eexists.
        split; [reflexivity | split; [reflexivity | discriminate]].
      * simpl; auto.
      * reflexivity.
      * exact (Hrepl eq_refl).
Defined.

(** ** The error envelope *)

Section Envelope.

Variables (rt : Runtime) (err : Err.t) (req : Req.t).

(** The body [errorHandler] sends, property by property. *)
Lemma errorResponse_wire :
  jsonify (errorResponse rt err req)
  = JObj ([("success", JBool false);
           ("message", JStr (message (classify err)));
           ("errorCode", JStr (ErrorCode.value (errorCode (classify err))))]
          ++ match Req.requestId req with
             | Some id => [("requestId", JStr id)]
             | None => []
             end
          ++ [("timestamp", JStr (now rt))]
          ++ (if truthy (details (classify err))
              then [("errors", jsonify (details (classify err)))]
              else [])
          ++ (if stack_shown rt err
              then match Err.stack err with
                   | Some s => [("stack", JStr s)]
                   | None => []
                   end
              else []))%list.
Proof.
  unfold errorResponse.
  set (c := classify err). clearbody c.
  assert (Hd : truthy (details c) = true ->
               defined_property ("errors", jsonify (details c)) = true).
  { intros Ht. unfold defined_property. cbn [snd].
    now rewrite jsonify_defined, (truthy_defined _ Ht). }
  destruct (truthy (details c)); [specialize (Hd eq_refl) |];
    destruct (stack_shown rt err);
    destruct (Err.stack err);
    destruct (Req.requestId req);
    cbn [jsonify map app filter optional_string defined_property
         is_undefined snd negb];
    try rewrite Hd; reflexivity.
Qed.

Lemma envelope_fixed_fields :
  field "success" (jsonify (errorResponse rt err req)) = Some (JBool false)
  /\ field "message" (jsonify (errorResponse rt err req))
     = Some (JStr (message (classify err)))
  /\ field "errorCode" (jsonify (errorResponse rt err req))
     = Some (JStr (ErrorCode.value (errorCode (classify err))))
  /\ field "requestId" (jsonify (errorResponse rt err req))
     = option_map JStr (Req.requestId req)
  /\ field "timestamp" (jsonify (errorResponse rt err req))
     = Some (JStr (now rt)).
Proof.
  rewrite errorResponse_wire.
  destruct (Req.requestId req), (truthy (details (classify err))),
    (stack_shown rt err), (Err.stack err); repeat split; reflexivity.
Qed.

Lemma envelope_errors_field :
  field "errors" (jsonify (errorResponse rt err req))
  = if truthy (details (classify err))
    then Some (jsonify (details (classify err)))
    else None.
Proof.
  rewrite errorResponse_wire.
  destruct (Req.requestId req), (truthy (details (classify err))),
    (stack_shown rt err), (Err.stack err); reflexivity.
Qed.

Lemma envelope_stack_field :
  field "stack" (jsonify (errorResponse rt err req))
  = if stack_shown rt err
    then option_map JStr (Err.stack err)
    else None.
Proof.
  rewrite errorResponse_wire.
  destruct (Req.requestId req), (truthy (details (classify err))),
    (stack_shown rt err), (Err.stack err); reflexivity.
Qed.

Lemma errorHandler_effects :
  exists line meta,
    errorHandler rt err req
    = [LogError line meta;
       Respond (statusCode (classify err))
         (jsonify (errorResponse rt err req))].
Proof. do 2 eexists. reflexivity. Qed.

End Envelope.

Section Modes.

Lemma production_not_development rt :
  isProduction (config rt) = true -> isDevelopment (config rt) = false.
Proof.
  unfold config, env_is; cbn [isProduction isDevelopment].
  destruct (NODE_ENV rt) as [s|]; [| discriminate].
  intros H. apply String.eqb_eq in H. now subst s.
Qed.

Lemma development_not_production rt :
  isDevelopment (config rt) = true -> isProduction (config rt) = false.
Proof.
  intros H. destruct (isProduction (config rt)) eqn:E; [| reflexivity].
  apply production_not_development in E. congruence.
Qed.

Lemma stack_shown_development rt err :
  stack_shown rt err = true -> isDevelopment (config rt) = true.
Proof. unfold stack_shown. intros H. now apply andb_prop in H. Qed.

(** The last branch of the chain is the one an unrecognised error takes. *)
Lemma classify_unrecognized err :
  unrecognized err ->
  classify err
  = mkClassification 500 (str_or (Err.message err) "Something went wrong")
      ErrorCode.INTERNAL_SERVER_ERROR JUndefined.
Proof.
  intros (Hc & Hn1 & Hn2 & Hn3 & Hn4 & Hc1 & Hc2).
  unfold classify. rewrite Hc.
  apply String.eqb_neq in Hn1, Hn2, Hn3, Hn4.
  rewrite Hn1, Hn2, Hn3, Hn4. cbn [orb].
  replace (strict_eq_number (Err.code err) 11000) with false.
  2:{ destruct (Err.code err) as [| | |n| | |]; try reflexivity.
      cbn [strict_eq_number]. symmetry. apply Z.eqb_neq. congruence. }
  replace (strict_eq_string (Err.code err) "ECONNREFUSED") with false.
  2:{ destruct (Err.code err) as [| | | |s| |]; try reflexivity.
      cbn [strict_eq_string]. symmetry. apply String.eqb_neq. congruence. }
  reflexivity.
Qed.

End Modes.

(** C6 (as stated, refuted). The error
    [AppError.badRequest("Invalid quantity", 0)] is classified with the
    details [0], yet the response has no [errors] field: the field is set
    under [if (details)], which the number [0] does not pass. *)
Lemma errorHandler_falsy_details_counterexample :
  details (classify Sample.invalidQuantity) = JNum 0
  /\ (exists line meta payload,
         errorHandler Sample.production Sample.invalidQuantity Sample.request
         = [LogError line meta; Respond 400 payload]
         /\ field "errors" payload = None)
  /\ ~ errors_iff_details_produced.
Proof.
  split; [reflexivity |]. split.
  - do 3 eexists. split; reflexivity.
  - intros H.
    destruct (H Sample.production Sample.invalidQuantity Sample.request 400
                (jsonify (errorResponse Sample.production
                            Sample.invalidQuantity Sample.request))
                (or_intror (or_introl eq_refl))) as [_ Hback].
    apply Hback; [discriminate | reflexivity].
Qed.

(** C6 (amended). Every response of the centralised error handler is one
    JSON body sent with the classified status, with [success: false], the
    classified [message] and [errorCode], the request's [requestId] when
    one was assigned (no such field otherwise) and the [timestamp] taken
    from [new Date().toISOString()]; the [errors] field is present if and
    only if the classified details are truthy, and then holds them; a
    [stack] field occurs only in development mode, which is not production
    mode. *)
Theorem errorHandler_envelope (rt : Runtime) (err : Err.t) (req : Req.t) :
  exists line meta payload,
    errorHandler rt err req
    = [LogError line meta; Respond (statusCode (classify err)) payload]
    /\ field "success" payload = Some (JBool false)
    /\ field "message" payload = Some (JStr (message (classify err)))
    /\ field "errorCode" payload
       = Some (JStr (ErrorCode.value (errorCode (classify err))))
    /\ field "requestId" payload = option_map JStr (Req.requestId req)
    /\ field "timestamp" payload = Some (JStr (now rt))
    /\ (field "errors" payload <> None
        <-> truthy (details (classify err)) = true)
    /\ (truthy (details (classify err)) = true ->
        field "errors" payload = Some (jsonify (details (classify err))))
    /\ (field "stack" payload <> None ->
        isDevelopment (config rt) = true /\ isProduction (config rt) = false).
Proof.
  destruct (errorHandler_effects rt err req) as (line & meta & Hrun).
  exists line, meta, (jsonify (errorResponse rt err req)).
  destruct (envelope_fixed_fields rt err req) as (Hs & Hm & Hc & Hr & Ht).
  repeat match goal with |- _ /\ _ => split end; try assumption.
  - rewrite envelope_errors_field.
    destruct (truthy (details (classify err))); split; congruence.
  - intros Htruthy. rewrite envelope_errors_field. now rewrite Htruthy.
  - rewrite envelope_stack_field.
    destruct (stack_shown rt err) eqn:E; [| congruence].
    intros _. apply stack_shown_development in E.
    split; [exact E | now apply development_not_production].
Qed.

(** C1 (as stated, refuted). [new Error("boom")] matches no recognised
    shape.  In production mode the response carries the message "boom",
    not "Something went wrong"; in test mode, which is not production
    mode, the response has no [stack] field although the error has a
    stack. *)
Lemma unrecognized_error_modes_counterexample :
  unrecognized Sample.boom
  /\ isProduction (config Sample.production) = true
  /\ (exists line meta payload,
         errorHandler Sample.production Sample.boom Sample.request
         = [LogError line meta; Respond 500 payload]
         /\ field "message" payload = Some (JStr "boom"))
  /\ ~ production_suppresses_message
  /\ isProduction (config Sample.test) = false
  /\ Err.stack Sample.boom <> None
  /\ (exists line meta payload,
         errorHandler Sample.test Sample.boom Sample.request
         = [LogError line meta; Respond 500 payload]
         /\ field "stack" payload = None)
  /\ ~ non_production_includes_stack.
Proof.
  assert (Hun : unrecognized Sample.boom).
  { repeat split; discriminate. }
  repeat match goal with |- _ /\ _ => split end;
    try reflexivity; try assumption; try discriminate.
  - do 3 eexists. split; reflexivity.
  - intros H.
    specialize (H Sample.production Sample.boom Sample.request 500
                  (jsonify (errorResponse Sample.production Sample.boom
                              Sample.request))
                  Hun eq_refl (or_intror (or_introl eq_refl))).
    discriminate H.
  - do 3 eexists. split; reflexivity.
  - intros H.
    specialize (H Sample.test Sample.boom Sample.request 500
                  (jsonify (errorResponse Sample.test Sample.boom
                              Sample.request))
                  _ Hun eq_refl eq_refl (or_intror (or_introl eq_refl))).
    discriminate H.
Qed.

(** C1 (amended). An error object that matches none of the recognised
    shapes is classified, in every mode, with status 500, error code
    [INTERNAL_SERVER_ERROR] and no details; its message is the error's own
    message when that is not empty and "Something went wrong" otherwise.
    The response has no [stack] field in production mode, nor in any other
    mode that is not development mode; in development mode the [stack]
    field holds the error's stack when it has a non-empty one. *)
Theorem unrecognized_error_fallback (rt : Runtime) (err : Err.t) (req : Req.t) :
  unrecognized err ->
  classify err
  = mkClassification 500
      (if (Err.message err =? "")%string
       then "Something went wrong"
       else Err.message err)
      ErrorCode.INTERNAL_SERVER_ERROR JUndefined
  /\ exists line meta payload,
      errorHandler rt err req = [LogError line meta; Respond 500 payload]
      /\ field "message" payload
         = Some (JStr (if (Err.message err =? "")%string
                       then "Something went wrong"
                       else Err.message err))
      /\ field "errorCode" payload = Some (JStr "INTERNAL_SERVER_ERROR")
      /\ field "errors" payload = None
      /\ (isProduction (config rt) = true -> field "stack" payload = None)
      /\ (isDevelopment (config rt) = false -> field "stack" payload = None)
      /\ (isDevelopment (config rt) = true ->
          forall stack,
            Err.stack err = Some stack -> stack <> "" ->
            field "stack" payload = Some (JStr stack)).
Proof.
  intros Hun. pose proof (classify_unrecognized err Hun) as Hc.
  unfold str_or in Hc. split; [exact Hc |].
  destruct (errorHandler_effects rt err req) as (line & meta & Hrun).
  destruct (envelope_fixed_fields rt err req) as (_ & Hm & Hcode & _ & _).
  pose proof (envelope_errors_field rt err req) as He.
  pose proof (envelope_stack_field rt err req) as Hs.
  rewrite Hc in Hrun, Hm, Hcode, He. cbn [statusCode message errorCode details] in *.
  exists line, meta, (jsonify (errorResponse rt err req)).
  assert (Hnodev : isDevelopment (config rt) = false ->
                   field "stack" (jsonify (errorResponse rt err req)) = None).
  { intros Hd. rewrite Hs. unfold stack_shown. now rewrite Hd. }
  repeat match goal with |- _ /\ _ => split end; try assumption.
  - intros Hp. now apply Hnodev, production_not_development.
  - intros Hd stack Hst Hne. rewrite Hs. unfold stack_shown.
    rewrite Hd, Hst. apply String.eqb_neq in Hne. now rewrite Hne.
Qed.

Lemma unrecognized_error_fallback_witness :
  classify Sample.boom
  = mkClassification 500 "boom" ErrorCode.INTERNAL_SERVER_ERROR JUndefined
  /\ exists line meta payload,
      errorHandler Sample.development Sample.boom Sample.request
      = [LogError line meta; Respond 500 payload]
      /\ field "message" payload = Some (JStr "boom")
      /\ field "stack" payload
         = Some (JStr "Error: boom at handler (app.js:10:9)").
Proof.
  destruct (unrecognized_error_fallback Sample.development Sample.boom
              Sample.request)
    as (Hc & line & meta & payload & Hrun & Hm & _ & _ & _ & _ & Hdev).
  - repeat split; discriminate.
  - split; [exact Hc |]. exists line, meta, payload.
    split; [exact Hrun | split; [exact Hm |]].
    apply Hdev; [reflexivity | reflexivity | discriminate].
Defined.

(** C7. For a request no route matched, [notFoundHandler] builds an
    [AppError] with status 404, error code [NOT_FOUND] and the message
    "Route not found: " followed by the request's original URL, and hands
    it to [next]; the error handler registered after it classifies that
    error as 404 / [NOT_FOUND] with the same message, so the client gets
    the envelope of [errorHandler]: [success: false], that message,
    [errorCode: "NOT_FOUND"], the request id if any, the timestamp, and no
    [errors] field. *)
Theorem notFoundHandler_uniform_envelope (rt : Runtime) (req : Req.t) :
  exists error,
    notFoundHandler rt req = [Next (Some error)]
    /\ Err.class error = AppErrorInstance 404 ErrorCode.NOT_FOUND JUndefined
    /\ Err.message error = "Route not found: " ++ Req.originalUrl req
    /\ classify error
       = mkClassification 404 ("Route not found: " ++ Req.originalUrl req)
           ErrorCode.NOT_FOUND JUndefined
    /\ unmatched_request rt req = errorHandler rt error req
    /\ exists line meta payload,
        errorHandler rt error req = [LogError line meta; Respond 404 payload]
        /\ field "success" payload = Some (JBool false)
        /\ field "message" payload
           = Some (JStr ("Route not found: " ++ Req.originalUrl req))
        /\ field "errorCode" payload = Some (JStr "NOT_FOUND")
        /\ field "requestId" payload = option_map JStr (Req.requestId req)
        /\ field "timestamp" payload = Some (JStr (now rt))
        /\ field "errors" payload = None.
Proof.
  set (m := "Route not found: " ++ Req.originalUrl req).
  exists (AppError.notFound rt (Some m) JUndefined).
  assert (Hc : classify (AppError.notFound rt (Some m) JUndefined)
               = mkClassification 404 m ErrorCode.NOT_FOUND JUndefined)
    by reflexivity.
  repeat match goal with |- _ /\ _ => split end; try reflexivity.
  destruct (errorHandler_effects rt (AppError.notFound rt (Some m) JUndefined)
              req) as (line & meta & Hrun).
  destruct (envelope_fixed_fields rt
                (AppError.notFound rt (Some m) JUndefined) req)
    as (Hs & Hm & Hcode & Hr & Ht).
  pose proof (envelope_errors_field rt
                (AppError.notFound rt (Some m) JUndefined) req) as He.
  rewrite Hc in Hrun, Hm, Hcode, He.
  exists line, meta,
    (jsonify (errorResponse rt (AppError.notFound rt (Some m) JUndefined)
                req)).
  repeat match goal with |- _ /\ _ => split end; assumption.
Qed.

(* ===================================================================== *)
(** * Further properties *)
(* ===================================================================== *)

(** ** Single-source validation, the other paths *)

Section SectionUpdates.

Lemma set_section_context (req : Req.t) (s : ValidationSource) (v : JValue) :
  same_context (set_section req s v) req.
Proof. destruct s; repeat split. Qed.

Lemma same_context_refl (req : Req.t) : same_context req req.
Proof. repeat split. Qed.

Lemma same_context_trans (r1 r2 r3 : Req.t) :
  same_context r1 r2 -> same_context r2 r3 -> same_context r1 r3.
Proof.
  intros (A1 & A2 & A3 & A4 & A5) (B1 & B2 & B3 & B4 & B5).
  repeat split; congruence.
Qed.

Lemma set_section_twice (req : Req.t) (s : ValidationSource) (v w : JValue) :
  set_section (set_section req s v) s w = set_section req s w.
Proof. destruct s; reflexivity. Qed.

End SectionUpdates.

(** X1. When the section parses and can be assigned, [validate] stores
    the parsed value in that section and in no other place of the request,
    sends nothing, and calls [next()] once, without an error.  When the
    section is a [query] that has only a getter, the assignment throws:
    [validate] leaves the request as it was and hands the TypeError to
    [next]. *)
Theorem validate_success_replaces_section (schema : ZodSchema)
    (source : option ValidationSource) (req : Req.t) (validated : JValue) :
  schema (Req.get req (source_or_default source)) = Return validated ->
  (assignable req (source_or_default source) = true ->
   snd (validate schema source req) = [Next None]
   /\ Req.get (fst (validate schema source req)) (source_or_default source)
      = validated
   /\ (forall s, s <> source_or_default source ->
                 Req.get (fst (validate schema source req)) s = Req.get req s)
   /\ same_context (fst (validate schema source req)) req)
  /\ (assignable req (source_or_default source) = false ->
      source_or_default source = Source.query
      /\ exists trace,
          Req.query_getter_only req = Some trace
          /\ validate schema source req
             = (req, [Next (Some (TypeError_getter_only trace))])).
Proof.
  intros Hparse. unfold validate. rewrite Hparse.
  destruct (assign_section_unfold req (source_or_default source) validated)
    as [[Ha ->] | (Ha & Hq & trace & Htrace & ->)]; rewrite Ha.
  - split; [intros _ | discriminate]. cbn [fst snd].
    split; [reflexivity |]. split; [apply get_set_same |]. split.
    + intros s Hs. apply get_set_other. congruence.
    + apply set_section_context.
  - split; [discriminate | intros _]. split; [exact Hq |].
    exists trace. split; [exact Htrace | reflexivity].
Qed.

Lemma validate_success_replaces_section_witness :
  (snd (validate Sample.notifyDefault (Some Source.query) Sample.request)
   = [Next None]
   /\ Req.get (fst (validate Sample.notifyDefault (Some Source.query)
                      Sample.request)) Source.query
      = JObj [("notify", JBool false)])
  /\ exists trace,
      validate Sample.notifyDefault (Some Source.query) Sample.request5
      = (Sample.request5, [Next (Some (TypeError_getter_only trace))]).
Proof.
  destruct (validate_success_replaces_section Sample.notifyDefault
              (Some Source.query) Sample.request
              (JObj [("notify", JBool false)]) eq_refl)
    as [Hok _].
  destruct (validate_success_replaces_section Sample.notifyDefault
              (Some Source.query) Sample.request5
              (JObj [("notify", JBool false)]) eq_refl)
    as [_ Hthrows].
  destruct (Hok eq_refl) as (Hnext & Hget & _).
  destruct (Hthrows eq_refl) as (_ & trace & _ & Hrun).
  split; [split; assumption | now exists trace].
Defined.

(** X2. When the parse throws something that is not a [ZodError],
    [validate] hands that error to [next] and leaves the request alone,
    whereas [validateAll], given the same schema for the same source,
    swallows it: it calls [next()] without an error. *)
Theorem validate_forwards_what_validateAll_swallows (schema : ZodSchema)
    (source : ValidationSource) (req : Req.t) (error : Err.t) :
  schema (Req.get req source) = Throw error ->
  (forall issues, Err.class error <> ZodErrorInstance issues) ->
  validate schema (Some source) req = (req, [Next (Some error)])
  /\ validateAll [(source, schema)] req = (req, [Next None]).
Proof.
  intros Hparse Hclass. split.
  - unfold validate, validate_catch. cbn [source_or_default].
    rewrite Hparse.
    destruct (Err.class error) as [issues | |] eqn:E; try reflexivity.
    now destruct (Hclass issues).
  - unfold validateAll, validateAll_loop. cbn [fold_left].
    rewrite step_unfold, Hparse. unfold validateAll_catch.
    destruct (Err.class error) as [issues | |] eqn:E; try reflexivity.
    now destruct (Hclass issues).
Qed.

Lemma validate_forwards_what_validateAll_swallows_witness :
  validate Sample.throwing (Some Source.body) Sample.request
  = (Sample.request, [Next (Some Sample.boom)])
  /\ validateAll [(Source.body, Sample.throwing)] Sample.request
     = (Sample.request, [Next None]).
Proof.
  apply (validate_forwards_what_validateAll_swallows Sample.throwing
           Source.body Sample.request Sample.boom).
  - reflexivity.
  - intros issues; discriminate.
Defined.

(** X3. If the section can be assigned and the schema returns a parsed
    value unchanged when it is parsed again, running [validate] a second
    time on the request the first run left behind changes nothing and
    calls [next()] again. *)
Theorem validate_twice (schema : ZodSchema) (source : option ValidationSource)
    (req : Req.t) (validated : JValue) :
  assignable req (source_or_default source) = true ->
  schema (Req.get req (source_or_default source)) = Return validated ->
  schema validated = Return validated ->
  validate schema source (fst (validate schema source req))
  = (fst (validate schema source req), [Next None]).
Proof.
  intros Ha Hparse Hagain.
  assert (Hfirst : validate schema source req
                   = (set_section req (source_or_default source) validated,
                      [Next None])).
  { unfold validate. rewrite Hparse.
    destruct (assign_section_unfold req (source_or_default source) validated)
      as [[_ ->] | (Hno & _)]; [reflexivity | congruence]. }
  rewrite Hfirst. cbn [fst]. unfold validate.
  rewrite get_set_same, Hagain.
  destruct (assign_section_unfold
              (set_section req (source_or_default source) validated)
              (source_or_default source) validated)
    as [[_ ->] | (Hno & _)].
  - now rewrite set_section_twice.
  - unfold assignable in Ha, Hno.
    rewrite set_section_getter_only in Hno. congruence.
Qed.

Lemma validate_twice_witness :
  validate Sample.notifyDefault (Some Source.query)
    (fst (validate Sample.notifyDefault (Some Source.query) Sample.request))
  = (fst (validate Sample.notifyDefault (Some Source.query) Sample.request),
     [Next None]).
Proof.
  apply (validate_twice Sample.notifyDefault (Some Source.query)
           Sample.request (JObj [("notify", JBool false)]));
    reflexivity.
Defined.

(** ** Multi-source validation, the other paths *)

Section ValidateAllMore.

Lemma step_context st entry :
  same_context (fst (validateAll_step st entry)) (fst st).
Proof.
  destruct st as [req errors], entry as [s schema]. rewrite step_unfold.
  cbn [fst]. destruct (schema (Req.get req s)) as [v | e].
  - cbn [fst]. destruct (assignable req s);
      [apply set_section_context | apply same_context_refl].
  - unfold validateAll_catch.
    destruct (Err.class e); apply same_context_refl.
Qed.

Lemma loop_context schemas : forall st,
  same_context (fst (validateAll_loop schemas st)) (fst st).
Proof.
  induction schemas as [|entry rest IH]; intros st;
    [apply same_context_refl |].
  unfold validateAll_loop in *. cbn [fold_left].
  eapply same_context_trans; [apply IH | apply step_context].
Qed.

Lemma violations_none_when_parsed req schemas :
  (forall s schema, In (s, schema) schemas ->
                    exists v, schema (Req.get req s) = Return v) ->
  flat_map (violations req) schemas = [].
Proof.
  induction schemas as [|[s schema] rest IH]; intros H; [reflexivity |].
  cbn [flat_map]. rewrite IH by (intros; apply H; now right).
  destruct (H s schema (or_introl eq_refl)) as [v Hv].
  unfold violations. cbn [fst snd]. now rewrite Hv.
Qed.

Lemma violations_tagged req s schema :
  filter (tagged s) (violations req (s, schema)) = violations req (s, schema).
Proof.
  unfold violations. cbn [fst snd].
  destruct (schema (Req.get req s)) as [v | e]; [reflexivity |].
  destruct (Err.class e) as [issues | |]; try reflexivity.
  induction issues as [|i issues IH]; [reflexivity |].
  cbn [map filter]. unfold tagged at 1. cbn [field lookup String.eqb].
  cbn. rewrite String.eqb_refl. now rewrite IH.
Qed.

Lemma violations_tagged_other req s s' schema :
  s' <> s -> filter (tagged s) (violations req (s', schema)) = [].
Proof.
  intros Hne. unfold violations. cbn [fst snd].
  destruct (schema (Req.get req s')) as [v | e]; [reflexivity |].
  destruct (Err.class e) as [issues | |]; try reflexivity.
  induction issues as [|i issues IH]; [reflexivity |].
  cbn [map filter]. rewrite IH.
  destruct s, s'; try congruence; reflexivity.
Qed.

Lemma violations_of_source req schemas : forall s schema,
  NoDup (map fst schemas) ->
  In (s, schema) schemas ->
  filter (tagged s) (flat_map (violations req) schemas)
  = violations req (s, schema).
Proof.
  induction schemas as [|[s' schema'] rest IH]; intros s schema Hnd Hin;
    [contradiction |].
  cbn [map] in Hnd. inversion Hnd as [|? ? Hnotin Hnd']; subst.
  cbn [flat_map]. rewrite filter_app. destruct Hin as [Heq | Hin].
  - injection Heq as -> ->. rewrite violations_tagged.
    assert (Hrest : filter (tagged s) (flat_map (violations req) rest) = []).
    { clear IH Hnd Hnd'. induction rest as [|[s2 schema2] rest IH];
        [reflexivity |].
      cbn [flat_map]. rewrite filter_app.
      rewrite violations_tagged_other.
      - apply IH. intros Hin. apply Hnotin. now right.
      - intros ->. apply Hnotin. now left. }
    rewrite Hrest. apply app_nil_r.
  - rewrite violations_tagged_other.
    + now apply IH.
    + intros ->. apply Hnotin. apply in_map_iff. now exists (s, schema).
Qed.

End ValidateAllMore.

(** X4. When every source of the mapping parses, [validateAll] sends
    nothing and calls [next()] once; every named section that can be
    assigned holds its parsed value, and a [query] that has only a getter
    keeps its old value. *)
Theorem validateAll_success (schemas : list (ValidationSource * ZodSchema))
    (req : Req.t) :
  NoDup (map fst schemas) ->
  (forall s schema, In (s, schema) schemas ->
                    exists v, schema (Req.get req s) = Return v) ->
  snd (validateAll schemas req) = [Next None]
  /\ (forall s schema v,
         In (s, schema) schemas ->
         schema (Req.get req s) = Return v ->
         Req.get (fst (validateAll schemas req)) s
         = if assignable req s then v else Req.get req s).
Proof.
  intros Hnd Hall. rewrite validateAll_unfold. cbn [fst snd]. split.
  - rewrite (loop_errors schemas req [] req Hnd (agree_on_refl _ _)).
    now rewrite (violations_none_when_parsed req schemas Hall).
  - intros s schema v Hin Hparse.
    now apply (loop_replaces_section schemas req [] req s schema v
                 Hnd (agree_on_refl _ _)).
Qed.

Lemma validateAll_success_witness :
  snd (validateAll [(Source.query, Sample.notifyDefault)] Sample.request)
  = [Next None]
  /\ Req.get (fst (validateAll [(Source.query, Sample.notifyDefault)]
                     Sample.request)) Source.query
     = JObj [("notify", JBool false)]
  /\ Req.get (fst (validateAll [(Source.query, Sample.notifyDefault)]
                     Sample.request5)) Source.query
     = JObj [].
Proof.
  destruct (validateAll_success [(Source.query, Sample.notifyDefault)]
              Sample.request) as [Hnext Hget].
  - repeat constructor; simpl; intuition discriminate.
  - intros s schema [Heq | []]. injection Heq as <- <-.
    eexists. reflexivity.
  - destruct (validateAll_success [(Source.query, Sample.notifyDefault)]
                Sample.request5) as [_ Hget5].
    + repeat constructor; simpl; intuition discriminate.
    + intros s schema [Heq | []]. injection Heq as <- <-.
      eexists. reflexivity.
    + split; [exact Hnext |]. split.
      * apply (Hget Source.query Sample.notifyDefault);
          [now left | reflexivity].
      * now rewrite (Hget5 Source.query Sample.notifyDefault
                       (JObj [("notify", JBool false)])
                       (or_introl eq_refl) eq_refl).
Defined.

(** X5. Whatever the outcome, [validateAll] changes nothing of the
    request but the sections its mapping names: a section without a schema
    keeps its value, and so do [requestId], [originalUrl], [path],
    [method] and [ip]. *)
Theorem validateAll_frame (schemas : list (ValidationSource * ZodSchema))
    (req : Req.t) (s : ValidationSource) :
  ~ In s (map fst schemas) ->
  Req.get (fst (validateAll schemas req)) s = Req.get req s
  /\ same_context (fst (validateAll schemas req)) req.
Proof.
  intros Hnotin. rewrite validateAll_unfold. cbn [fst]. split.
  - now rewrite loop_other_section.
  - apply (loop_context schemas (req, [])).
Qed.

Lemma validateAll_frame_witness :
  Req.get (fst (validateAll Sample.queryAndBody Sample.request)) Source.params
  = JObj [("id", JNum 7)]
  /\ Req.requestId (fst (validateAll Sample.queryAndBody Sample.request))
     = Some "req-1".
Proof.
  destruct (validateAll_frame Sample.queryAndBody Sample.request Source.params)
    as (Hget & Hid & _).
  - simpl. intuition discriminate.
  - split; [exact Hget | exact Hid].
Defined.

(** X6. In the 400 response of [validateAll], the entries tagged with a
    failing source are exactly the issues of that source's [ZodError], one
    entry per issue and in the order of the issues. *)
Theorem validateAll_entries_of_source
    (schemas : list (ValidationSource * ZodSchema)) (req : Req.t)
    (source : ValidationSource) (schema : ZodSchema) (error : Err.t)
    (issues : list ZodIssue.t) :
  NoDup (map fst schemas) ->
  In (source, schema) schemas ->
  schema (Req.get req source) = Throw error ->
  Err.class error = ZodErrorInstance issues ->
  issues <> [] ->
  exists errors,
    snd (validateAll schemas req)
    = [Respond 400
         (JObj [("success", JBool false);
                ("message", JStr "Validation failed");
                ("errors", JArr errors)])]
    /\ filter (tagged source) errors = map (sourceError source) issues.
Proof.
  intros Hnd Hin Hparse Hclass Hne.
  exists (flat_map (violations req) schemas). split.
  - apply (failing_source_responds schemas req source schema Hnd Hin).
    now exists error, issues.
  - rewrite (violations_of_source req schemas source schema Hnd Hin).
    unfold violations. cbn [fst snd]. now rewrite Hparse, Hclass.
Qed.

Lemma validateAll_entries_of_source_witness :
  exists errors,
    snd (validateAll Sample.paramsAndBody Sample.request)
    = [Respond 400
         (JObj [("success", JBool false);
                ("message", JStr "Validation failed");
                ("errors", JArr errors)])]
    /\ filter (tagged Source.body) errors
       = [sourceError Source.body
            (ZodIssue.mk [Key "email"] "Required" "invalid_type")].
Proof.
  apply (validateAll_entries_of_source Sample.paramsAndBody Sample.request
           Source.body (Sample.requiredString "email")
           (ZodError_new Sample.production
              [ZodIssue.mk [Key "email"] "Required" "invalid_type"]
              "Required")
           [ZodIssue.mk [Key "email"] "Required" "invalid_type"]).
  - repeat constructor; simpl; intuition discriminate.
  - simpl; auto.
  - reflexivity.
  - reflexivity.
  - discriminate.
Defined.

(** X7. A [ZodError] that carries no issue is a failure for [validate],
    which answers 400 with an empty [errors] list, but not for
    [validateAll]: given the same schema for the same source it sends
    nothing, calls [next()], and leaves the section as it was. *)
Theorem empty_ZodError_divides_the_validators (schema : ZodSchema)
    (source : ValidationSource) (req : Req.t) (error : Err.t) :
  schema (Req.get req source) = Throw error ->
  Err.class error = ZodErrorInstance [] ->
  validate schema (Some source) req
  = (req,
     [Respond 400
        (JObj [("success", JBool false);
               ("message", JStr "Validation failed");
               ("errors", JArr [])])])
  /\ validateAll [(source, schema)] req = (req, [Next None]).
Proof.
  intros Hparse Hclass. split.
  - unfold validate, validate_catch. cbn [source_or_default].
    now rewrite Hparse, Hclass.
  - unfold validateAll, validateAll_loop. cbn [fold_left].
    rewrite step_unfold, Hparse. unfold validateAll_catch.
    now rewrite Hclass.
Qed.

Lemma empty_ZodError_divides_the_validators_witness :
  validateAll
    [(Source.body,
      fun _ => Throw (ZodError_new Sample.production [] "no issues"))]
    Sample.request
  = (Sample.request, [Next None]).
Proof.
  apply (empty_ZodError_divides_the_validators
           (fun _ => Throw (ZodError_new Sample.production [] "no issues"))
           Source.body Sample.request
           (ZodError_new Sample.production [] "no issues"));
    reflexivity.
Defined.

(** ** Validated handlers *)

Section Stack.

Lemma run_stack_end (effects : list Effect) (req : Req.t) :
  flat_map (fun ev => match ev with
                      | Next None => snd (req, [Next None])
                      | other => [other]
                      end) effects
  = effects.
Proof.
  induction effects as [|ev effects IH]; [reflexivity |].
  cbn [flat_map]. rewrite IH.
  destruct ev as [? ? | ? ? | [e|]]; reflexivity.
Qed.

Lemma run_stack_single (m : Middleware) (req : Req.t) :
  run_stack [m] req = m req.
Proof.
  cbn [run_stack]. destruct (m req) as [req1 effects].
  rewrite run_stack_end. cbn [fst].
  now destruct (existsb _ effects).
Qed.

End Stack.

(** X8. If some source of the mapping fails its schema, the middleware
    array built by [createValidatedHandler] does exactly what [validateAll]
    alone does, whatever the handler is: the handler is not run, and the
    only effect is the 400 response. *)
Theorem createValidatedHandler_blocks_on_failure
    (schemas : list (ValidationSource * ZodSchema)) (handler : RouteHandler)
    (req : Req.t) (source : ValidationSource) (schema : ZodSchema) :
  NoDup (map fst schemas) ->
  In (source, schema) schemas ->
  fails_schema req source schema ->
  run_stack (createValidatedHandler schemas handler) req
  = validateAll schemas req
  /\ exists payload,
      snd (run_stack (createValidatedHandler schemas handler) req)
      = [Respond 400 payload].
Proof.
  intros Hnd Hin Hfail.
  pose proof (failing_source_responds schemas req source schema Hnd Hin Hfail)
    as Hresp.
  assert (Hrun : run_stack (createValidatedHandler schemas handler) req
                 = validateAll schemas req).
  { unfold createValidatedHandler. cbn [run_stack].
    destruct (validateAll schemas req) as [req1 effects].
    cbn [snd] in Hresp. subst effects. reflexivity. }
  split; [exact Hrun |]. rewrite Hrun, Hresp. now eexists.
Qed.

Lemma createValidatedHandler_blocks_on_failure_witness :
  exists payload,
    snd (run_stack
           (createValidatedHandler Sample.queryAndBody
              (fun _ => ([Respond 200 (JObj [("success", JBool true)])], None)))
           Sample.request)
    = [Respond 400 payload].
Proof.
  apply (createValidatedHandler_blocks_on_failure Sample.queryAndBody
           (fun _ => ([Respond 200 (JObj [("success", JBool true)])], None))
           Sample.request Source.body (Sample.requiredString "name")).
  - repeat constructor; simpl; intuition discriminate.
  - simpl; auto.
  - do 2 eexists. split; [reflexivity | split; [reflexivity | discriminate]].
Defined.

(** X9. If [validateAll] lets the request pass, the middleware array
    built by [createValidatedHandler] runs the handler on the request
    [validateAll] leaves behind; its effects are the handler's, followed
    by [next(error)] when the handler throws or rejects.  In that request
    a named section that parsed holds its parsed value if it can be
    assigned, and a [query] that has only a getter still holds its raw
    value. *)
Theorem createValidatedHandler_runs_handler_on_parsed_request
    (schemas : list (ValidationSource * ZodSchema)) (handler : RouteHandler)
    (req : Req.t) :
  NoDup (map fst schemas) ->
  snd (validateAll schemas req) = [Next None] ->
  run_stack (createValidatedHandler schemas handler) req
  = (fst (validateAll schemas req),
     (fst (handler (fst (validateAll schemas req)))
      ++ match snd (handler (fst (validateAll schemas req))) with
         | Some error => [Next (Some error)]
         | None => []
         end)%list)
  /\ (forall s schema v,
         In (s, schema) schemas ->
         schema (Req.get req s) = Return v ->
         Req.get (fst (validateAll schemas req)) s
         = if assignable req s then v else Req.get req s).
Proof.
  intros Hnd Hnext. split.
  - unfold createValidatedHandler.
    change (run_stack [validateAll schemas; guarded handler] req)
      with (let '(req1, effects) := validateAll schemas req in
            (if existsb (fun ev => match ev with
                                   | Next None => true
                                   | _ => false
                                   end) effects
             then fst (run_stack [guarded handler] req1)
             else req1,
             flat_map (fun ev => match ev with
                                 | Next None =>
                                     snd (run_stack [guarded handler] req1)
                                 | other => [other]
                                 end) effects)).
    destruct (validateAll schemas req) as [req1 effects].
    cbn [fst snd] in *. subst effects. cbn [existsb flat_map orb].
    rewrite run_stack_single, app_nil_r. unfold guarded.
    destruct (handler req1) as [effects thrown]. reflexivity.
  - intros s schema v Hin Hparse. rewrite validateAll_unfold. cbn [fst].
    now apply (loop_replaces_section schemas req [] req s schema v
                 Hnd (agree_on_refl _ _)).
Qed.

Lemma createValidatedHandler_runs_handler_on_parsed_request_witness :
  snd (run_stack
         (createValidatedHandler [(Source.query, Sample.notifyDefault)]
            (fun r => ([Respond 200 (Req.query r)], Some Sample.boom)))
         Sample.request)
  = [Respond 200 (JObj [("notify", JBool false)]); Next (Some Sample.boom)]
  /\ snd (run_stack
            (createValidatedHandler [(Source.query, Sample.notifyDefault)]
               (fun r => ([Respond 200 (Req.query r)], Some Sample.boom)))
            Sample.request5)
     = [Respond 200 (JObj []); Next (Some Sample.boom)].
Proof.
  destruct (createValidatedHandler_runs_handler_on_parsed_request
              [(Source.query, Sample.notifyDefault)]
              (fun r => ([Respond 200 (Req.query r)], Some Sample.boom))
              Sample.request) as [Hrun _];
    [repeat constructor; simpl; intuition discriminate | reflexivity |].
  destruct (createValidatedHandler_runs_handler_on_parsed_request
              [(Source.query, Sample.notifyDefault)]
              (fun r => ([Respond 200 (Req.query r)], Some Sample.boom))
              Sample.request5) as [Hrun5 _];
    [repeat constructor; simpl; intuition discriminate | reflexivity |].
  rewrite Hrun, Hrun5. split; reflexivity.
Defined.

(** ** The classification table *)

(** X10. For an error that is not an [AppError], the classifier only
    produces the status / error-code pairs of its table (400 with
    [VALIDATION_ERROR] or [BAD_REQUEST], 401, 409, 503, 500), and it
    produces details only for a [ZodError]. *)
Theorem classify_table (err : Err.t) :
  (forall sc ec d, Err.class err <> AppErrorInstance sc ec d) ->
  In (statusCode (classify err), errorCode (classify err))
     [(400, ErrorCode.VALIDATION_ERROR);
      (401, ErrorCode.UNAUTHORIZED);
      (400, ErrorCode.BAD_REQUEST);
      (409, ErrorCode.CONFLICT);
      (503, ErrorCode.SERVICE_UNAVAILABLE);
      (500, ErrorCode.INTERNAL_SERVER_ERROR)]
  /\ (details (classify err) <> JUndefined ->
      exists issues, Err.class err = ZodErrorInstance issues).
Proof.
  intros Hnot. unfold classify.
  destruct (Err.class err) as [issues | sc ec d |] eqn:E.
  - split; [now left | intros _; now exists issues].
  - now destruct (Hnot sc ec d).
  - destruct (Err.name err =? "ValidationError")%string;
      [split; [now left | intros H; now destruct H] |].
    destruct ((Err.name err =? "UnauthorizedError")%string
              || (Err.name err =? "JsonWebTokenError")%string)%bool;
      [split; [right; now left | intros H; now destruct H] |].
    destruct (Err.name err =? "CastError")%string;
      [split; [do 2 right; now left | intros H; now destruct H] |].
    destruct (strict_eq_number (Err.code err) 11000);
      [split; [do 3 right; now left | intros H; now destruct H] |].
    destruct (strict_eq_string (Err.code err) "ECONNREFUSED");
      [split; [do 4 right; now left | intros H; now destruct H] |].
    split; [do 5 right; now left | intros H; now destruct H].
Qed.

Lemma classify_table_witness :
  In (statusCode (classify Sample.boom), errorCode (classify Sample.boom))
     [(400, ErrorCode.VALIDATION_ERROR);
      (401, ErrorCode.UNAUTHORIZED);
      (400, ErrorCode.BAD_REQUEST);
      (409, ErrorCode.CONFLICT);
      (503, ErrorCode.SERVICE_UNAVAILABLE);
      (500, ErrorCode.INTERNAL_SERVER_ERROR)].
Proof.
  apply (classify_table Sample.boom). intros sc ec d; discriminate.
Defined.

(** X11. An error recognised by its name or code is classified without
    looking at its message or stack: the answer carries one of the five
    fixed messages, never the error's own text, and no details. *)
Theorem recognized_error_hides_its_message (err : Err.t)
    (message' : string) (stack' : option string) :
  recognized err ->
  classify (Err.mk (Err.class err) (Err.name err) message' stack'
              (Err.code err))
  = classify err
  /\ In (message (classify err))
        ["Validation Error"; "Unauthorized"; "Invalid ID format";
         "Duplicate field value"; "Service unavailable"]
  /\ details (classify err) = JUndefined.
Proof.
  intros [Hclass Hrec]. unfold classify. cbn [Err.class Err.name Err.code].
  rewrite Hclass.
  destruct (Err.name err =? "ValidationError")%string eqn:E1;
    [repeat split; now left |].
  destruct (Err.name err =? "UnauthorizedError")%string eqn:E2;
    [repeat split; right; now left |].
  destruct (Err.name err =? "JsonWebTokenError")%string eqn:E3;
    [repeat split; right; now left |].
  destruct (Err.name err =? "CastError")%string eqn:E4;
    [repeat split; do 2 right; now left |].
  cbn [orb].
  destruct Hrec as [Hname | [Hcode | Hcode]].
  - exfalso. apply String.eqb_neq in E1, E2, E3, E4.
    cbn [In] in Hname. intuition congruence.
  - rewrite Hcode. cbn [strict_eq_number]. rewrite Z.eqb_refl.
    repeat split; do 3 right; now left.
  - rewrite Hcode. cbn [strict_eq_number strict_eq_string].
    rewrite String.eqb_refl. repeat split; do 4 right; now left.
Qed.

Lemma recognized_error_hides_its_message_witness :
  message
    (classify (Err.mk OtherError "CastError" "Cast to ObjectId failed"
                 None (JNum 11000)))
  = "Invalid ID format".
Proof.
  destruct (recognized_error_hides_its_message
              (Err.mk OtherError "CastError" "Cast to ObjectId failed"
                 None (JNum 11000))
              "" None)
    as (_ & [H | [H | [H | [H | [H | []]]]]] & _);
    [split; [reflexivity | left; cbn; tauto] | ..];
    try discriminate H.
  symmetry; exact H.
Defined.

(** ** The error handler on other inputs *)

(** X12. A [ZodError] that reaches the error handler is answered with
    status 400, "Validation failed" and [VALIDATION_ERROR], whatever its
    name and code; the [errors] field is always present, also when the
    error carries no issue, and holds one [{field, message, code}] entry
    per issue, in order. *)
Theorem errorHandler_ZodError (rt : Runtime) (req : Req.t)
    (issues : list ZodIssue.t) (name msg : string) (stack : option string)
    (code : JValue) :
  exists line meta payload,
    errorHandler rt (Err.mk (ZodErrorInstance issues) name msg stack code) req
    = [LogError line meta; Respond 400 payload]
    /\ field "message" payload = Some (JStr "Validation failed")
    /\ field "errorCode" payload = Some (JStr "VALIDATION_ERROR")
    /\ field "errors" payload = Some (JArr (map formattedError issues)).
Proof.
  set (err := Err.mk (ZodErrorInstance issues) name msg stack code).
  destruct (errorHandler_effects rt err req) as (line & meta & Hrun).
  destruct (envelope_fixed_fields rt err req) as (_ & Hm & Hc & _ & _).
  pose proof (envelope_errors_field rt err req) as He.
  exists line, meta, (jsonify (errorResponse rt err req)).
  repeat match goal with |- _ /\ _ => split end; try assumption.
  rewrite He. change (details (classify err))
    with (JArr (map formattedError issues)).
  cbn [truthy]. f_equal. apply jsonify_array_fixed.
  apply Forall_forall. intros x Hx. apply in_map_iff in Hx.
  destruct Hx as (i & <- & _). apply formattedError_wire.
Qed.

(** X13. The log entry and the response of the error handler agree: the
    log line is "[status] message" with the status and message that are
    sent, the entry records the error's own message and stack in every
    mode, and it has a [details] property exactly when the response has
    an [errors] field. *)
Theorem errorHandler_log_matches_response (rt : Runtime) (err : Err.t)
    (req : Req.t) :
  exists line meta status payload sent,
    errorHandler rt err req = [LogError line meta; Respond status payload]
    /\ field "message" payload = Some (JStr sent)
    /\ line = "[" ++ string_of_Z status ++ "] " ++ sent
    /\ field "error" meta = Some (JStr (Err.message err))
    /\ field "stack" meta = Some (optional_string (Err.stack err))
    /\ field "requestId" meta = Some (optional_string (Req.requestId req))
    /\ (field "details" meta <> None <-> field "errors" payload <> None).
Proof.
  destruct (envelope_fixed_fields rt err req) as (_ & Hm & _ & _ & _).
  pose proof (envelope_errors_field rt err req) as He.
  unfold errorHandler. cbv zeta.
  do 2 eexists.
  exists (statusCode (classify err)), (jsonify (errorResponse rt err req)),
    (message (classify err)).
  split; [reflexivity |]. split; [exact Hm |]. split; [reflexivity |].
  rewrite He.
  destruct (truthy (details (classify err))).
  - repeat split; try reflexivity; intros _; discriminate.
  - repeat split; try reflexivity; intros H; apply H; reflexivity.
Qed.

(** X14. For every error, the response of the error handler has a [stack]
    field exactly when [NODE_ENV] is "development" and the error has a
    non-empty stack; the field then holds that stack.  With [NODE_ENV]
    unset there is never a [stack] field. *)
Theorem errorHandler_stack_only_in_development (rt : Runtime) (err : Err.t)
    (req : Req.t) :
  exists line meta status payload,
    errorHandler rt err req = [LogError line meta; Respond status payload]
    /\ (forall s,
           field "stack" payload = Some (JStr s)
           <-> NODE_ENV rt = Some "development"
               /\ Err.stack err = Some s /\ s <> "")
    /\ (field "stack" payload = None
        \/ exists s, field "stack" payload = Some (JStr s))
    /\ (NODE_ENV rt = None -> field "stack" payload = None).
Proof.
  destruct (errorHandler_effects rt err req) as (line & meta & Hrun).
  exists line, meta, (statusCode (classify err)),
    (jsonify (errorResponse rt err req)).
  split; [exact Hrun |]. rewrite envelope_stack_field.
  unfold stack_shown, config, env_is. cbn [isDevelopment].
  destruct (NODE_ENV rt) as [e|]; cbn [andb].
  2:{ repeat split; try (now left); try discriminate.
      intros (H & _); discriminate H. }
  destruct (e =? "development")%string eqn:E; cbn [andb].
  - apply String.eqb_eq in E. subst e.
    destruct (Err.stack err) as [st|]; cbn [option_map].
    + destruct (st =? "")%string eqn:Est; cbn [negb].
      * apply String.eqb_eq in Est. subst st.
        repeat split; try (now left); try discriminate.
        intros (_ & H & Hne). injection H as <-. now destruct Hne.
      * apply String.eqb_neq in Est.
        split; [| split; [right; now exists st | discriminate]].
        intros s. split.
        -- intros H. injection H as <-. now repeat split.
        -- intros (_ & H & _). now injection H as <-.
    + repeat split; try (now left); try discriminate.
      intros (_ & H & _); discriminate H.
  - apply String.eqb_neq in E.
    repeat split; try (now left); try discriminate.
    intros (H & _). injection H as H. now destruct E.
Qed.

(** ** Configuration *)

(** X15. Of [isProduction], [isDevelopment] and [isTest] at most one
    holds, and each one that holds names [config.env]; but [config.env]
    is "development" with [isDevelopment] false exactly when [NODE_ENV] is
    unset or empty. *)
Theorem config_flags (rt : Runtime) :
  (isProduction (config rt) = true ->
   isDevelopment (config rt) = false /\ isTest (config rt) = false
   /\ env (config rt) = "production")
  /\ (isDevelopment (config rt) = true ->
      isProduction (config rt) = false /\ isTest (config rt) = false
      /\ env (config rt) = "development")
  /\ (isTest (config rt) = true ->
      isProduction (config rt) = false /\ isDevelopment (config rt) = false
      /\ env (config rt) = "test")
  /\ (env (config rt) = "development" /\ isDevelopment (config rt) = false
      <-> NODE_ENV rt = None \/ NODE_ENV rt = Some "").
Proof.
  unfold config, env_is, str_or.
  cbn [isProduction isDevelopment isTest env].
  destruct (NODE_ENV rt) as [e|].
  2:{ repeat split; try discriminate; now left. }
  repeat match goal with |- _ /\ _ => split end.
  - intros H. apply String.eqb_eq in H. subst e. now repeat split.
  - intros H. apply String.eqb_eq in H. subst e. now repeat split.
  - intros H. apply String.eqb_eq in H. subst e. now repeat split.
  - split.
    + intros [Henv Hdev]. right. f_equal.
      destruct (e =? "")%string eqn:E; [now apply String.eqb_eq in E |].
      subst e. discriminate Hdev.
    + intros [H | H]; [discriminate H |]. injection H as ->. now split.
Qed.

(** ** Process-wide handlers *)

(** X16. The handler for unhandled rejections logs once and then ends the
    process exactly when [NODE_ENV] is "development" (so never in
    production); the handler for uncaught exceptions logs once and always
    ends the process with code 1. *)
Theorem global_handlers_exit_policy (rt : Runtime) (reason : JValue)
    (error : Err.t) :
  (exists meta,
      onUnhandledRejection rt reason
      = (ProcessLog "Unhandled Rejection:" meta
         :: (if isDevelopment (config rt) then [Exit 1] else []))%list)
  /\ (In (Exit 1) (onUnhandledRejection rt reason)
      <-> NODE_ENV rt = Some "development")
  /\ (isProduction (config rt) = true ->
      forall code, ~ In (Exit code) (onUnhandledRejection rt reason))
  /\ (exists meta,
         onUncaughtException error
         = [ProcessLog "Uncaught Exception:" meta; Exit 1]).
Proof.
  split; [eexists; reflexivity |]. split; [| split; [| eexists; reflexivity]].
  - unfold onUnhandledRejection, config, env_is. cbn [isDevelopment].
    destruct (NODE_ENV rt) as [e|].
    + destruct (e =? "development")%string eqn:E.
      * apply String.eqb_eq in E. subst e. split; [reflexivity |].
        intros _. right. now left.
      * apply String.eqb_neq in E. split.
        -- intros [H | []]. discriminate H.
        -- intros H. injection H as H. now destruct E.
    + split; [intros [H | []]; discriminate H | discriminate].
  - intros Hp code. apply production_not_development in Hp.
    unfold onUnhandledRejection. rewrite Hp.
    intros [H | []]. discriminate H.
Qed.

(** ** Pagination arithmetic *)

Section PageCounts.

Variables (l : Z).
Hypothesis Hl : safe_integer l.
Hypothesis Hpos : 0 < l.

Lemma ceiling_monotone (t t' : Z) : t <= t' -> ceiling t l <= ceiling t' l.
Proof.
  intros Hle.
  pose proof (ceiling_bounds l t Hpos) as Hb.
  pose proof (ceiling_bounds l t' Hpos) as Hb'.
  destruct (Z_le_gt_dec (ceiling t l) (ceiling t' l)) as [| Hgt]; [assumption |].
  exfalso.
  assert (ceiling t' l * l <= (ceiling t l - 1) * l)
    by (apply Z.mul_le_mono_nonneg_r; lia).
  lia.
Qed.

Lemma ceiling_zero (t : Z) : ceiling t l = 0 <-> - l < t <= 0.
Proof.
  pose proof (ceiling_bounds l t Hpos) as Hb. split.
  - intros Hz. rewrite Hz in Hb. lia.
  - intros Ht. destruct (Z.lt_trichotomy (ceiling t l) 0) as [Hn | [Hz | Hp]];
      [| assumption |]; exfalso.
    + assert (ceiling t l * l <= (- 1) * l)
        by (apply Z.mul_le_mono_nonneg_r; lia). lia.
    + assert (1 * l <= (ceiling t l - 1) * l + l) by nia. lia.
Qed.

Lemma ceiling_multiple (k : Z) : ceiling (k * l) l = k.
Proof.
  unfold ceiling. rewrite <- Z.mul_opp_l, Z.div_mul by lia. lia.
Qed.

End PageCounts.

(** X18. With a positive page size and totals in the safe-integer range,
    [totalPages] does not decrease when [total] grows, is not below 0 for a
    non-negative [total], is a zero exactly when [total] lies in
    [(-limit, 0]], and is [k] when [total] is [k] full pages. *)
Theorem totalPages_growth (page : number) (l t t' : Z) :
  safe_integer l -> safe_integer t -> safe_integer t' -> 0 < l -> t <= t' ->
  let pages (total : Z) :=
    totalPages (createPaginationMeta page (number_of_Z l) (number_of_Z total)) in
  Number_lt (pages t') (pages t) = false
  /\ (0 <= t -> Number_lt (pages t) (number_of_Z 0) = false)
  /\ ((exists s, pages t = S754_zero s) <-> - l < t <= 0)
  /\ (forall k, safe_integer (k * l) -> pages (k * l) = number_of_Z k).
Proof.
  intros Hl Ht Ht' Hpos Hle. cbn [totalPages createPaginationMeta].
  split; [| split; [| split]].
  - rewrite (Number_lt_holds (ceiling t' l) (ceiling t l))
      by (apply totalPages_holds; assumption).
    pose proof (ceiling_monotone l Hpos t t' Hle). apply Z.ltb_ge. assumption.
  - intros H0. rewrite (Number_lt_holds (ceiling t l) 0).
    + pose proof (ceiling_monotone l Hpos 0 t H0) as Hm.
      assert (Hz : ceiling 0 l = 0) by (apply (ceiling_zero l Hpos); lia).
      apply Z.ltb_ge. lia.
    + apply totalPages_holds; assumption.
    + left. split; [reflexivity |]. now exists false.
  - rewrite <- (ceiling_zero l Hpos t).
    destruct (totalPages_holds l t Hl Ht Hpos)
      as [[Hz [s Hs]] | [Hnz (m & e & Hf & _)]].
    + split; [intros _; assumption | intros _; now exists s].
    + split; [| intros Hz; contradiction].
      intros [s Hs]. rewrite Hs in Hf. discriminate.
  - intros k Hk. rewrite totalPages_value by assumption.
    rewrite (ceiling_multiple l Hpos k).
    destruct (Z.eqb_spec k 0) as [-> | Hk0].
    + reflexivity.
    + rewrite andb_false_r. reflexivity.
Qed.

Lemma totalPages_growth_witness :
  Number_lt
    (totalPages (createPaginationMeta (number_of_Z 1) (number_of_Z 10) (number_of_Z 25)))
    (totalPages (createPaginationMeta (number_of_Z 1) (number_of_Z 10) (number_of_Z 21)))
  = false
  /\ totalPages
       (createPaginationMeta (number_of_Z 1) (number_of_Z 10) (number_of_Z (4 * 10)))
     = number_of_Z 4.
Proof.
  assert (H10 : safe_integer 10) by (unfold safe_integer, MAX_SAFE_INTEGER; lia).
  assert (H21 : safe_integer 21) by (unfold safe_integer, MAX_SAFE_INTEGER; lia).
  assert (H25 : safe_integer 25) by (unfold safe_integer, MAX_SAFE_INTEGER; lia).
  assert (H40 : safe_integer (4 * 10)) by (unfold safe_integer, MAX_SAFE_INTEGER; lia).
  destruct (totalPages_growth (number_of_Z 1) 10 21 25 H10 H21 H25
              ltac:(lia) ltac:(lia)) as (Hm & _ & _ & Hk).
  split; [exact Hm | exact (Hk 4 H40)].
Defined.

(** X29. With [limit = 0] the page count is not a finite number:
    [totalPages] is [NaN] for [total = 0] and otherwise the infinity with
    the sign of [total]; [hasNext] then holds exactly for a positive
    [total], whatever the page. *)
Theorem createPaginationMeta_zero_limit (p t : Z) :
  safe_integer p -> safe_integer t ->
  createPaginationMeta (number_of_Z p) (number_of_Z 0) (number_of_Z t)
  = {| page := number_of_Z p;
       limit := number_of_Z 0;
       total := number_of_Z t;
       totalPages := if t =? 0 then S754_nan else S754_infinity (t <? 0);
       hasNext := 0 <? t;
       hasPrev := 1 <? p |}.
Proof.
  intros Hp Ht.
  assert (H1 : safe_integer 1) by (unfold safe_integer, MAX_SAFE_INTEGER; lia).
  assert (Hprev : Number_lt (number_of_Z 1) (number_of_Z p) = (1 <? p))
    by (apply Number_lt_holds; now apply safe_integer_holds).
  unfold createPaginationMeta. rewrite Hprev.
  change (number_of_Z 0) with (S754_zero false).
  destruct (Z.eqb_spec t 0) as [-> | Ht0].
  - change (number_of_Z 0) with (S754_zero false).
    cbn [Number_div SFdiv Math_ceil].
    f_equal. unfold Number_lt, SFltb.
    destruct (number_of_Z p); reflexivity.
  - destruct (safe_integer_holds t Ht) as [[Hz _] | [_ (m & e & -> & _)]];
      [contradiction |].
    cbn [Number_div SFdiv Math_ceil]. rewrite xorb_false_r.
    f_equal. unfold Number_lt, SFltb.
    assert (Hsign : (0 <? t) = negb (t <? 0)).
    { destruct (Z.ltb_spec 0 t), (Z.ltb_spec t 0); try reflexivity; lia. }
    rewrite Hsign.
    destruct (safe_integer_holds p Hp) as [[_ [s ->]] | [_ (m' & e' & -> & _)]];
      cbn [SFcompare]; destruct (t <? 0); reflexivity.
Qed.

Lemma createPaginationMeta_zero_limit_witness :
  createPaginationMeta (number_of_Z 1) (number_of_Z 0) (number_of_Z 25)
  = mkPaginationMeta (number_of_Z 1) (number_of_Z 0) (number_of_Z 25)
      (S754_infinity false) true false
  /\ createPaginationMeta (number_of_Z 1) (number_of_Z 0) (number_of_Z 0)
     = mkPaginationMeta (number_of_Z 1) (number_of_Z 0) (number_of_Z 0)
         S754_nan false false.
Proof.
  assert (H0 : safe_integer 0) by (unfold safe_integer, MAX_SAFE_INTEGER; lia).
  assert (H1 : safe_integer 1) by (unfold safe_integer, MAX_SAFE_INTEGER; lia).
  assert (H25 : safe_integer 25) by (unfold safe_integer, MAX_SAFE_INTEGER; lia).
  split.
  - exact (createPaginationMeta_zero_limit 1 25 H1 H25).
  - exact (createPaginationMeta_zero_limit 1 0 H1 H0).
Defined.

(** ** Success envelopes *)

(** X20. [sendSuccess] answers with the given status, 200 when none is
    given; the body has [success: true], a [message] only when a
    non-empty one is given, a [data] field unless the data is [undefined],
    and a [meta] with the timestamp and, when the request has one, the
    request id. *)
Theorem sendSuccess_envelope (rt : Runtime) (data : JValue)
    (msg : option string) (status : option Z) (req : option Req.t) :
  exists payload meta,
    sendSuccess rt data msg status req
    = Respond (match status with Some c => c | None => 200 end) payload
    /\ field "success" payload = Some (JBool true)
    /\ field "data" payload
       = (if is_undefined data then None else Some (jsonify data))
    /\ field "message" payload
       = match msg with
         | Some m => if (m =? "")%string then None else Some (JStr m)
         | None => None
         end
    /\ field "meta" payload = Some meta
    /\ field "timestamp" meta = Some (JStr (now rt))
    /\ field "requestId" meta
       = match req with
         | Some r => option_map JStr (Req.requestId r)
         | None => None
         end.
Proof.
  unfold sendSuccess, successResponse.
  destruct data; (destruct msg as [m|]; cbn [message_given];
    [destruct (m =? "")%string |]);
    (destruct req as [r|]; cbn [optional_requestId];
     [destruct (Req.requestId r) |]);
    do 2 eexists; repeat split; reflexivity.
Qed.

(** X21. [sendCreated] answers 201 and [sendAccepted] 202; each sends the
    message it is given, its default message when none is given, and no
    [message] field at all when it is given the empty string. *)
Theorem sendCreated_sendAccepted_messages (rt : Runtime) (data : JValue)
    (msg : option string) (req : option Req.t) :
  exists created accepted,
    sendCreated rt data msg req = Respond 201 created
    /\ sendAccepted rt data msg req = Respond 202 accepted
    /\ field "message" created
       = match msg with
         | None => Some (JStr "Resource created successfully")
         | Some m => if (m =? "")%string then None else Some (JStr m)
         end
    /\ field "message" accepted
       = match msg with
         | None => Some (JStr "Request accepted for processing")
         | Some m => if (m =? "")%string then None else Some (JStr m)
         end.
Proof.
  unfold sendCreated, sendAccepted, sendSuccess, successResponse.
  destruct data; (destruct msg as [m|]; cbn [message_given];
    [destruct (m =? "")%string |]);
    (destruct req as [r|]; cbn [optional_requestId];
     [destruct (Req.requestId r) |]);
    do 2 eexists; repeat split; reflexivity.
Qed.

(** ** Environment helpers *)

(** X22. [getEnv] throws exactly when the variable is unset and no
    default is given.  A set, non-empty variable is returned as it is; a
    variable set to the empty string falls back to the default, and
    yields [undefined] without throwing when there is no default. *)
Theorem getEnv_behaviour (rt : Runtime) (penv : ProcessEnv) (key : string)
    (defaultValue : option string) :
  ((exists error, getEnv rt penv key defaultValue = Throw error)
   <-> penv key = None /\ defaultValue = None)
  /\ (forall v, penv key = Some v -> v <> "" ->
                getEnv rt penv key defaultValue = Return (JStr v))
  /\ (penv key = Some "" ->
      getEnv rt penv key defaultValue
      = Return (optional_string defaultValue))
  /\ (forall d, penv key = None -> defaultValue = Some d ->
                getEnv rt penv key defaultValue = Return (JStr d)).
Proof.
  unfold getEnv. repeat match goal with |- _ /\ _ => split end.
  - split.
    + intros [error H].
      destruct (penv key), defaultValue; try discriminate H. now split.
    + intros [-> ->]. now eexists.
  - intros v -> Hne. apply String.eqb_neq in Hne. rewrite Hne.
    now destruct defaultValue.
  - intros ->. now destruct defaultValue.
  - intros d -> ->. reflexivity.
Qed.

Section LowerCase.

Lemma lower_ascii_t (c : ascii) :
  lower_ascii c = "t"%char -> c = "t"%char \/ c = "T"%char.
Proof.
  destruct c as [[] [] [] [] [] [] [] []]; vm_compute; intros H;
    try discriminate H; auto.
Qed.

Lemma lower_ascii_r (c : ascii) :
  lower_ascii c = "r"%char -> c = "r"%char \/ c = "R"%char.
Proof.
  destruct c as [[] [] [] [] [] [] [] []]; vm_compute; intros H;
    try discriminate H; auto.
Qed.

Lemma lower_ascii_u (c : ascii) :
  lower_ascii c = "u"%char -> c = "u"%char \/ c = "U"%char.
Proof.
  destruct c as [[] [] [] [] [] [] [] []]; vm_compute; intros H;
    try discriminate H; auto.
Qed.

Lemma lower_ascii_e (c : ascii) :
  lower_ascii c = "e"%char -> c = "e"%char \/ c = "E"%char.
Proof.
  destruct c as [[] [] [] [] [] [] [] []]; vm_compute; intros H;
    try discriminate H; auto.
Qed.

End LowerCase.

(** X23. [getEnvBoolean] uses its default only when the variable is
    unset.  For a set variable the result is [true] exactly when the value
    is "true" in any mix of upper and lower case; every other value, the
    empty string included, gives [false] whatever the default is. *)
Theorem getEnvBoolean_behaviour (penv : ProcessEnv) (key : string)
    (defaultValue : option bool) :
  (penv key = None ->
   getEnvBoolean penv key defaultValue
   = match defaultValue with Some d => d | None => false end)
  /\ (forall v,
         penv key = Some v ->
         (getEnvBoolean penv key defaultValue = true
          <-> exists a b c d,
              v = String a (String b (String c (String d EmptyString)))
              /\ (a = "t" \/ a = "T")%char
              /\ (b = "r" \/ b = "R")%char
              /\ (c = "u" \/ c = "U")%char
              /\ (d = "e" \/ d = "E")%char)).
Proof.
  unfold getEnvBoolean. split; [now intros -> |].
  intros v ->. rewrite String.eqb_eq. split.
  - destruct v as [|a [|b [|c [|d [|x v]]]]]; cbn [toLowerCase];
      intros H; try discriminate H.
    injection H as Ha Hb Hc Hd.
    exists a, b, c, d. split; [reflexivity |].
    repeat split;
      [now apply lower_ascii_t | now apply lower_ascii_r
       | now apply lower_ascii_u | now apply lower_ascii_e].
  - intros (a & b & c & d & -> & Ha & Hb & Hc & Hd).
    destruct Ha as [-> | ->], Hb as [-> | ->], Hc as [-> | ->],
      Hd as [-> | ->]; reflexivity.
Qed.

Lemma getEnvBoolean_behaviour_witness :
  getEnvBoolean (fun _ => Some "TRUE") "DEBUG" None = true
  /\ getEnvBoolean (fun _ => None) "DEBUG" (Some true) = true.
Proof.
  destruct (getEnvBoolean_behaviour (fun _ => Some "TRUE") "DEBUG" None)
    as [_ Hset].
  destruct (getEnvBoolean_behaviour (fun _ => None) "DEBUG" (Some true))
    as [Hunset _].
  split.
  - apply (Hset "TRUE" eq_refl).
    exists "T"%char, "R"%char, "U"%char, "E"%char. now repeat split; auto.
  - exact (Hunset eq_refl).
Defined.

(** ** Request ids *)

(** X24. [requestIdMiddleware] takes as id the incoming header value when
    that is a non-empty string, and the generated id when the header is
    absent or empty; it attaches the id to the request, echoes the same id
    in the response header, touches no section, and calls [next()].  An
    error answered afterwards by [errorHandler] carries that id in its
    [requestId] field. *)
Theorem requestId_reaches_the_envelope (header : option string)
    (generated : string) (req : Req.t) (rt : Runtime) (err : Err.t) :
  exists name id req',
    requestIdMiddleware header generated req
    = (req', [(name, id)], [Next None])
    /\ name = match header with Some h => h | None => "X-Request-Id" end
    /\ Req.requestId req' = Some id
    /\ (forall s, Req.get req' s = Req.get req s)
    /\ (forall v, field (toLowerCase name) (Req.headers req) = Some (JStr v) ->
                  id = if (v =? "")%string then generated else v)
    /\ (field (toLowerCase name) (Req.headers req) = None -> id = generated)
    /\ exists line meta status payload,
        errorHandler rt err req' = [LogError line meta; Respond status payload]
        /\ field "requestId" payload = Some (JStr id).
Proof.
  unfold requestIdMiddleware.
  set (name := match header with Some h => h | None => "X-Request-Id" end).
  set (id := header_or req (toLowerCase name) generated).
  exists name, id, (set_requestId req id).
  split; [reflexivity |]. split; [reflexivity |]. split; [reflexivity |].
  split; [intros s; destruct s; reflexivity |].
  split; [| split].
  - intros v Hv. unfold id, header_or. now rewrite Hv.
  - intros Hnone. unfold id, header_or. now rewrite Hnone.
  - destruct (errorHandler_effects rt err (set_requestId req id))
      as (line & meta & Hrun).
    destruct (envelope_fixed_fields rt err (set_requestId req id))
      as (_ & _ & _ & Hid & _).
    exists line, meta, (statusCode (classify err)),
      (jsonify (errorResponse rt err (set_requestId req id))).
    split; [exact Hrun | exact Hid].
Qed.

(** ** Sanitizing *)

Section JValueInduction.

Variable P : JValue -> Prop.
Hypothesis P_undefined : P JUndefined.
Hypothesis P_null : P JNull.
Hypothesis P_bool : forall b, P (JBool b).
Hypothesis P_num : forall n, P (JNum n).
Hypothesis P_str : forall s, P (JStr s).
Hypothesis P_arr : forall items, Forall P items -> P (JArr items).
Hypothesis P_obj :
  forall fs, Forall (fun kv => P (snd kv)) fs -> P (JObj fs).

(** Induction on a value, with the hypothesis for every element of an
    array and every property value of an object. *)
Lemma JValue_nested_ind : forall v, P v.
Proof.
  fix IH 1. intros [| | b | n | s | items | fs].
  - exact P_undefined.
  - exact P_null.
  - apply P_bool.
  - apply P_num.
  - apply P_str.
  - apply P_arr.
    exact ((fix all (l : list JValue) : Forall P l :=
              match l with
              | [] => Forall_nil P
              | x :: rest => Forall_cons x (IH x) (all rest)
              end) items).
  - apply P_obj.
    exact ((fix all (l : list (string * JValue))
              : Forall (fun kv => P (snd kv)) l :=
              match l with
              | [] => Forall_nil _
              | kv :: rest => Forall_cons kv (IH (snd kv)) (all rest)
              end) fs).
Qed.

End JValueInduction.

Section Sanitize.

(** The loop of [sanitizeObject], as a filter followed by a map. *)
Lemma sanitizeObject_object (fs : list (string * JValue)) :
  sanitizeObject (JObj fs)
  = JObj (map (fun kv => (fst kv, sanitizeObject (snd kv)))
              (filter (fun kv => kept_key (fst kv)) fs)).
Proof.
  cbn [sanitizeObject]. f_equal.
  induction fs as [|[k x] rest IH]; [reflexivity |].
  cbn [filter fst]. destruct (kept_key k); cbn [map fst snd]; now rewrite IH.
Qed.

Lemma matches_dollar (p s : string) :
  matches_ci (String "$" p) s = true -> no_dollar s = false.
Proof.
  destruct s as [|c rest]; [discriminate |].
  cbn [matches_ci no_dollar]. intros H. apply andb_prop in H.
  destruct H as [H _]. apply Ascii.eqb_eq in H.
  destruct c as [[] [] [] [] [] [] [] []]; vm_compute in H;
    try discriminate H; reflexivity.
Qed.

Lemma remove_ci_no_dollar (p s : string) :
  no_dollar s = true -> remove_ci (String "$" p) 0 s = s.
Proof.
  induction s as [|c rest IH]; [reflexivity |].
  intros Hs. cbn [remove_ci].
  destruct (matches_ci (String "$" p) (String c rest)) eqn:E.
  - apply matches_dollar in E. congruence.
  - cbn [no_dollar] in Hs. apply andb_prop in Hs. destruct Hs as [_ Hs].
    now rewrite IH.
Qed.

Lemma sanitizeValue_no_dollar (s : string) :
  no_dollar s = true -> sanitizeValue (JStr s) = JStr s.
Proof.
  intros Hs. unfold sanitizeValue. cbv zeta.
  rewrite (remove_ci_no_dollar "where" s Hs).
  rewrite (remove_ci_no_dollar "ne" s Hs).
  rewrite (remove_ci_no_dollar "gt" s Hs).
  now rewrite (remove_ci_no_dollar "lt" s Hs).
Qed.

Lemma no_dollar_kept (k : string) :
  no_dollar k = true -> startsWith_dollar k = false.
Proof.
  destruct k as [|c rest]; [reflexivity |]. cbn [no_dollar startsWith_dollar].
  intros H. apply andb_prop in H. destruct H as [H _].
  now apply negb_true_iff in H.
Qed.

End Sanitize.

Section SanitizedKeys.

Lemma sanitized_keys (v : JValue) :
  no_dollar_keys (sanitizeObject v) = true.
Proof.
  induction v using JValue_nested_ind; try reflexivity.
  - cbn [sanitizeObject no_dollar_keys]. rewrite forallb_forall.
    intros y Hy. apply in_map_iff in Hy. destruct Hy as (x & <- & Hx).
    rewrite Forall_forall in H. now apply H.
  - rewrite sanitizeObject_object. cbn [no_dollar_keys].
    rewrite forallb_forall. intros [k y] Hy.
    apply in_map_iff in Hy. destruct Hy as ([k' x] & Heq & Hx).
    cbn [fst snd] in Heq. injection Heq as <- <-.
    apply filter_In in Hx. destruct Hx as [Hx Hkept]. cbn [fst] in Hkept.
    unfold kept_key in Hkept. apply andb_prop in Hkept.
    destruct Hkept as [Hkept _]. rewrite Hkept. cbn [andb].
    rewrite Forall_forall in H. apply (H (k', x) Hx).
Qed.

Lemma falsy_no_keys (v : JValue) :
  truthy v = false -> no_dollar_keys v = true.
Proof. destruct v; try reflexivity; discriminate. Qed.

End SanitizedKeys.

(** X25. Whatever it is given, [sanitizeObject] returns a value in which
    no object, at any depth, has a key that starts with [$].  When
    [req.query] can be assigned, or is not truthy, [sanitizeMiddleware]
    calls [next()] and leaves behind a request whose [body], [query] and
    [params] have no such key, with the headers and the rest of the
    request untouched.  When [req.query] is truthy and has only a getter,
    the middleware throws the TypeError of the assignment after it has
    sanitized [body]: [next()] is not called, and [query] and [params]
    are left as they were. *)
Theorem sanitize_strips_dollar_keys (req : Req.t) :
  (forall v, no_dollar_keys (sanitizeObject v) = true)
  /\ (assignable req Source.query = true \/ truthy (Req.query req) = false ->
      exists req',
        sanitizeMiddleware req = (req', [Next None], None)
        /\ no_dollar_keys (Req.body req') = true
        /\ no_dollar_keys (Req.query req') = true
        /\ no_dollar_keys (Req.params req') = true
        /\ Req.headers req' = Req.headers req
        /\ same_context req' req)
  /\ (forall trace,
         Req.query_getter_only req = Some trace ->
         truthy (Req.query req) = true ->
         exists req',
           sanitizeMiddleware req
           = (req', [], Some (TypeError_getter_only trace))
           /\ no_dollar_keys (Req.body req') = true
           /\ Req.query req' = Req.query req
           /\ Req.params req' = Req.params req
           /\ Req.headers req' = Req.headers req).
Proof.
  split; [exact sanitized_keys |].
  destruct req as [b q p h rid url pth m ip go].
  unfold sanitizeMiddleware, sanitize_section, assign_section, assignable,
    same_context.
  cbn [Req.get Req.body Req.query Req.params Req.headers Req.requestId
       Req.originalUrl Req.path Req.method Req.ip Req.query_getter_only
       set_section].
  destruct (truthy b) eqn:Eb;
    cbn [Req.get Req.body Req.query Req.params Req.headers Req.requestId
         Req.originalUrl Req.path Req.method Req.ip Req.query_getter_only
         set_section];
    (destruct (truthy q) eqn:Eq;
     cbn [Req.get Req.body Req.query Req.params Req.headers Req.requestId
          Req.originalUrl Req.path Req.method Req.ip Req.query_getter_only
          set_section]);
    (destruct go as [trace|];
     cbn [Req.get Req.body Req.query Req.params Req.headers Req.requestId
          Req.originalUrl Req.path Req.method Req.ip Req.query_getter_only
          set_section]);
    (destruct (truthy p) eqn:Ep;
     cbn [Req.get Req.body Req.query Req.params Req.headers Req.requestId
          Req.originalUrl Req.path Req.method Req.ip Req.query_getter_only
          set_section]);
    (split;
     [ intros [Ha | Ha]; try discriminate Ha;
       eexists; (split; [reflexivity |]);
       cbn [Req.body Req.query Req.params Req.headers Req.requestId
            Req.originalUrl Req.path Req.method Req.ip];
       repeat split;
       try apply sanitized_keys; try (now apply falsy_no_keys)
     | intros trace' Ht Hq; try discriminate Ht; try discriminate Hq;
       injection Ht as <-;
       eexists; (split; [reflexivity |]);
       cbn [Req.body Req.query Req.params Req.headers];
       repeat split;
       try apply sanitized_keys; try (now apply falsy_no_keys) ]).
Qed.

Lemma sanitize_strips_dollar_keys_witness :
  (exists req',
      sanitizeMiddleware
        (set_section Sample.request Source.query
           (JObj [("$where", JStr "1"); ("q", JStr "x")]))
      = (req', [Next None], None)
      /\ Req.query req' = JObj [("q", JStr "x")])
  /\ exists req' trace,
      sanitizeMiddleware Sample.request5
      = (req', [], Some (TypeError_getter_only trace)).
Proof.
  split.
  - eexists. split; reflexivity.
  - destruct (sanitize_strips_dollar_keys Sample.request5)
      as (_ & _ & Hthrows).
    destruct (Hthrows _ eq_refl eq_refl) as (req' & Hrun & _).
    exists req'. eexists. exact Hrun.
Defined.

(** X26. [sanitizeObject] returns unchanged any value that has no [$]
    character in a string or key and no key [__proto__]: harmless data
    passes through the sanitizer as it is. *)
Theorem sanitizeObject_keeps_plain_data (v : JValue) :
  plain v = true -> sanitizeObject v = v.
Proof.
  induction v using JValue_nested_ind; try reflexivity.
  - intros Hp. now apply sanitizeValue_no_dollar.
  - cbn [plain sanitizeObject]. intros Hp. f_equal.
    rewrite forallb_forall in Hp. rewrite Forall_forall in H.
    induction items as [|x rest IH]; [reflexivity |].
    cbn [map]. rewrite (H x) by (now left || (apply Hp; now left)).
    rewrite IH; [reflexivity | |]; intros y Hy; [apply H | apply Hp];
      now right.
  - rewrite sanitizeObject_object. cbn [plain]. intros Hp. f_equal.
    rewrite forallb_forall in Hp. rewrite Forall_forall in H.
    induction fs as [|[k x] rest IH]; [reflexivity |].
    pose proof (Hp (k, x) (or_introl eq_refl)) as Hkx. cbn in Hkx.
    apply andb_prop in Hkx. destruct Hkx as [Hkx Hx].
    apply andb_prop in Hkx. destruct Hkx as [Hk Hproto].
    cbn [filter fst]. unfold kept_key at 1.
    rewrite (no_dollar_kept k Hk), Hproto. cbn [negb andb map fst snd].
    pose proof (H (k, x) (or_introl eq_refl)) as Hsx. cbn [snd] in Hsx.
    rewrite (Hsx Hx).
    rewrite IH; [reflexivity | |]; intros y Hy; [apply H | apply Hp];
      now right.
Qed.

Lemma sanitizeObject_keeps_plain_data_witness :
  sanitizeObject (JObj [("name", JStr "Ada"); ("tags", JArr [JStr "a"; JNum 1])])
  = JObj [("name", JStr "Ada"); ("tags", JArr [JStr "a"; JNum 1])].
Proof.
  apply (sanitizeObject_keeps_plain_data
           (JObj [("name", JStr "Ada"); ("tags", JArr [JStr "a"; JNum 1])])).
  reflexivity.
Defined.

(** ** The validators against each other and against the error handler *)

(** X27. For a mapping with a single source, [validateAll] leaves the
    request exactly as [validate] does for that source and schema; it
    calls [next()] whenever [validate] does, and when it answers 400 so
    does [validate]. *)
Theorem validateAll_single_source_like_validate (schema : ZodSchema)
    (source : ValidationSource) (req : Req.t) :
  fst (validateAll [(source, schema)] req)
  = fst (validate schema (Some source) req)
  /\ (snd (validate schema (Some source) req) = [Next None] ->
      snd (validateAll [(source, schema)] req) = [Next None])
  /\ (forall payload,
         snd (validateAll [(source, schema)] req) = [Respond 400 payload] ->
         exists payload',
           snd (validate schema (Some source) req) = [Respond 400 payload']).
Proof.
  rewrite validateAll_unfold. unfold validateAll_loop. cbn [fold_left].
  rewrite step_unfold, validate_unfold. cbn [source_or_default].
  destruct (schema (Req.get req source)) as [v | e].
  - unfold assignable.
    destruct source, (Req.query_getter_only req) as [trace|];
      cbn [fst snd];
      (split; [reflexivity |]); (split; [reflexivity |]);
      intros payload H; discriminate H.
  - unfold validateAll_catch, validate_catch.
    destruct (Err.class e) as [issues | |]; cbn [fst snd app].
    + split; [reflexivity |]. split; [intros H; discriminate H |].
      intros payload _. now eexists.
    + split; [reflexivity |]. split; [reflexivity |].
      intros payload H; discriminate H.
    + split; [reflexivity |]. split; [reflexivity |].
      intros payload H; discriminate H.
Qed.

(** X28. A [ZodError] is reported with the same [errors] list, the same
    message and the same status whether [validate] answers it on the spot
    or it reaches [errorHandler]; only the error handler adds
    [errorCode: "VALIDATION_ERROR"]. *)
Theorem validate_and_errorHandler_report_alike (schema : ZodSchema)
    (source : option ValidationSource) (req : Req.t) (rt : Runtime)
    (error : Err.t) (issues : list ZodIssue.t) :
  schema (Req.get req (source_or_default source)) = Throw error ->
  Err.class error = ZodErrorInstance issues ->
  exists local line meta central,
    snd (validate schema source req) = [Respond 400 local]
    /\ errorHandler rt error req = [LogError line meta; Respond 400 central]
    /\ field "errors" local = field "errors" central
    /\ field "message" local = field "message" central
    /\ field "success" local = field "success" central
    /\ field "errorCode" local = None
    /\ field "errorCode" central = Some (JStr "VALIDATION_ERROR").
Proof.
  intros Hparse Hclass.
  assert (Hc : classify error
               = mkClassification 400 "Validation failed"
                   ErrorCode.VALIDATION_ERROR
                   (JArr (map formattedError issues)))
    by (unfold classify; now rewrite Hclass).
  assert (Hwire : Forall (fun x => jsonify x = x /\ is_undefined x = false)
                         (map formattedError issues)).
  { apply Forall_forall. intros x Hx. apply in_map_iff in Hx.
    destruct Hx as (i & <- & _). apply formattedError_wire. }
  destruct (errorHandler_effects rt error req) as (line & meta & Hrun).
  destruct (envelope_fixed_fields rt error req) as (Hs & Hm & Hcode & _ & _).
  pose proof (envelope_errors_field rt error req) as He.
  rewrite Hc in Hrun, Hm, Hcode, He.
  cbn [statusCode message errorCode details truthy] in *.
  rewrite (jsonify_array_fixed _ Hwire) in He.
  eexists. exists line, meta, (jsonify (errorResponse rt error req)).
  split.
  - unfold validate, validate_catch. rewrite Hparse, Hclass. cbn [snd].
    rewrite (jsonify_failure_body _ Hwire). reflexivity.
  - split; [exact Hrun |]. rewrite He, Hm, Hs, Hcode.
    repeat split; reflexivity.
Qed.

Lemma validate_and_errorHandler_report_alike_witness :
  exists local line meta central,
    snd (validate (Sample.requiredString "name") (Some Source.body)
           Sample.request)
    = [Respond 400 local]
    /\ errorHandler Sample.production
         (ZodError_new Sample.production
            [ZodIssue.mk [Key "name"] "Required" "invalid_type"] "Required")
         Sample.request
       = [LogError line meta; Respond 400 central]
    /\ field "errors" local = field "errors" central.
Proof.
  destruct (validate_and_errorHandler_report_alike
              (Sample.requiredString "name") (Some Source.body)
              Sample.request Sample.production
              (ZodError_new Sample.production
                 [ZodIssue.mk [Key "name"] "Required" "invalid_type"]
                 "Required")
              [ZodIssue.mk [Key "name"] "Required" "invalid_type"]
              eq_refl eq_refl)
    as (local & line & meta & central & Hl & Hc & He & _).
  exists local, line, meta, central.
  split; [exact Hl | split; [exact Hc | exact He]].
Defined.
